(** * Shopify -> Xero sync: reconciliation engine, mapping store and checksums

    A shallow embedding of [src/checksums.py], [src/models.py],
    [src/database.py] and [src/sync_engine.py].

    Conventions of the embedding.
    - A Python [str] is a Rocq [string] holding its UTF-8 bytes, so that
      [data.encode("utf-8")] is the identity on the representation and
      concatenation commutes with encoding.
    - A Python [int] is a [Z]; a [datetime] is a [Z] (a point on the time line).
    - [Optional[T]] is [option T].
    - The SQLite file behind [Database] is a record of three tables.
    - Every remote call (Shopify, Xero) is answered by an oracle that sees the
      log of the calls made so far; the log is part of the engine state. *)

From Stdlib Require Import ZArith List String Ascii Lia Bool.
From Stdlib Require Import DecimalString DecimalZ Sorted.
From stdpp Require Import base option list gmap strings.

Import ListNotations.
Local Open Scope string_scope.
Local Open Scope Z_scope.

(* ===================================================================== *)
(** ** Python primitives used by the sources *)
(* ===================================================================== *)

Module Py.

(** Truth value of a [str]: empty is falsy. *)
Definition truthy (s : string) : bool :=
  match s with EmptyString => false | String _ _ => true end.

(** Truth value of an [Optional[str]]: [None] and [""] are falsy. *)
Definition truthy_opt (o : option string) : bool :=
  match o with Some s => truthy s | None => false end.

(** [s or d] for [s : str]. *)
Definition str_or (s d : string) : string := if truthy s then s else d.

(** [o or d] for [o : Optional[str]]. *)
Definition opt_or (o : option string) (d : string) : string :=
  match o with Some s => str_or s d | None => d end.

(** [sep.join(parts)]. *)
Definition join (sep : string) (parts : list string) : string :=
  String.concat sep parts.

(** [str(n)] for an [int]. *)
Definition str_of_int (n : Z) : string :=
  NilZero.string_of_int (Z.to_int n).

(** Number of leading bytes of [s] that hold its first [n] code points:
    a byte [10xxxxxx] continues the code point before it. *)
Definition is_continuation (a : ascii) : bool :=
  let c := Z.of_N (N_of_ascii a) in (128 <=? c) && (c <? 192).

Fixpoint drop_continuation (s : string) : string * string :=
  match s with
  | String a rest =>
      if is_continuation a
      then let '(k, r) := drop_continuation rest in (String a k, r)
      else (EmptyString, s)
  | EmptyString => (EmptyString, EmptyString)
  end.

(** [s[:n]], slicing by code points as Python does. *)
Fixpoint slice_to (fuel : nat) (n : nat) (s : string) : string :=
  match fuel, n, s with
  | S fuel', S n', String a rest =>
      let '(k, r) := drop_continuation rest in
      String a (k +:+ slice_to fuel' n' r)
  | _, _, _ => EmptyString
  end.

Definition take_chars (n : nat) (s : string) : string :=
  slice_to (String.length s) n s.

End Py.

(* ===================================================================== *)
(** ** [hashlib.sha256(...).hexdigest()] *)
(* ===================================================================== *)

Module Sha256.

Definition mask32 : Z := 4294967295.
Definition wrap (x : Z) : Z := Z.land x mask32.
Definition add32 (x y : Z) : Z := wrap (x + y).
Definition rotr (n x : Z) : Z :=
  Z.lor (Z.shiftr x n) (wrap (Z.shiftl x (32 - n))).
Definition compl (x : Z) : Z := Z.lxor x mask32.

Definition choose (x y z : Z) : Z :=
  Z.lxor (Z.land x y) (Z.land (compl x) z).
Definition majority (x y z : Z) : Z :=
  Z.lxor (Z.lxor (Z.land x y) (Z.land x z)) (Z.land y z).
Definition big_sigma0 (x : Z) : Z :=
  Z.lxor (Z.lxor (rotr 2 x) (rotr 13 x)) (rotr 22 x).
Definition big_sigma1 (x : Z) : Z :=
  Z.lxor (Z.lxor (rotr 6 x) (rotr 11 x)) (rotr 25 x).
Definition small_sigma0 (x : Z) : Z :=
  Z.lxor (Z.lxor (rotr 7 x) (rotr 18 x)) (Z.shiftr x 3).
Definition small_sigma1 (x : Z) : Z :=
  Z.lxor (Z.lxor (rotr 17 x) (rotr 19 x)) (Z.shiftr x 10).

(** Round constants (fractional parts of the cube roots of the first 64
    primes), in decimal. *)
Definition round_constants : list Z :=
  [ 1116352408; 1899447441; 3049323471; 3921009573; 961987163; 1508970993;
    2453635748; 2870763221; 3624381080; 310598401; 607225278; 1426881987;
    1925078388; 2162078206; 2614888103; 3248222580; 3835390401; 4022224774;
    264347078; 604807628; 770255983; 1249150122; 1555081692; 1996064986;
    2554220882; 2821834349; 2952996808; 3210313671; 3336571891; 3584528711;
    113926993; 338241895; 666307205; 773529912; 1294757372; 1396182291;
    1695183700; 1986661051; 2177026350; 2456956037; 2730485921; 2820302411;
    3259730800; 3345764771; 3516065817; 3600352804; 4094571909; 275423344;
    430227734; 506948616; 659060556; 883997877; 958139571; 1322822218;
    1537002063; 1747873779; 1955562222; 2024104815; 2227730452; 2361852424;
    2428436474; 2756734187; 3204031479; 3329325298 ].

Definition initial_hash : list Z :=
  [ 1779033703; 3144134277; 1013904242; 2773480762;
    1359893119; 2600822924; 528734635; 1541459225 ].

(** Big-endian bytes of [x], [n] of them. *)
Fixpoint be_bytes (n : nat) (x : Z) : list Z :=
  match n with
  | O => []
  | S n' => Z.land (Z.shiftr x (8 * Z.of_nat n')) 255 :: be_bytes n' x
  end.

(** Message followed by 0x80, zeros up to 56 mod 64, and the bit length. *)
Definition pad (msg : list Z) : list Z :=
  let len := Z.of_nat (List.length msg) in
  let zeros := Z.to_nat ((55 - len) mod 64) in
  msg ++ 128 :: repeat 0 zeros ++ be_bytes 8 (8 * len).

Fixpoint be_words (fuel : nat) (bytes : list Z) : list Z :=
  match fuel, bytes with
  | S fuel', a :: b :: c :: d :: rest =>
      (Z.shiftl a 24 + Z.shiftl b 16 + Z.shiftl c 8 + d) :: be_words fuel' rest
  | _, _ => []
  end.

(** The message schedule: [window] holds the last sixteen words, oldest
    first; [extend n window] lists the next [n] words. *)
Fixpoint extend (n : nat) (window : list Z) : list Z :=
  match n with
  | O => []
  | S n' =>
      let at_ i := nth i window 0 in
      let next :=
        add32 (add32 (small_sigma1 (at_ 14%nat)) (at_ 9%nat))
              (add32 (small_sigma0 (at_ 1%nat)) (at_ 0%nat)) in
      next :: extend n' (tl window ++ [next])
  end.

Definition schedule (block : list Z) : list Z := block ++ extend 48 block.

Record regs := Regs { ra : Z; rb : Z; rc : Z; rd : Z;
                      re : Z; rf : Z; rg : Z; rh : Z }.

Definition round (r : regs) (kw : Z * Z) : regs :=
  let '(k, w) := kw in
  let t1 := add32 (add32 (add32 (rh r) (big_sigma1 (re r)))
                         (add32 (choose (re r) (rf r) (rg r)) k)) w in
  let t2 := add32 (big_sigma0 (ra r)) (majority (ra r) (rb r) (rc r)) in
  Regs (add32 t1 t2) (ra r) (rb r) (rc r) (add32 (rd r) t1) (re r) (rf r) (rg r).

Definition regs_of (h : list Z) : regs :=
  let at_ i := nth i h 0 in
  Regs (at_ 0%nat) (at_ 1%nat) (at_ 2%nat) (at_ 3%nat)
       (at_ 4%nat) (at_ 5%nat) (at_ 6%nat) (at_ 7%nat).

Definition list_of (r : regs) : list Z :=
  [ra r; rb r; rc r; rd r; re r; rf r; rg r; rh r].

Definition compress (h : list Z) (block : list Z) : list Z :=
  let r := fold_left round (combine round_constants (schedule block)) (regs_of h) in
  map (fun p => add32 (fst p) (snd p)) (combine h (list_of r)).

Fixpoint blocks (fuel : nat) (h : list Z) (words : list Z) : list Z :=
  match fuel, words with
  | S fuel', _ :: _ => blocks fuel' (compress h (firstn 16 words)) (skipn 16 words)
  | _, _ => h
  end.

Definition digest_words (msg : list Z) : list Z :=
  let bytes := pad msg in
  let words := be_words (List.length bytes) bytes in
  blocks (List.length words) initial_hash words.

Definition hex_digit (n : Z) : ascii :=
  ascii_of_N (Z.to_N (if n <? 10 then 48 + n else 87 + n)).

Fixpoint hex_of (nibbles : nat) (x : Z) : string :=
  match nibbles with
  | O => EmptyString
  | S n' => String (hex_digit (Z.land (Z.shiftr x (4 * Z.of_nat n')) 15)) (hex_of n' x)
  end.

Definition bytes_of_string (s : string) : list Z :=
  map (fun a => Z.of_N (N_of_ascii a)) (list_ascii_of_string s).

(** [hashlib.sha256(data).hexdigest()] on the bytes of [data]. *)
Definition hexdigest (data : string) : string :=
  String.concat "" (map (hex_of 8) (digest_words (bytes_of_string data))).

End Sha256.

(* ===================================================================== *)
(** ** [src/models.py]: the entities *)
(* ===================================================================== *)

(** Only the fields read by the checksum functions, the converters and the
    sync engine are kept; the other pydantic fields (notes, tags, marketing
    consent, barcodes, ...) are never read by the code embedded here. *)

Module ShopifyAddress.
Record t := Build {
  address1 : option string;
  address2 : option string;
  city : option string;
  province : option string;
  country : option string;
  zip : option string;
  phone : option string }.
End ShopifyAddress.

Module ShopifyCustomer.
Record t := Build {
  id : Z;
  email : option string;
  first_name : option string;
  last_name : option string;
  phone : option string;
  updated_at : option Z;
  default_address : option ShopifyAddress.t }.

Definition with_id (c : t) (i : Z) : t :=
  Build i (email c) (first_name c) (last_name c) (phone c) (updated_at c)
        (default_address c).

(** [" ".join(p for p in parts if p) or "Unknown"] *)
Definition full_name (c : t) : string :=
  let parts := [first_name c; last_name c] in
  Py.str_or
    (Py.join " " (omap (fun p => if Py.truthy_opt p then p else None) parts))
    "Unknown".
End ShopifyCustomer.

Module ShopifyProductVariant.
Record t := Build {
  price : string;
  sku : option string }.
End ShopifyProductVariant.

Module ShopifyProduct.
Record t := Build {
  id : Z;
  title : string;
  vendor : option string;
  product_type : option string;
  updated_at : option Z;
  variants : list ShopifyProductVariant.t }.

Definition with_id (p : t) (i : Z) : t :=
  Build i (title p) (vendor p) (product_type p) (updated_at p) (variants p).

(** [self.variants[0] if self.variants else None] *)
Definition primary_variant (p : t) : option ShopifyProductVariant.t :=
  match variants p with v :: _ => Some v | [] => None end.
End ShopifyProduct.

Module ShopifyLineItem.
Record t := Build {
  title : string;
  quantity : Z;
  sku : option string;
  price : string }.
End ShopifyLineItem.

Module ShopifyOrder.
Record t := Build {
  id : Z;
  order_number : Z;
  email : option string;
  created_at : option Z;
  updated_at : option Z;
  currency : string;
  total_price : string;
  subtotal_price : string;
  total_tax : string;
  total_discounts : string;
  financial_status : option string;
  customer : option ShopifyCustomer.t;
  line_items : list ShopifyLineItem.t }.

Definition with_id (o : t) (i : Z) : t :=
  Build i (order_number o) (email o) (created_at o) (updated_at o) (currency o)
        (total_price o) (subtotal_price o) (total_tax o) (total_discounts o)
        (financial_status o) (customer o) (line_items o).
End ShopifyOrder.

Module XeroAddress.
Record t := Build {
  AddressType : string;
  AddressLine1 : option string;
  AddressLine2 : option string;
  City : option string;
  Region : option string;
  PostalCode : option string;
  Country : option string }.
End XeroAddress.

Module XeroPhone.
Record t := Build {
  PhoneType : string;
  PhoneNumber : option string }.
End XeroPhone.

Module XeroContact.
Record t := Build {
  ContactID : option string;
  ContactStatus : string;
  Name : string;
  FirstName : option string;
  LastName : option string;
  EmailAddress : option string;
  Addresses : list XeroAddress.t;
  Phones : list XeroPhone.t;
  IsCustomer : bool;
  IsSupplier : bool }.

Definition with_ContactID (c : t) (i : option string) : t :=
  Build i (ContactStatus c) (Name c) (FirstName c) (LastName c)
        (EmailAddress c) (Addresses c) (Phones c) (IsCustomer c) (IsSupplier c).
End XeroContact.

(** [SalesDetails] and [PurchaseDetails] (a float unit price and the GL
    account codes of [constants.py]) are payload details that no decision of
    the engine reads; they are left out of the item. *)
Module XeroItem.
Record t := Build {
  ItemID : option string;
  Code : string;
  Name : string;
  Description : option string;
  IsSold : bool;
  IsPurchased : bool }.

Definition with_ItemID (i : t) (x : option string) : t :=
  Build x (Code i) (Name i) (Description i) (IsSold i) (IsPurchased i).
End XeroItem.

(** The float amounts of a line are left out; [Quantity] keeps the integer
    that [float(item.quantity)] converts. *)
Module XeroLineItem.
Record t := Build {
  Description : string;
  Quantity : Z;
  AccountCode : string;
  ItemCode : option string;
  TaxType : string }.
End XeroLineItem.

Module XeroInvoice.
Record t := Build {
  InvoiceID : option string;
  Reference : option string;
  Type_ : string;
  Status : string;
  ContactID : option string;
  LineItems : list XeroLineItem.t;
  Date : option Z;
  DueDate : option Z;
  CurrencyCode : string }.
End XeroInvoice.

Module SyncMapping.
Record t := Build {
  shopify_id : string;
  xero_id : string;
  entity_type : string;
  last_synced_at : option Z;
  shopify_updated_at : option Z;
  checksum : option string }.
End SyncMapping.

Module SyncHistoryEntry.
Record t := Build {
  run_id : string;
  started_at : Z;
  completed_at : option Z;
  status : string;
  entities_processed : Z;
  errors : list string }.
End SyncHistoryEntry.

Module SyncError.
Record t := Build {
  id : Z;
  entity_type : string;
  shopify_id : string;
  error_message : string;
  occurred_at : Z;
  retry_count : Z }.
End SyncError.

(** Exceptions, by the only distinction the engine makes: [XeroAPIError]
    (with its subclasses [XeroRateLimitError] and [XeroAuthError]) against
    every other [Exception].  The payload is [str(e)]. *)
Inductive exn :=
| XeroAPIError (msg : string)
| PyException (msg : string).

Definition str_exn (e : exn) : string :=
  match e with XeroAPIError m => m | PyException m => m end.

Inductive outcome (A : Type) :=
| Ok (a : A)
| Raise (e : exn).
Arguments Ok {A} a.
Arguments Raise {A} e.

(** Constants of [src/constants.py] that the engine reads. *)
Definition INVOICE_REFERENCE_PREFIX : string := "SHOP-".
Definition DEFAULT_LINE_ITEM_ACCOUNT : string := "200".
Definition DEFAULT_GL_MAPPING_sales_account : string := "200".
Definition DEFAULT_TAX_TYPE : string := "OUTPUT2".

(* --------------------------------------------------------------------- *)
(** *** Conversion helpers *)
(* --------------------------------------------------------------------- *)

Definition shopify_customer_to_xero_contact (customer : ShopifyCustomer.t)
  : XeroContact.t :=
  let addresses :=
    match ShopifyCustomer.default_address customer with
    | Some addr =>
        [XeroAddress.Build "POBOX"
           (ShopifyAddress.address1 addr) (ShopifyAddress.address2 addr)
           (ShopifyAddress.city addr) (ShopifyAddress.province addr)
           (ShopifyAddress.zip addr) (ShopifyAddress.country addr)]
    | None => []
    end in
  let phone_number :=
    if Py.truthy_opt (ShopifyCustomer.phone customer)
    then ShopifyCustomer.phone customer
    else match ShopifyCustomer.default_address customer with
         | Some addr => ShopifyAddress.phone addr
         | None => None
         end in
  let phones :=
    if Py.truthy_opt phone_number
    then [XeroPhone.Build "DEFAULT" phone_number] else [] in
  let name := ShopifyCustomer.full_name customer in
  let name :=
    if String.eqb name "Unknown" && Py.truthy_opt (ShopifyCustomer.email customer)
    then Py.opt_or (ShopifyCustomer.email customer) ""
    else if Py.truthy_opt (ShopifyCustomer.email customer)
    then ShopifyCustomer.full_name customer +:+ " (" +:+
         Py.opt_or (ShopifyCustomer.email customer) "" +:+ ")"
    else name in
  XeroContact.Build None "ACTIVE" name
    (ShopifyCustomer.first_name customer) (ShopifyCustomer.last_name customer)
    (ShopifyCustomer.email customer) addresses phones true false.

Section Converters.

(** [float_accepts s] tells whether Python's [float(s)] returns; it raises
    [ValueError] otherwise.  The parser belongs to the interpreter, not to
    the repository. *)
Variable float_accepts : string -> bool.

Definition float_of (s : string) : outcome unit :=
  if float_accepts s then Ok tt
  else Raise (PyException ("could not convert string to float: " +:+ s)).

(** [XeroItem] or [None] when the product has no SKU. *)
Definition shopify_product_to_xero_item (product : ShopifyProduct.t)
  : outcome (option XeroItem.t) :=
  match ShopifyProduct.primary_variant product with
  | None => Ok None
  | Some variant =>
      if negb (Py.truthy_opt (ShopifyProductVariant.sku variant)) then Ok None
      else
        match (if Py.truthy (ShopifyProductVariant.price variant)
               then float_of (ShopifyProductVariant.price variant)
               else Ok tt) with
        | Raise e => Raise e
        | Ok _ =>
            Ok (Some (XeroItem.Build None
                        (Py.opt_or (ShopifyProductVariant.sku variant) "")
                        (Py.take_chars 50 (ShopifyProduct.title product))
                        (Some (ShopifyProduct.title product))
                        true true))
        end
  end.

(** The line items of the invoice, built in order; the first price that
    [float] rejects raises. *)
Fixpoint invoice_lines (sku_to_gl_code : gmap string string)
    (items : list ShopifyLineItem.t) : outcome (list XeroLineItem.t) :=
  match items with
  | [] => Ok []
  | item :: rest =>
      let account_code :=
        if negb (bool_decide (sku_to_gl_code = ∅)) &&
           Py.truthy_opt (ShopifyLineItem.sku item)
        then default DEFAULT_LINE_ITEM_ACCOUNT
               (sku_to_gl_code !! Py.opt_or (ShopifyLineItem.sku item) "")
        else DEFAULT_LINE_ITEM_ACCOUNT in
      match (if Py.truthy (ShopifyLineItem.price item)
             then float_of (ShopifyLineItem.price item) else Ok tt) with
      | Raise e => Raise e
      | Ok _ =>
          match invoice_lines sku_to_gl_code rest with
          | Raise e => Raise e
          | Ok lines =>
              Ok (XeroLineItem.Build (ShopifyLineItem.title item)
                    (ShopifyLineItem.quantity item) account_code
                    (ShopifyLineItem.sku item) DEFAULT_TAX_TYPE :: lines)
          end
      end
  end.

(** [discount_positive s] tells whether [float(s) > 0] for an accepted [s];
    like the parser it is a primitive of the interpreter. *)
Variable discount_positive : string -> bool.

(** [now] is the reading of the clock used when the order has no
    [created_at]. *)
Definition shopify_order_to_xero_invoice (order : ShopifyOrder.t)
    (contact_id : string) (sku_to_gl_code : gmap string string) (now : Z)
  : outcome XeroInvoice.t :=
  match invoice_lines sku_to_gl_code (ShopifyOrder.line_items order) with
  | Raise e => Raise e
  | Ok lines =>
      match (if Py.truthy (ShopifyOrder.total_discounts order)
             then float_of (ShopifyOrder.total_discounts order)
             else Ok tt) with
      | Raise e => Raise e
      | Ok _ =>
          let lines :=
            if Py.truthy (ShopifyOrder.total_discounts order) &&
               discount_positive (ShopifyOrder.total_discounts order)
            then (lines ++ [XeroLineItem.Build "Discount" 1
                            DEFAULT_LINE_ITEM_ACCOUNT None DEFAULT_TAX_TYPE])%list
            else lines in
          let reference :=
            INVOICE_REFERENCE_PREFIX +:+
            Py.str_of_int (ShopifyOrder.order_number order) in
          let invoice_date :=
            match ShopifyOrder.created_at order with
            | Some d => d
            | None => now
            end in
          let status :=
            if bool_decide (ShopifyOrder.financial_status order = Some "paid")
            then "AUTHORISED" else "DRAFT" in
          Ok (XeroInvoice.Build None (Some reference) "ACCREC" status
                (Some contact_id) lines (Some invoice_date) (Some invoice_date)
                (Py.str_or (ShopifyOrder.currency order) "GBP"))
      end
  end.

End Converters.

(* ===================================================================== *)
(** ** [src/checksums.py] *)
(* ===================================================================== *)

(** The list handed to ["|".join] by [calculate_customer_checksum]. *)
Definition customer_checksum_fields (customer : ShopifyCustomer.t) : list string :=
  let address_parts :=
    match ShopifyCustomer.default_address customer with
    | Some addr =>
        [ Py.opt_or (ShopifyAddress.address1 addr) "";
          Py.opt_or (ShopifyAddress.address2 addr) "";
          Py.opt_or (ShopifyAddress.city addr) "";
          Py.opt_or (ShopifyAddress.province addr) "";
          Py.opt_or (ShopifyAddress.zip addr) "";
          Py.opt_or (ShopifyAddress.country addr) "" ]
    | None => []
    end in
  let phone := Py.opt_or (ShopifyCustomer.phone customer) "" in
  let phone :=
    match ShopifyCustomer.default_address customer with
    | Some addr =>
        if negb (Py.truthy phone) then Py.opt_or (ShopifyAddress.phone addr) ""
        else phone
    | None => phone
    end in
  ([ Py.opt_or (ShopifyCustomer.email customer) "";
    Py.opt_or (ShopifyCustomer.first_name customer) "";
    Py.opt_or (ShopifyCustomer.last_name customer) "";
    phone ]%list ++ address_parts)%list.

Definition customer_checksum_data (customer : ShopifyCustomer.t) : string :=
  Py.join "|" (customer_checksum_fields customer).

Definition calculate_customer_checksum (customer : ShopifyCustomer.t) : string :=
  Sha256.hexdigest (customer_checksum_data customer).

(** The list handed to ["|".join] by [calculate_product_checksum]. *)
Definition product_checksum_fields (product : ShopifyProduct.t) : list string :=
  let variant := ShopifyProduct.primary_variant product in
  [ Py.str_or (ShopifyProduct.title product) "";
    Py.opt_or (ShopifyProduct.vendor product) "";
    Py.opt_or (ShopifyProduct.product_type product) "";
    match variant with Some v => ShopifyProductVariant.price v | None => "" end;
    match variant with
    | Some v => Py.opt_or (ShopifyProductVariant.sku v) ""
    | None => ""
    end ].

Definition product_checksum_data (product : ShopifyProduct.t) : string :=
  Py.join "|" (product_checksum_fields product).

Definition calculate_product_checksum (product : ShopifyProduct.t) : string :=
  Sha256.hexdigest (product_checksum_data product).

(** [f"{item.title}:{item.quantity}:{item.price}"] *)
Definition line_item_data (item : ShopifyLineItem.t) : string :=
  ShopifyLineItem.title item +:+ ":" +:+
  Py.str_of_int (ShopifyLineItem.quantity item) +:+ ":" +:+
  ShopifyLineItem.price item.

(** The list handed to ["|".join] by [calculate_order_checksum]. *)
Definition order_checksum_fields (order : ShopifyOrder.t) : list string :=
  let line_items_data := map line_item_data (ShopifyOrder.line_items order) in
  [ Py.str_of_int (ShopifyOrder.order_number order);
    Py.str_or (ShopifyOrder.total_price order) "0.00";
    Py.str_or (ShopifyOrder.subtotal_price order) "0.00";
    Py.str_or (ShopifyOrder.total_tax order) "0.00";
    Py.opt_or (ShopifyOrder.financial_status order) "";
    Py.opt_or (ShopifyOrder.email order) "";
    Py.join ";" line_items_data ].

Definition order_checksum_data (order : ShopifyOrder.t) : string :=
  Py.join "|" (order_checksum_fields order).

Definition calculate_order_checksum (order : ShopifyOrder.t) : string :=
  Sha256.hexdigest (order_checksum_data order).

Definition has_changed (old_checksum : option string) (new_checksum : string) : bool :=
  match old_checksum with
  | None => true
  | Some old => negb (String.eqb old new_checksum)
  end.

(* ===================================================================== *)
(** ** [src/database.py]: the SQLite store *)
(* ===================================================================== *)

Module Database.

(** A row of [sync_mappings] without its primary key [shopify_id]. *)
Record MappingRow := BuildRow {
  xero_id : string;
  entity_type : string;
  last_synced_at : option Z;
  shopify_updated_at : option Z;
  checksum : option string }.

(** [sync_mappings] is keyed by its primary key; [sync_history] and
    [sync_errors] are kept in row order; [sync_errors_seq] is the largest
    id that AUTOINCREMENT has handed out. *)
Record t := Build {
  sync_mappings : gmap string MappingRow;
  sync_history : list SyncHistoryEntry.t;
  sync_errors : list SyncError.t;
  sync_errors_seq : Z }.

Definition empty : t := Build ∅ [] [] 0.

Definition with_mappings (d : t) (m : gmap string MappingRow) : t :=
  Build m (sync_history d) (sync_errors d) (sync_errors_seq d).
Definition with_history (d : t) (h : list SyncHistoryEntry.t) : t :=
  Build (sync_mappings d) h (sync_errors d) (sync_errors_seq d).
Definition with_errors (d : t) (e : list SyncError.t) (seq : Z) : t :=
  Build (sync_mappings d) (sync_history d) e seq.

Definition mapping_of_row (shopify_id : string) (r : MappingRow) : SyncMapping.t :=
  SyncMapping.Build shopify_id (xero_id r) (entity_type r) (last_synced_at r)
    (shopify_updated_at r) (checksum r).

(* --- sync mappings --- *)

Definition get_mapping (d : t) (shopify_id : string) : option SyncMapping.t :=
  mapping_of_row shopify_id <$> sync_mappings d !! shopify_id.

Definition get_all_mappings (d : t) (entity_type_filter : option string)
  : list SyncMapping.t :=
  let rows := map_to_list (sync_mappings d) in
  let rows :=
    if Py.truthy_opt entity_type_filter
    then List.filter
           (fun kr => String.eqb (entity_type (snd kr))
                        (Py.opt_or entity_type_filter "")) rows
    else rows in
  map (fun kr => mapping_of_row (fst kr) (snd kr)) rows.

(** INSERT ... ON CONFLICT(shopify_id) DO UPDATE SET xero_id,
    last_synced_at, shopify_updated_at, checksum: on a conflict the stored
    [entity_type] stays. *)
Definition upsert_mapping (d : t) (mapping : SyncMapping.t) : t :=
  let key := SyncMapping.shopify_id mapping in
  let row :=
    match sync_mappings d !! key with
    | Some old =>
        BuildRow (SyncMapping.xero_id mapping) (entity_type old)
          (SyncMapping.last_synced_at mapping)
          (SyncMapping.shopify_updated_at mapping)
          (SyncMapping.checksum mapping)
    | None =>
        BuildRow (SyncMapping.xero_id mapping) (SyncMapping.entity_type mapping)
          (SyncMapping.last_synced_at mapping)
          (SyncMapping.shopify_updated_at mapping)
          (SyncMapping.checksum mapping)
    end in
  with_mappings d (<[key := row]> (sync_mappings d)).

Definition delete_mapping (d : t) (shopify_id : string) : t * bool :=
  (with_mappings d (delete shopify_id (sync_mappings d)),
   bool_decide (is_Some (sync_mappings d !! shopify_id))).

(* --- sync history --- *)

(** The INSERT fails on a [run_id] that is already a primary key. *)
Definition start_sync_run (d : t) (run_id : string) (now : Z) : outcome t :=
  if existsb (fun h => String.eqb (SyncHistoryEntry.run_id h) run_id) (sync_history d)
  then Raise (PyException "UNIQUE constraint failed: sync_history.run_id")
  else Ok (with_history d
             (sync_history d ++
              [SyncHistoryEntry.Build run_id now None "running" 0 []])).

Definition complete_sync_run (d : t) (run_id status : string)
    (entities_processed : Z) (errors : list string) (now : Z) : t :=
  with_history d
    (map (fun h =>
            if String.eqb (SyncHistoryEntry.run_id h) run_id
            then SyncHistoryEntry.Build run_id (SyncHistoryEntry.started_at h)
                   (Some now) status entities_processed errors
            else h)
         (sync_history d)).

(** NULL sorts below every value, so it comes last under DESC. *)
Definition completed_before (a b : option Z) : bool :=
  match a, b with
  | None, Some _ => true
  | Some x, Some y => x <? y
  | _, None => false
  end.

(** WHERE status = 'success' ORDER BY completed_at DESC LIMIT 1; among
    equal timestamps the earliest row is kept. *)
Definition get_last_successful_sync (d : t) : option SyncHistoryEntry.t :=
  fold_left
    (fun best h =>
       if String.eqb (SyncHistoryEntry.status h) "success"
       then match best with
            | None => Some h
            | Some b =>
                if completed_before (SyncHistoryEntry.completed_at b)
                     (SyncHistoryEntry.completed_at h)
                then Some h else Some b
            end
       else best)
    (sync_history d) None.

(* --- sync errors --- *)

Definition error_matches (entity_type shopify_id : string) (e : SyncError.t) : bool :=
  String.eqb (SyncError.entity_type e) entity_type &&
  String.eqb (SyncError.shopify_id e) shopify_id.

(** SELECT id, retry_count ... WHERE entity_type = ? AND shopify_id = ?
    ORDER BY occurred_at DESC LIMIT 1; among equal timestamps the earliest
    row is kept. *)
Definition find_error (d : t) (entity_type shopify_id : string)
  : option SyncError.t :=
  fold_left
    (fun best e =>
       if error_matches entity_type shopify_id e
       then match best with
            | None => Some e
            | Some b =>
                if SyncError.occurred_at b <? SyncError.occurred_at e
                then Some e else Some b
            end
       else best)
    (sync_errors d) None.

Definition record_error (d : t) (entity_type shopify_id error_message : string)
    (now : Z) : t :=
  match find_error d entity_type shopify_id with
  | Some existing =>
      with_errors d
        (map (fun e =>
                if SyncError.id e =? SyncError.id existing
                then SyncError.Build (SyncError.id e) (SyncError.entity_type e)
                       (SyncError.shopify_id e) error_message now
                       (SyncError.retry_count e + 1)
                else e)
             (sync_errors d))
        (sync_errors_seq d)
  | None =>
      let new_id := sync_errors_seq d + 1 in
      with_errors d
        (sync_errors d ++
         [SyncError.Build new_id entity_type shopify_id error_message now 0])
        new_id
  end.

(** DELETE FROM sync_errors WHERE shopify_id = ?; true when a row went. *)
Definition clear_error (d : t) (shopify_id : string) : t * bool :=
  let kept :=
    List.filter (fun e => negb (String.eqb (SyncError.shopify_id e) shopify_id))
      (sync_errors d) in
  (with_errors d kept (sync_errors_seq d),
   existsb (fun e => String.eqb (SyncError.shopify_id e) shopify_id) (sync_errors d)).

End Database.

(* ===================================================================== *)
(** ** The world of the engine: store, call log, clock *)
(* ===================================================================== *)

(** Every call that leaves the process, and the two calls that open and
    close a run record, in the order they are made. *)
Inductive call :=
| Shopify_update_customer_email_marketing (customer_id : Z)
| Shopify_fetch_all_customers (updated_at_min : option Z)
| Shopify_fetch_all_products (updated_at_min : option Z)
| Shopify_fetch_all_orders (updated_at_min : option Z)
| Xero_find_contact_by_email (email : string)
| Xero_create_contact (contact : XeroContact.t)
| Xero_update_contact (contact : XeroContact.t)
| Xero_find_item_by_code (code : string)
| Xero_get_item_by_id (item_id : string)
| Xero_create_item (item : XeroItem.t)
| Xero_update_item (item : XeroItem.t)
| Xero_find_invoice_by_reference (reference : string)
| Xero_create_invoice (invoice : XeroInvoice.t)
| Db_start_sync_run (run_id : string)
| Db_complete_sync_run (run_id status : string) (entities_processed : Z)
    (errors : list string).

(** Calls that create or update a record of the destination. *)
Definition is_create (c : call) : bool :=
  match c with
  | Xero_create_contact _ | Xero_create_item _ | Xero_create_invoice _ => true
  | _ => false
  end.

Definition is_update (c : call) : bool :=
  match c with
  | Xero_update_contact _ | Xero_update_item _ => true
  | _ => false
  end.

Definition is_mutation (c : call) : bool := is_create c || is_update c.

(** The two remote systems and the clock.  Each answer may depend on the
    calls made before it. *)
Record Remote := BuildRemote {
  clock : nat -> Z;
  update_customer_email_marketing : list call -> Z -> outcome unit;
  fetch_all_customers : list call -> option Z -> outcome (list ShopifyCustomer.t);
  fetch_all_products : list call -> option Z -> outcome (list ShopifyProduct.t);
  fetch_all_orders : list call -> option Z -> outcome (list ShopifyOrder.t);
  fetch_contact_by_email : list call -> string -> outcome (option XeroContact.t);
  post_contact : list call -> XeroContact.t -> outcome XeroContact.t;
  put_contact : list call -> XeroContact.t -> outcome XeroContact.t;
  fetch_item_by_code : list call -> string -> outcome (option XeroItem.t);
  fetch_item_by_id : list call -> string -> outcome (option XeroItem.t);
  post_item : list call -> XeroItem.t -> outcome XeroItem.t;
  put_item : list call -> XeroItem.t -> outcome XeroItem.t;
  fetch_invoice_by_reference : list call -> string -> outcome (option XeroInvoice.t);
  post_invoice : list call -> XeroInvoice.t -> outcome XeroInvoice.t }.

Record World := BuildWorld {
  db : Database.t;
  log : list call;
  ticks : nat }.

Definition M (A : Type) : Type := World -> outcome A * World.

Definition ret {A} (a : A) : M A := fun w => (Ok a, w).

Definition raise {A} (e : exn) : M A := fun w => (Raise e, w).

Definition bind {A B} (m : M A) (k : A -> M B) : M B :=
  fun w =>
    match m w with
    | (Ok a, w') => k a w'
    | (Raise e, w') => (Raise e, w')
    end.

Notation "'let*' x ':=' m 'in' k" := (bind m (fun x => k))
  (at level 10, x pattern, m at level 100, k at level 200).
Notation "m ';;' k" := (bind m (fun _ => k))
  (at level 100, k at level 200, right associativity).

(** [try: m  except XeroAPIError as e: handler e] *)
Definition except_XeroAPIError {A} (m : M A) (handler : string -> M A) : M A :=
  fun w =>
    match m w with
    | (Raise (XeroAPIError msg), w') => handler msg w'
    | r => r
    end.

(** [try: m  except Exception as e: handler e] *)
Definition except_Exception {A} (m : M A) (handler : exn -> M A) : M A :=
  fun w =>
    match m w with
    | (Raise e, w') => handler e w'
    | r => r
    end.

Definition lift {A} (o : outcome A) : M A := fun w => (o, w).

Definition read_db : M Database.t := fun w => (Ok (db w), w).

Definition write_db (d : Database.t) : M unit :=
  fun w => (Ok tt, BuildWorld d (log w) (ticks w)).

Definition record_call (c : call) : M unit :=
  fun w => (Ok tt, BuildWorld (db w) (log w ++ [c]) (ticks w)).

(** [Settings] of [src/config.py], as far as the engine reads them. *)
Record Settings := BuildSettings {
  settings_dry_run : bool;
  enable_email_marketing : bool }.

Record SyncEngine := BuildSyncEngine {
  settings : Settings;
  dry_run : bool }.

(** [SyncEngine.__init__]: [self.dry_run = dry_run or settings.dry_run]. *)
Definition SyncEngine_init (settings : Settings) (dry_run : bool) : SyncEngine :=
  BuildSyncEngine settings (dry_run || settings_dry_run settings).

Record SyncResult := BuildSyncResult {
  success : bool;
  created : Z;
  updated : Z;
  skipped : Z;
  errors : list string }.

Definition SyncResult_total_processed (r : SyncResult) : Z :=
  created r + updated r + skipped r.

Record SyncStats := BuildSyncStats {
  run_id : string;
  started_at : Z;
  completed_at : option Z;
  customers : option SyncResult;
  products : option SyncResult;
  orders : option SyncResult }.

Definition SyncStats_total_errors (s : SyncStats) : list string :=
  (from_option errors [] (customers s) ++
   from_option errors [] (products s) ++
   from_option errors [] (orders s))%list.

Definition SyncStats_total_processed (s : SyncStats) : Z :=
  from_option SyncResult_total_processed 0 (customers s) +
  from_option SyncResult_total_processed 0 (products s) +
  from_option SyncResult_total_processed 0 (orders s).

Definition SyncStats_success (s : SyncStats) : bool :=
  bool_decide (List.length (SyncStats_total_errors s) = 0%nat).

Section Engine.

Variable remote : Remote.
Variable float_accepts : string -> bool.
Variable discount_positive : string -> bool.

(** [datetime.utcnow()] *)
Definition utcnow : M Z :=
  fun w => (Ok (clock remote (ticks w)), BuildWorld (db w) (log w) (S (ticks w))).

(** A remote call: the answer is fixed by the calls made so far, then the
    call itself joins the log. *)
Definition remote_call {A} (c : call) (answer : list call -> outcome A) : M A :=
  fun w => (answer (log w), BuildWorld (db w) (log w ++ [c]) (ticks w)).

(* --- the store, as the engine calls it --- *)

Definition db_get_mapping (shopify_id : string) : M (option SyncMapping.t) :=
  let* d := read_db in ret (Database.get_mapping d shopify_id).

Definition db_upsert_mapping (mapping : SyncMapping.t) : M unit :=
  let* d := read_db in write_db (Database.upsert_mapping d mapping).

Definition db_clear_error (shopify_id : string) : M bool :=
  let* d := read_db in
  write_db (fst (Database.clear_error d shopify_id));;
  ret (snd (Database.clear_error d shopify_id)).

Definition db_record_error (entity_type shopify_id error_message : string) : M unit :=
  let* d := read_db in
  let* now := utcnow in
  write_db (Database.record_error d entity_type shopify_id error_message now).

Definition db_get_last_successful_sync : M (option SyncHistoryEntry.t) :=
  let* d := read_db in ret (Database.get_last_successful_sync d).

Definition db_start_sync_run (run_id : string) : M unit :=
  record_call (Db_start_sync_run run_id);;
  let* d := read_db in
  let* now := utcnow in
  let* d' := lift (Database.start_sync_run d run_id now) in
  write_db d'.

Definition db_complete_sync_run (run_id status : string)
    (entities_processed : Z) (errors : list string) : M unit :=
  record_call (Db_complete_sync_run run_id status entities_processed errors);;
  let* d := read_db in
  let* now := utcnow in
  write_db (Database.complete_sync_run d run_id status entities_processed errors now).

(** [SyncMapping(...)]: pydantic rejects a [xero_id] that is [None]. *)
Definition new_SyncMapping (shopify_id : string) (xero_id : option string)
    (entity_type : string) (last_synced_at shopify_updated_at : option Z)
    (checksum : option string) : M SyncMapping.t :=
  match xero_id with
  | Some x =>
      ret (SyncMapping.Build shopify_id x entity_type last_synced_at
             shopify_updated_at checksum)
  | None => raise (PyException "1 validation error for SyncMapping")
  end.

(* --- [src/xero_client.py], down to the request --- *)

Definition find_contact_by_email (email : string) : M (option XeroContact.t) :=
  if negb (Py.truthy email) then ret None
  else remote_call (Xero_find_contact_by_email email)
         (fun h => fetch_contact_by_email remote h email).

Definition create_contact (contact : XeroContact.t) : M XeroContact.t :=
  remote_call (Xero_create_contact contact) (fun h => post_contact remote h contact).

Definition update_contact (contact : XeroContact.t) : M XeroContact.t :=
  if negb (Py.truthy_opt (XeroContact.ContactID contact))
  then raise (XeroAPIError "Contact ID required for update")
  else remote_call (Xero_update_contact contact) (fun h => put_contact remote h contact).

Definition find_item_by_code (code : string) : M (option XeroItem.t) :=
  if negb (Py.truthy code) then ret None
  else remote_call (Xero_find_item_by_code code)
         (fun h => fetch_item_by_code remote h code).

Definition get_item_by_id (item_id : string) : M (option XeroItem.t) :=
  if negb (Py.truthy item_id) then ret None
  else remote_call (Xero_get_item_by_id item_id)
         (fun h => fetch_item_by_id remote h item_id).

Definition create_item (item : XeroItem.t) : M XeroItem.t :=
  remote_call (Xero_create_item item) (fun h => post_item remote h item).

Definition update_item (item : XeroItem.t) : M XeroItem.t :=
  if negb (Py.truthy_opt (XeroItem.ItemID item))
  then raise (XeroAPIError "Item ID required for update")
  else remote_call (Xero_update_item item) (fun h => put_item remote h item).

Definition find_invoice_by_reference (reference : string) : M (option XeroInvoice.t) :=
  if negb (Py.truthy reference) then ret None
  else remote_call (Xero_find_invoice_by_reference reference)
         (fun h => fetch_invoice_by_reference remote h reference).

Definition create_invoice (invoice : XeroInvoice.t) : M XeroInvoice.t :=
  remote_call (Xero_create_invoice invoice) (fun h => post_invoice remote h invoice).

(* =================================================================== *)
(** ** [src/sync_engine.py] *)
(* =================================================================== *)

Variable self : SyncEngine.

Definition action_result : Type := string * option string.

(* --- customers --- *)

Definition _update_customer_email_marketing (customer_id : Z) : M unit :=
  if dry_run self then ret tt
  else remote_call (Shopify_update_customer_email_marketing customer_id)
         (fun h => update_customer_email_marketing remote h customer_id).

(** The tail of [_create_customer_in_xero]: no active contact to link. *)
Definition create_new_contact (customer : ShopifyCustomer.t) (checksum : string)
  : M action_result :=
  let shopify_id := Py.str_of_int (ShopifyCustomer.id customer) in
  let xero_contact := shopify_customer_to_xero_contact customer in
  if dry_run self then ret ("created", None)
  else
    except_XeroAPIError
      (let* created_contact := create_contact xero_contact in
       let* now := utcnow in
       let* mapping :=
         new_SyncMapping shopify_id (XeroContact.ContactID created_contact)
           "customer" (Some now) (ShopifyCustomer.updated_at customer)
           (Some checksum) in
       db_upsert_mapping mapping;;
       db_clear_error shopify_id;;
       ret ("created", None))
      (fun e =>
         ret ("skipped",
              Some ("Failed to create contact for customer " +:+ shopify_id
                    +:+ ": " +:+ e))).

Definition _create_customer_in_xero (customer : ShopifyCustomer.t)
    (checksum : string) : M action_result :=
  let shopify_id := Py.str_of_int (ShopifyCustomer.id customer) in
  let* existing_contact :=
    if Py.truthy_opt (ShopifyCustomer.email customer)
    then except_XeroAPIError
           (find_contact_by_email (Py.opt_or (ShopifyCustomer.email customer) ""))
           (fun _ => ret None)
    else ret None in
  match existing_contact with
  | Some existing =>
      if String.eqb (XeroContact.ContactStatus existing) "ARCHIVED"
      then create_new_contact customer checksum
      else
        let* now := utcnow in
        let* mapping :=
          new_SyncMapping shopify_id (XeroContact.ContactID existing) "customer"
            (Some now) (ShopifyCustomer.updated_at customer) (Some checksum) in
        db_upsert_mapping mapping;;
        db_clear_error shopify_id;;
        let xero_contact :=
          XeroContact.with_ContactID (shopify_customer_to_xero_contact customer)
            (XeroContact.ContactID existing) in
        if dry_run self then ret ("updated", None)
        else
          except_XeroAPIError
            (update_contact xero_contact;; ret ("updated", None))
            (fun e =>
               ret ("skipped",
                    Some ("Failed to update existing contact for customer "
                          +:+ shopify_id +:+ ": " +:+ e)))
  | None => create_new_contact customer checksum
  end.

Definition _update_customer_in_xero (customer : ShopifyCustomer.t)
    (mapping : SyncMapping.t) (new_checksum : string) : M action_result :=
  let shopify_id := Py.str_of_int (ShopifyCustomer.id customer) in
  let xero_contact :=
    XeroContact.with_ContactID (shopify_customer_to_xero_contact customer)
      (Some (SyncMapping.xero_id mapping)) in
  if dry_run self then ret ("updated", None)
  else
    except_XeroAPIError
      (update_contact xero_contact;;
       let* now := utcnow in
       db_upsert_mapping
         (SyncMapping.Build (SyncMapping.shopify_id mapping)
            (SyncMapping.xero_id mapping) (SyncMapping.entity_type mapping)
            (Some now) (ShopifyCustomer.updated_at customer) (Some new_checksum));;
       db_clear_error shopify_id;;
       ret ("updated", None))
      (fun e =>
         ret ("skipped",
              Some ("Failed to update contact for customer " +:+ shopify_id
                    +:+ ": " +:+ e))).

Definition _sync_single_customer (customer : ShopifyCustomer.t) : M action_result :=
  let shopify_id := Py.str_of_int (ShopifyCustomer.id customer) in
  let new_checksum := calculate_customer_checksum customer in
  (if enable_email_marketing (settings self)
   then except_Exception
          (_update_customer_email_marketing (ShopifyCustomer.id customer))
          (fun _ => ret tt)
   else ret tt);;
  let* mapping := db_get_mapping shopify_id in
  match mapping with
  | Some mapping =>
      if negb (has_changed (SyncMapping.checksum mapping) new_checksum)
      then ret ("skipped", None)
      else _update_customer_in_xero customer mapping new_checksum
  | None => _create_customer_in_xero customer new_checksum
  end.

(* --- products --- *)

(** The tail of [_create_product_in_xero]: no item to link. *)
Definition create_new_item (product : ShopifyProduct.t) (xero_item : XeroItem.t)
    (checksum : string) : M action_result :=
  let shopify_id := Py.str_of_int (ShopifyProduct.id product) in
  if dry_run self then ret ("created", None)
  else
    except_XeroAPIError
      (let* created_item := create_item xero_item in
       let* now := utcnow in
       let* mapping :=
         new_SyncMapping shopify_id (XeroItem.ItemID created_item) "product"
           (Some now) (ShopifyProduct.updated_at product) (Some checksum) in
       db_upsert_mapping mapping;;
       db_clear_error shopify_id;;
       ret ("created", None))
      (fun e =>
         ret ("skipped",
              Some ("Failed to create item for product " +:+ shopify_id
                    +:+ ": " +:+ e))).

Definition _create_product_in_xero (product : ShopifyProduct.t)
    (xero_item : XeroItem.t) (checksum : string) : M action_result :=
  let shopify_id := Py.str_of_int (ShopifyProduct.id product) in
  let* existing_item :=
    except_XeroAPIError (find_item_by_code (XeroItem.Code xero_item))
      (fun _ => ret None) in
  match existing_item with
  | Some existing =>
      let* now := utcnow in
      let* mapping :=
        new_SyncMapping shopify_id (XeroItem.ItemID existing) "product"
          (Some now) (ShopifyProduct.updated_at product) (Some checksum) in
      db_upsert_mapping mapping;;
      db_clear_error shopify_id;;
      let xero_item := XeroItem.with_ItemID xero_item (XeroItem.ItemID existing) in
      if dry_run self then ret ("updated", None)
      else
        except_XeroAPIError
          (update_item xero_item;; ret ("updated", None))
          (fun e =>
             ret ("skipped",
                  Some ("Failed to update existing item for product "
                        +:+ shopify_id +:+ ": " +:+ e)))
  | None => create_new_item product xero_item checksum
  end.

(** [self.db.upsert_mapping] of a mapping whose [xero_id] was assigned from
    a created item: the column is NOT NULL. *)
Definition upsert_repointed (mapping : SyncMapping.t) (xero_id : option string)
    (last_synced_at shopify_updated_at : option Z) (checksum : option string)
  : M unit :=
  match xero_id with
  | Some x =>
      db_upsert_mapping
        (SyncMapping.Build (SyncMapping.shopify_id mapping) x
           (SyncMapping.entity_type mapping) last_synced_at shopify_updated_at
           checksum)
  | None => raise (PyException "NOT NULL constraint failed: sync_mappings.xero_id")
  end.

(** The SKU check that opens [_update_product_in_xero]: [Some r] when the
    method returns [r] from inside it, [None] when control reaches the
    normal update. *)
Definition sku_change_check (product : ShopifyProduct.t) (xero_item : XeroItem.t)
    (mapping : SyncMapping.t) (new_checksum : string)
  : M (option action_result) :=
  let shopify_id := Py.str_of_int (ShopifyProduct.id product) in
  except_XeroAPIError
    (let* current_xero_item := get_item_by_id (SyncMapping.xero_id mapping) in
     match current_xero_item with
     | Some current =>
         if negb (String.eqb (XeroItem.Code current) (XeroItem.Code xero_item))
         then
           if negb (dry_run self)
           then
             except_XeroAPIError
               (update_item
                  (XeroItem.Build (XeroItem.ItemID current) (XeroItem.Code current)
                     ("[ARCHIVED] " +:+ XeroItem.Name current)
                     (XeroItem.Description current) false false);;
                ret tt)
               (fun _ => ret tt);;
             except_XeroAPIError
               (let* created_item := create_item xero_item in
                let* now := utcnow in
                upsert_repointed mapping (XeroItem.ItemID created_item) (Some now)
                  (ShopifyProduct.updated_at product) (Some new_checksum);;
                db_clear_error shopify_id;;
                ret (Some ("created", None)))
               (fun e =>
                  ret (Some ("skipped",
                             Some ("Failed to create new item after SKU change: "
                                   +:+ e))))
           else ret (Some ("updated", None))
         else ret None
     | None => ret None
     end)
    (fun _ => ret None).

Definition _update_product_in_xero (product : ShopifyProduct.t)
    (xero_item : XeroItem.t) (mapping : SyncMapping.t) (new_checksum : string)
  : M action_result :=
  let shopify_id := Py.str_of_int (ShopifyProduct.id product) in
  let* returned := sku_change_check product xero_item mapping new_checksum in
  match returned with
  | Some r => ret r
  | None =>
      let xero_item :=
        XeroItem.with_ItemID xero_item (Some (SyncMapping.xero_id mapping)) in
      if dry_run self then ret ("updated", None)
      else
        except_XeroAPIError
          (update_item xero_item;;
           let* now := utcnow in
           db_upsert_mapping
             (SyncMapping.Build (SyncMapping.shopify_id mapping)
                (SyncMapping.xero_id mapping) (SyncMapping.entity_type mapping)
                (Some now) (ShopifyProduct.updated_at product) (Some new_checksum));;
           db_clear_error shopify_id;;
           ret ("updated", None))
          (fun e =>
             ret ("skipped",
                  Some ("Failed to update item for product " +:+ shopify_id
                        +:+ ": " +:+ e)))
  end.

Definition _sync_single_product (product : ShopifyProduct.t) : M action_result :=
  let shopify_id := Py.str_of_int (ShopifyProduct.id product) in
  let* xero_item := lift (shopify_product_to_xero_item float_accepts product) in
  match xero_item with
  | None => ret ("skipped", None)
  | Some xero_item =>
      let new_checksum := calculate_product_checksum product in
      let* mapping := db_get_mapping shopify_id in
      match mapping with
      | Some mapping =>
          if negb (has_changed (SyncMapping.checksum mapping) new_checksum)
          then ret ("skipped", None)
          else _update_product_in_xero product xero_item mapping new_checksum
      | None => _create_product_in_xero product xero_item new_checksum
      end
  end.

(* --- orders --- *)

Definition _build_sku_gl_mapping : M (gmap string string) :=
  let* d := read_db in
  ret (fold_left
         (fun sku_to_gl mapping =>
            <[SyncMapping.shopify_id mapping := DEFAULT_GL_MAPPING_sales_account]>
              sku_to_gl)
         (Database.get_all_mappings d (Some "product")) ∅).

Definition _get_customer_contact_id (order : ShopifyOrder.t) : M (option string) :=
  let* by_mapping :=
    match ShopifyOrder.customer order with
    | Some c =>
        if negb (ShopifyCustomer.id c =? 0)
        then
          let* mapping := db_get_mapping (Py.str_of_int (ShopifyCustomer.id c)) in
          match mapping with
          | Some m =>
              if String.eqb (SyncMapping.entity_type m) "customer"
              then ret (Some (SyncMapping.xero_id m)) else ret None
          | None => ret None
          end
        else ret None
    | None => ret None
    end in
  match by_mapping with
  | Some xero_id => ret (Some xero_id)
  | None =>
      let email :=
        if Py.truthy_opt (ShopifyOrder.email order) then ShopifyOrder.email order
        else match ShopifyOrder.customer order with
             | Some c => ShopifyCustomer.email c
             | None => None
             end in
      if Py.truthy_opt email
      then
        except_XeroAPIError
          (let* contact := find_contact_by_email (Py.opt_or email "") in
           match contact with
           | Some c => ret (XeroContact.ContactID c)
           | None => ret None
           end)
          (fun _ => ret None)
      else ret None
  end.

(** [shopify_order_to_xero_invoice], reading the clock when the order has
    no [created_at]. *)
Definition order_to_invoice (order : ShopifyOrder.t) (contact_id : string)
    (sku_to_gl_code : gmap string string) : M XeroInvoice.t :=
  fun w =>
    match shopify_order_to_xero_invoice float_accepts discount_positive order
            contact_id sku_to_gl_code (clock remote (ticks w)) with
    | Ok invoice =>
        (Ok invoice,
         BuildWorld (db w) (log w)
           (match ShopifyOrder.created_at order with
            | Some _ => ticks w
            | None => S (ticks w)
            end))
    | Raise e => (Raise e, w)
    end.

Definition _create_order_in_xero (order : ShopifyOrder.t)
    (sku_to_gl_code : gmap string string) (checksum : string) : M action_result :=
  let shopify_id := Py.str_of_int (ShopifyOrder.id order) in
  let reference :=
    INVOICE_REFERENCE_PREFIX +:+ Py.str_of_int (ShopifyOrder.order_number order) in
  let* existing_invoice :=
    except_XeroAPIError (find_invoice_by_reference reference) (fun _ => ret None) in
  match existing_invoice with
  | Some existing =>
      let* now := utcnow in
      let* mapping :=
        new_SyncMapping shopify_id (XeroInvoice.InvoiceID existing) "order"
          (Some now) (ShopifyOrder.updated_at order) (Some checksum) in
      db_upsert_mapping mapping;;
      db_clear_error shopify_id;;
      ret ("skipped", None)
  | None =>
      let* contact_id := _get_customer_contact_id order in
      if negb (Py.truthy_opt contact_id)
      then ret ("skipped", Some ("No Xero contact found for order " +:+ shopify_id))
      else
        let* xero_invoice :=
          order_to_invoice order (Py.opt_or contact_id "") sku_to_gl_code in
        if dry_run self then ret ("created", None)
        else
          except_XeroAPIError
            (let* created_invoice := create_invoice xero_invoice in
             let* now := utcnow in
             let* mapping :=
               new_SyncMapping shopify_id (XeroInvoice.InvoiceID created_invoice)
                 "order" (Some now) (ShopifyOrder.updated_at order)
                 (Some checksum) in
             db_upsert_mapping mapping;;
             db_clear_error shopify_id;;
             ret ("created", None))
            (fun e =>
               ret ("skipped",
                    Some ("Failed to create invoice for order " +:+ shopify_id
                          +:+ ": " +:+ e)))
  end.

Definition _sync_single_order (order : ShopifyOrder.t)
    (sku_to_gl_code : gmap string string) : M action_result :=
  let shopify_id := Py.str_of_int (ShopifyOrder.id order) in
  let new_checksum := calculate_order_checksum order in
  let* mapping := db_get_mapping shopify_id in
  match mapping with
  | Some mapping =>
      if negb (has_changed (SyncMapping.checksum mapping) new_checksum)
      then ret ("skipped", None)
      else
        let* now := utcnow in
        db_upsert_mapping
          (SyncMapping.Build (SyncMapping.shopify_id mapping)
             (SyncMapping.xero_id mapping) (SyncMapping.entity_type mapping)
             (Some now) (SyncMapping.shopify_updated_at mapping)
             (Some new_checksum));;
        ret ("skipped", None)
  | None => _create_order_in_xero order sku_to_gl_code new_checksum
  end.

(* --- the three phases --- *)

(** The [if error / elif action == ...] ladder of the phase loops. *)
Definition count_action (result : SyncResult) (action : string) : SyncResult :=
  if String.eqb action "created"
  then BuildSyncResult (success result) (created result + 1) (updated result)
         (skipped result) (errors result)
  else if String.eqb action "updated"
  then BuildSyncResult (success result) (created result) (updated result + 1)
         (skipped result) (errors result)
  else if String.eqb action "skipped"
  then BuildSyncResult (success result) (created result) (updated result)
         (skipped result + 1) (errors result)
  else result.

Definition append_error (result : SyncResult) (error : string) : SyncResult :=
  BuildSyncResult (success result) (created result) (updated result)
    (skipped result) (errors result ++ [error]).

(** The body of the [for] loop of [sync_customers], [sync_products] and
    [sync_orders]; the three differ in the entity type written to the error
    table, the label of the message and the per-entity method. *)
Definition sync_one {E : Type} (entity_type label : string) (id_of : E -> Z)
    (sync_single : E -> M action_result) (result : SyncResult) (entity : E)
  : M SyncResult :=
  except_Exception
    (let* returned := sync_single entity in
     let action := fst returned in
     let error := snd returned in
     if Py.truthy_opt error
     then
       db_record_error entity_type (Py.str_of_int (id_of entity))
         (Py.opt_or error "");;
       ret (append_error result (Py.opt_or error ""))
     else ret (count_action result action))
    (fun e =>
       let error_msg :=
         label +:+ " " +:+ Py.str_of_int (id_of entity) +:+ ": " +:+ str_exn e in
       db_record_error entity_type (Py.str_of_int (id_of entity)) (str_exn e);;
       ret (append_error result error_msg)).

Fixpoint for_each {E : Type} (body : SyncResult -> E -> M SyncResult)
    (result : SyncResult) (entities : list E) : M SyncResult :=
  match entities with
  | [] => ret result
  | entity :: rest =>
      let* result := body result entity in for_each body result rest
  end.

(** [except Exception as e] around the fetch and the loop. *)
Definition fetch_failed (result : SyncResult) (e : exn) : SyncResult :=
  BuildSyncResult false (created result) (updated result) (skipped result)
    (errors result ++ ["Fetch failed: " +:+ str_exn e]).

Definition updated_at_min_of (force : bool)
    (last_sync : option SyncHistoryEntry.t) : option Z :=
  if force then None
  else match last_sync with
       | Some l => SyncHistoryEntry.completed_at l
       | None => None
       end.

Definition new_result : SyncResult := BuildSyncResult true 0 0 0 [].

Definition sync_customers (force : bool) : M SyncResult :=
  except_Exception
    (let* last_sync := db_get_last_successful_sync in
     let updated_at_min := updated_at_min_of force last_sync in
     let* customers :=
       remote_call (Shopify_fetch_all_customers updated_at_min)
         (fun h => fetch_all_customers remote h updated_at_min) in
     for_each
       (sync_one "customer" "Customer" ShopifyCustomer.id _sync_single_customer)
       new_result customers)
    (fun e => ret (fetch_failed new_result e)).

Definition sync_products (force : bool) : M SyncResult :=
  except_Exception
    (let* last_sync := db_get_last_successful_sync in
     let updated_at_min := updated_at_min_of force last_sync in
     let* products :=
       remote_call (Shopify_fetch_all_products updated_at_min)
         (fun h => fetch_all_products remote h updated_at_min) in
     for_each
       (sync_one "product" "Product" ShopifyProduct.id _sync_single_product)
       new_result products)
    (fun e => ret (fetch_failed new_result e)).

Definition sync_orders (force : bool) : M SyncResult :=
  except_Exception
    (let* last_sync := db_get_last_successful_sync in
     let updated_at_min := updated_at_min_of force last_sync in
     let* sku_to_gl_code := _build_sku_gl_mapping in
     let* orders :=
       remote_call (Shopify_fetch_all_orders updated_at_min)
         (fun h => fetch_all_orders remote h updated_at_min) in
     for_each
       (sync_one "order" "Order" ShopifyOrder.id
          (fun order => _sync_single_order order sku_to_gl_code))
       new_result orders)
    (fun e => ret (fetch_failed new_result e)).

(* --- the run --- *)

(** [run_id] is the value of [str(uuid.uuid4())]. *)
Definition run_full_sync (run_id : string) (force : bool) : M SyncStats :=
  let* started_at := utcnow in
  db_start_sync_run run_id;;
  except_Exception
    (let* customers := sync_customers force in
     let* products := sync_products force in
     let* orders := sync_orders force in
     let* completed_at := utcnow in
     let stats :=
       BuildSyncStats run_id started_at (Some completed_at) (Some customers)
         (Some products) (Some orders) in
     let status := if SyncStats_success stats then "success" else "failed" in
     db_complete_sync_run run_id status (SyncStats_total_processed stats)
       (SyncStats_total_errors stats);;
     ret stats)
    (fun e =>
       db_complete_sync_run run_id "failed" 0 [str_exn e];;
       raise e).

End Engine.


(* ===================================================================== *)
(** ** Vocabulary of the statements *)
(* ===================================================================== *)

Module ErrorTable.

Import Database.

(** The rows of [sync_errors] recorded for one (entity type, id) pair. *)
Definition rows_for (d : Database.t) (entity_type shopify_id : string)
  : list SyncError.t :=
  List.filter (error_matches entity_type shopify_id) (sync_errors d).

(** What the schema and the code maintain: ids are those AUTOINCREMENT has
    given out, they are distinct (primary key), and a pair has at most one
    row. *)
Record ok (d : Database.t) : Prop := BuildOk {
  ids_given : Forall (fun e => SyncError.id e <= sync_errors_seq d) (sync_errors d);
  ids_distinct : NoDup (map SyncError.id (sync_errors d));
  one_row : forall entity_type shopify_id,
      (List.length (rows_for d entity_type shopify_id) <= 1)%nat }.

(** The calls that write the table. *)
Inductive op :=
| Record_error (entity_type shopify_id error_message : string) (now : Z)
| Clear_error (shopify_id : string).

Definition apply_op (d : Database.t) (o : op) : Database.t :=
  match o with
  | Record_error entity_type shopify_id error_message now =>
      record_error d entity_type shopify_id error_message now
  | Clear_error shopify_id => fst (clear_error d shopify_id)
  end.

Definition apply_ops (d : Database.t) (ops : list op) : Database.t :=
  fold_left apply_op ops d.

(** The scan of [find_error], from an accumulator. *)
Definition scan (entity_type shopify_id : string)
    (best : option SyncError.t) (rows : list SyncError.t) : option SyncError.t :=
  fold_left
    (fun best e =>
       if error_matches entity_type shopify_id e
       then match best with
            | None => Some e
            | Some b =>
                if SyncError.occurred_at b <? SyncError.occurred_at e
                then Some e else Some b
            end
       else best)
    rows best.

(** The UPDATE ... WHERE id = ? of [record_error]. *)
Definition bump (existing : SyncError.t) (error_message : string) (now : Z)
    (e : SyncError.t) : SyncError.t :=
  if SyncError.id e =? SyncError.id existing
  then SyncError.Build (SyncError.id e) (SyncError.entity_type e)
         (SyncError.shopify_id e) error_message now (SyncError.retry_count e + 1)
  else e.

End ErrorTable.

(** The calls made between two worlds of one execution. *)
Definition calls_since (w w' : World) : list call :=
  drop (List.length (log w)) (log w').

(** A source entity of any of the three types. *)
Inductive entity :=
| Customer (customer : ShopifyCustomer.t)
| Product (product : ShopifyProduct.t)
| Order (order : ShopifyOrder.t).

Definition source_id (e : entity) : string :=
  match e with
  | Customer c => Py.str_of_int (ShopifyCustomer.id c)
  | Product p => Py.str_of_int (ShopifyProduct.id p)
  | Order o => Py.str_of_int (ShopifyOrder.id o)
  end.

Definition entity_type_of (e : entity) : string :=
  match e with
  | Customer _ => "customer"
  | Product _ => "product"
  | Order _ => "order"
  end.

Definition fingerprint (e : entity) : string :=
  match e with
  | Customer c => calculate_customer_checksum c
  | Product p => calculate_product_checksum p
  | Order o => calculate_order_checksum o
  end.

Section Passes.

Variable remote : Remote.
Variable float_accepts : string -> bool.
Variable discount_positive : string -> bool.
Variable self : SyncEngine.

(** One reconciliation pass over [e]: the per-entity method that the phase
    of its type calls.  [sku_to_gl_code] is the table the order phase has
    built. *)
Definition sync_single (sku_to_gl_code : gmap string string) (e : entity)
  : M action_result :=
  match e with
  | Customer c => _sync_single_customer remote self c
  | Product p => _sync_single_product remote float_accepts self p
  | Order o =>
      _sync_single_order remote float_accepts discount_positive self o
        sku_to_gl_code
  end.

(** The loop body of the phase of [e]'s type. *)
Definition phase_step (sku_to_gl_code : gmap string string)
    (result : SyncResult) (e : entity) : M SyncResult :=
  match e with
  | Customer c =>
      sync_one remote "customer" "Customer" ShopifyCustomer.id
        (_sync_single_customer remote self) result c
  | Product p =>
      sync_one remote "product" "Product" ShopifyProduct.id
        (_sync_single_product remote float_accepts self) result p
  | Order o =>
      sync_one remote "order" "Order" ShopifyOrder.id
        (fun order =>
           _sync_single_order remote float_accepts discount_positive self order
             sku_to_gl_code)
        result o
  end.

(** The Shopify call that [_sync_single_customer] makes before it looks at
    the mapping, when the setting asks for it. *)
Definition marketing_calls (e : entity) : list call :=
  match e with
  | Customer c =>
      if enable_email_marketing (settings self) && negb (dry_run self)
      then [Shopify_update_customer_email_marketing (ShopifyCustomer.id c)]
      else []
  | _ => []
  end.

End Passes.

(** The store of [w] maps [shopify_id] to the destination record [xero_id]
    under the checksum [checksum]. *)
Definition linked (w : World) (shopify_id xero_id checksum : string) : Prop :=
  exists m,
    Database.get_mapping (db w) shopify_id = Some m /\
    SyncMapping.xero_id m = xero_id /\
    SyncMapping.checksum m = Some checksum.

(** [c] is a create call that the destination, having seen the calls [h],
    answers with an exception. *)
Definition create_fails (remote : Remote) (h : list call) (c : call) : bool :=
  match c with
  | Xero_create_contact p =>
      match post_contact remote h p with Raise _ => true | Ok _ => false end
  | Xero_create_item i =>
      match post_item remote h i with Raise _ => true | Ok _ => false end
  | Xero_create_invoice v =>
      match post_invoice remote h v with Raise _ => true | Ok _ => false end
  | _ => false
  end.

(** Between [w] and [w'] the loop body counted one error for the entity,
    counted nothing else, recorded the error in the store and left the
    mapping table alone. *)
Definition recorded (result result' : SyncResult) (w w' : World)
    (entity_type shopify_id : string) : Prop :=
  Database.sync_mappings (db w') = Database.sync_mappings (db w) /\
  (exists msg, errors result' = (errors result ++ [msg])%list) /\
  created result' = created result /\
  updated result' = updated result /\
  skipped result' = skipped result /\
  ErrorTable.rows_for (db w') entity_type shopify_id <> [].




(** [e] under another identifier. *)
Definition with_id (e : entity) (i : Z) : entity :=
  match e with
  | Customer c => Customer (ShopifyCustomer.with_id c i)
  | Product p => Product (ShopifyProduct.with_id p i)
  | Order o => Order (ShopifyOrder.with_id o i)
  end.



(** The two calls that open and close the run's row of [sync_history]. *)
Definition is_run_call (c : call) : bool :=
  match c with
  | Db_start_sync_run _ | Db_complete_sync_run _ _ _ _ => true
  | _ => false
  end.

(** Between [w] and [w'] the run's row was not touched: no call opened or
    closed it and the history table is as it was. *)
Definition inside_run (w w' : World) : Prop :=
  (exists l, log w' = (log w ++ l)%list /\
             Forall (fun k => is_run_call k = false) l) /\
  Database.sync_history (db w') = Database.sync_history (db w).

(** A phase went from [w] to [w']: it began with its fetch call and left the
    run's row alone. *)
Definition phase_ran (fetch : call) (w w' : World) : Prop :=
  (exists l, log w' = (log w ++ fetch :: l)%list /\
             Forall (fun k => is_run_call k = false) l) /\
  Database.sync_history (db w') = Database.sync_history (db w).

(* ===================================================================== *)
(** ** Sample data *)
(* ===================================================================== *)

(** Concrete entities, engines and remote systems on which the statements
    below are exercised. *)
Module Sample.

(** A remote that knows nothing yet and accepts everything. *)
Definition quiet : Remote :=
  BuildRemote (fun n => 1000 + Z.of_nat n)
    (fun _ _ => Ok tt)
    (fun _ _ => Ok []) (fun _ _ => Ok []) (fun _ _ => Ok [])
    (fun _ _ => Ok None)
    (fun _ c => Ok (XeroContact.with_ContactID c (Some "contact-new")))
    (fun _ c => Ok c)
    (fun _ _ => Ok None)
    (fun _ _ => Ok None)
    (fun _ i => Ok (XeroItem.with_ItemID i (Some "item-new")))
    (fun _ i => Ok i)
    (fun _ _ => Ok None)
    (fun _ i =>
       Ok (XeroInvoice.Build (Some "invoice-new") (XeroInvoice.Reference i)
             (XeroInvoice.Type_ i) (XeroInvoice.Status i)
             (XeroInvoice.ContactID i) (XeroInvoice.LineItems i)
             (XeroInvoice.Date i) (XeroInvoice.DueDate i)
             (XeroInvoice.CurrencyCode i))).

(** [quiet], except that the lookups by natural key answer as given. *)
Definition knowing (contact : option XeroContact.t) (item : option XeroItem.t)
    (invoice : option XeroInvoice.t) : Remote :=
  BuildRemote (clock quiet) (update_customer_email_marketing quiet)
    (fetch_all_customers quiet) (fetch_all_products quiet)
    (fetch_all_orders quiet)
    (fun _ _ => Ok contact) (post_contact quiet) (put_contact quiet)
    (fun _ _ => Ok item) (fetch_item_by_id quiet) (post_item quiet)
    (put_item quiet)
    (fun _ _ => Ok invoice) (post_invoice quiet).

(** [quiet], except that every create is refused. *)
Definition refusing : Remote :=
  BuildRemote (clock quiet) (update_customer_email_marketing quiet)
    (fetch_all_customers quiet) (fetch_all_products quiet)
    (fetch_all_orders quiet)
    (fetch_contact_by_email quiet)
    (fun _ _ => Raise (XeroAPIError "Failed to create contact: 400"))
    (put_contact quiet)
    (fetch_item_by_code quiet) (fetch_item_by_id quiet)
    (fun _ _ => Raise (XeroAPIError "Failed to create item: 400"))
    (put_item quiet)
    (fetch_invoice_by_reference quiet)
    (fun _ _ => Raise (XeroAPIError "Failed to create invoice: 400")).

(** A stand-in for the interpreter's [float]: digits with dots. *)
Definition float_accepts (s : string) : bool :=
  forallb
    (fun a => let c := Z.of_N (N_of_ascii a) in
              (c =? 46) || ((48 <=? c) && (c <=? 57)))
    (list_ascii_of_string s).

Definition discount_positive (s : string) : bool :=
  existsb
    (fun a => let c := Z.of_N (N_of_ascii a) in (49 <=? c) && (c <=? 57))
    (list_ascii_of_string s).

Definition live : SyncEngine := SyncEngine_init (BuildSettings false false) false.
Definition dry : SyncEngine := SyncEngine_init (BuildSettings false false) true.

Definition customer : ShopifyCustomer.t :=
  ShopifyCustomer.Build 1 (Some "a@x.com") (Some "A") (Some "B") None None None.

Definition address : ShopifyAddress.t :=
  ShopifyAddress.Build (Some "1 High St") None (Some "Leeds") None (Some "UK")
    (Some "LS1") (Some "+441234567890").

(** Two customers that differ in the top-level phone only. *)
Definition customer_phone_absent : ShopifyCustomer.t :=
  ShopifyCustomer.Build 123 (Some "test@example.com") None None None None
    (Some address).

Definition customer_phone_present : ShopifyCustomer.t :=
  ShopifyCustomer.Build 123 (Some "test@example.com") None None
    (Some "+441234567890") None (Some address).

Definition product : ShopifyProduct.t :=
  ShopifyProduct.Build 2 "Lavender Melt" (Some "Acme") (Some "Wax Melts") None
    [ShopifyProductVariant.Build "4.50" (Some "LAV-1")].

Definition order : ShopifyOrder.t :=
  ShopifyOrder.Build 3 1001 (Some "a@x.com") (Some 900) None "GBP" "9.00"
    "7.50" "1.50" "0.00" (Some "paid") (Some customer)
    [ShopifyLineItem.Build "Lavender Melt" 2 (Some "LAV-1") "4.50"].

(** [quiet], except that Shopify fails to list the customers and lists one
    product and one order. *)
Definition customers_down : Remote :=
  BuildRemote (clock quiet) (update_customer_email_marketing quiet)
    (fun _ _ => Raise (PyException "connection reset"))
    (fun _ _ => Ok [product]) (fun _ _ => Ok [order])
    (fetch_contact_by_email quiet) (post_contact quiet) (put_contact quiet)
    (fetch_item_by_code quiet) (fetch_item_by_id quiet) (post_item quiet)
    (put_item quiet)
    (fetch_invoice_by_reference quiet) (post_invoice quiet).

Definition active_contact : XeroContact.t :=
  XeroContact.Build (Some "d1") "ACTIVE" "A B" (Some "A") (Some "B")
    (Some "a@x.com") [] [] true false.

Definition archived_contact : XeroContact.t :=
  XeroContact.Build (Some "d0") "ARCHIVED" "A B" (Some "A") (Some "B")
    (Some "a@x.com") [] [] true false.

(** An item as [_update_product_in_xero] archives it. *)
Definition archived_item : XeroItem.t :=
  XeroItem.Build (Some "p0") "LAV-1" "[ARCHIVED] Lavender Melt" None false false.

Definition existing_invoice : XeroInvoice.t :=
  XeroInvoice.Build (Some "inv1") (Some "SHOP-1001") "ACCREC" "AUTHORISED"
    (Some "d1") [] None None "GBP".

Definition start : World := BuildWorld Database.empty [] 0.

(** A store in which order 3 is mapped under an older checksum. *)
Definition order_mapped : World :=
  BuildWorld
    (Database.upsert_mapping Database.empty
       (SyncMapping.Build "3" "inv1" "order" (Some 500) None (Some "stale")))
    [] 0.

(** A store holding one error, recorded for product 1. *)
Definition product_error_recorded : World :=
  BuildWorld
    (Database.record_error Database.empty "product" "1" "Failed to create item" 10)
    [] 0.

End Sample.

(* ===================================================================== *)
(** ** More of the sources *)
(* ===================================================================== *)

(* --------------------------------------------------------------------- *)
(** *** [src/database.py]: the errors eligible for a retry *)
(* --------------------------------------------------------------------- *)

Module ErrorQueries.

(** ORDER BY occurred_at DESC: [e] goes before the first row that is not
    later than it.  The query leaves the order of rows with equal
    timestamps open; here they stay in table order. *)
Fixpoint insert_by_time (e : SyncError.t) (sorted : list SyncError.t)
  : list SyncError.t :=
  match sorted with
  | [] => [e]
  | x :: rest =>
      if SyncError.occurred_at e <? SyncError.occurred_at x
      then x :: insert_by_time e rest
      else e :: x :: rest
  end.

Definition latest_first (rows : list SyncError.t) : list SyncError.t :=
  fold_right insert_by_time [] rows.

(** [Database.get_errors]: SELECT * FROM sync_errors WHERE [entity_type = ?
    AND] retry_count < ? ORDER BY occurred_at DESC. *)
Definition get_errors (d : Database.t) (entity_type : option string)
    (max_retry_count : Z) : list SyncError.t :=
  let eligible :=
    if Py.truthy_opt entity_type
    then List.filter
           (fun e => String.eqb (SyncError.entity_type e) (Py.opt_or entity_type "")
                     && (SyncError.retry_count e <? max_retry_count))
           (Database.sync_errors d)
    else List.filter (fun e => SyncError.retry_count e <? max_retry_count)
           (Database.sync_errors d) in
  latest_first eligible.

(** Failures of one entity in a row, each recorded with its message and its
    time. *)
Fixpoint fail_again (d : Database.t) (entity_type shopify_id : string)
    (failures : list (string * Z)) : Database.t :=
  match failures with
  | [] => d
  | (msg, now) :: rest =>
      fail_again (Database.record_error d entity_type shopify_id msg now)
        entity_type shopify_id rest
  end.

End ErrorQueries.

(* --------------------------------------------------------------------- *)
(** *** [src/constants.py]: GL codes by product category *)
(* --------------------------------------------------------------------- *)

Module GLCodeMapping.
Record t := Build {
  sales_account : string;
  purchase_account : string;
  description : string }.
End GLCodeMapping.

(** The entries of the [CATEGORY_GL_MAPPING] literal. *)
Definition CATEGORY_GL_ENTRIES : list (string * GLCodeMapping.t) :=
  [ ("wax melts", GLCodeMapping.Build "206" "310" "Sales - Wax Melts");
    ("essential oil collection",
     GLCodeMapping.Build "201" "310" "Sales - Essential Oil Collection");
    ("limited edition melts",
     GLCodeMapping.Build "202" "310" "Sales - Limited Edition Melts");
    ("starter pack & gift boxes",
     GLCodeMapping.Build "203" "310" "Sales - Starter Pack & Gift Boxes");
    ("starter packs",
     GLCodeMapping.Build "203" "310" "Sales - Starter Pack & Gift Boxes");
    ("gift boxes",
     GLCodeMapping.Build "203" "310" "Sales - Starter Pack & Gift Boxes");
    ("summer pops", GLCodeMapping.Build "204" "310" "Sales - Summer Pops");
    ("wax burners", GLCodeMapping.Build "205" "310" "Sales - Wax Burners");
    ("burners", GLCodeMapping.Build "205" "310" "Sales - Wax Burners") ].

Definition CATEGORY_GL_MAPPING : gmap string GLCodeMapping.t :=
  list_to_map CATEGORY_GL_ENTRIES.

Definition DEFAULT_GL_MAPPING : GLCodeMapping.t :=
  GLCodeMapping.Build "200" "310" "General Sales".

Section GLCodes.

(** [str.lower] and [str.strip] belong to the interpreter. *)
Variable lower : string -> string.
Variable strip : string -> string.

Definition get_gl_codes_for_category (category : option string) : GLCodeMapping.t :=
  if negb (Py.truthy_opt category) then DEFAULT_GL_MAPPING
  else
    let category_lower := strip (lower (Py.opt_or category "")) in
    match CATEGORY_GL_MAPPING !! category_lower with
    | Some codes => codes
    | None => DEFAULT_GL_MAPPING
    end.

End GLCodes.

(* ===================================================================== *)
(** ** Vocabulary of the further statements *)
(* ===================================================================== *)

(** What the scan of [get_last_successful_sync] holds after the rows
    [seen]: no successful row so far, or a successful row of [seen] that
    none of them completed after. *)
Definition best_so_far (seen : list SyncHistoryEntry.t)
    (best : option SyncHistoryEntry.t) : Prop :=
  match best with
  | None => forall h, In h seen -> SyncHistoryEntry.status h <> "success"
  | Some b =>
      In b seen /\ SyncHistoryEntry.status b = "success" /\
      forall h, In h seen -> SyncHistoryEntry.status h = "success" ->
        Database.completed_before (SyncHistoryEntry.completed_at b)
          (SyncHistoryEntry.completed_at h) = false
  end.

(** The checksum fields of a customer, read back from the contact it
    converts to. *)
Definition contact_checksum_fields (contact : XeroContact.t) : list string :=
  ([ Py.opt_or (XeroContact.EmailAddress contact) "";
     Py.opt_or (XeroContact.FirstName contact) "";
     Py.opt_or (XeroContact.LastName contact) "";
     match XeroContact.Phones contact with
     | p :: _ => Py.opt_or (XeroPhone.PhoneNumber p) ""
     | [] => ""
     end ] ++
   match XeroContact.Addresses contact with
   | a :: _ =>
       [ Py.opt_or (XeroAddress.AddressLine1 a) "";
         Py.opt_or (XeroAddress.AddressLine2 a) "";
         Py.opt_or (XeroAddress.City a) "";
         Py.opt_or (XeroAddress.Region a) "";
         Py.opt_or (XeroAddress.PostalCode a) "";
         Py.opt_or (XeroAddress.Country a) "" ]
   | [] => []
   end)%list.

(** Code points of a UTF-8 string: the bytes that do not continue one. *)
Fixpoint char_count (s : string) : nat :=
  match s with
  | EmptyString => 0
  | String a rest => ((if Py.is_continuation a then 0 else 1) + char_count rest)%nat
  end.

(** A string that does not begin in the middle of a code point. *)
Definition starts_clean (s : string) : Prop :=
  match s with
  | EmptyString => True
  | String a _ => Py.is_continuation a = false
  end.

(** The invoice line of an order line under the default GL code. *)
Definition default_line (item : ShopifyLineItem.t) : XeroLineItem.t :=
  XeroLineItem.Build (ShopifyLineItem.title item) (ShopifyLineItem.quantity item)
    DEFAULT_LINE_ITEM_ACCOUNT (ShopifyLineItem.sku item) DEFAULT_TAX_TYPE.

(** The three actions the phase loops count. *)
Definition known_action (action : string) : Prop :=
  action = "created" \/ action = "updated" \/ action = "skipped".

(** What a pass over the entity [shopify_id] may do to the store: rewrite
    the entity's own mapping row, keeping its entity type, and delete the
    error rows of its id. *)
Definition own_row_only (shopify_id : string) (d d' : Database.t) : Prop :=
  (forall k, k <> shopify_id ->
     Database.get_mapping d' k = Database.get_mapping d k) /\
  (forall m, Database.get_mapping d shopify_id = Some m ->
     exists m', Database.get_mapping d' shopify_id = Some m' /\
                SyncMapping.entity_type m' = SyncMapping.entity_type m) /\
  (Database.sync_errors d' = Database.sync_errors d \/
   Database.sync_errors d' =
     Database.sync_errors (fst (Database.clear_error d shopify_id))) /\
  Database.sync_errors_seq d' = Database.sync_errors_seq d /\
  Database.sync_history d' = Database.sync_history d.

(** Entities a phase result accounts for: counted or reported as errors. *)
Definition tally (r : SyncResult) : Z :=
  created r + updated r + skipped r + Z.of_nat (List.length (errors r)).

(** What a phase reports about the entities its fetch returned. *)
Definition phase_report {E : Type} (fetched : outcome (list E))
    (result : SyncResult) : Prop :=
  match fetched with
  | Ok entities =>
      success result = true /\ tally result = Z.of_nat (List.length entities)
  | Raise e => result = fetch_failed new_result e
  end.

(** The world in which [run_full_sync] enters its phases, its row opened as
    [d1], and the world it leaves once they have ended in [w]. *)
Definition run_opened (run_id : string) (d1 : Database.t) (w : World) : World :=
  BuildWorld d1 (log w ++ [Db_start_sync_run run_id]) (S (S (ticks w))).

Definition run_closed (remote : Remote) (stats : SyncStats) (w : World) : World :=
  let status := if SyncStats_success stats then "success" else "failed" in
  BuildWorld
    (Database.complete_sync_run (db w) (run_id stats) status
       (SyncStats_total_processed stats) (SyncStats_total_errors stats)
       (clock remote (S (ticks w))))
    (log w ++ [Db_complete_sync_run (run_id stats) status
                 (SyncStats_total_processed stats) (SyncStats_total_errors stats)])
    (S (S (ticks w))).

(** Every mapping of [d] is still in [d'], under the same entity type. *)
Definition mappings_kept (d d' : Database.t) : Prop :=
  forall k m, Database.get_mapping d k = Some m ->
    exists m', Database.get_mapping d' k = Some m' /\
               SyncMapping.entity_type m' = SyncMapping.entity_type m.

(** What the phases of a run keep between two worlds. *)
Definition run_keeps (w w' : World) : Prop :=
  inside_run w w' /\ mappings_kept (db w) (db w') /\
  (ErrorTable.ok (db w) -> ErrorTable.ok (db w')) /\
  (ticks w <= ticks w')%nat.

(** [self] with the marketing-consent setting switched off. *)
Definition without_marketing (self : SyncEngine) : SyncEngine :=
  BuildSyncEngine
    (BuildSettings (settings_dry_run (settings self)) false) (dry_run self).

(** The world after the marketing-consent step of a customer pass. *)
Definition after_marketing (self : SyncEngine) (c : ShopifyCustomer.t) (w : World)
  : World :=
  BuildWorld (db w) (log w ++ marketing_calls self (Customer c)) (ticks w).

(** The email under which the contact of an order is searched. *)
Definition order_contact_email (order : ShopifyOrder.t) : option string :=
  if Py.truthy_opt (ShopifyOrder.email order) then ShopifyOrder.email order
  else match ShopifyOrder.customer order with
       | Some c => ShopifyCustomer.email c
       | None => None
       end.

(** The customer mapping that gives the contact of an order. *)
Definition order_customer_mapping (d : Database.t) (order : ShopifyOrder.t)
  : option SyncMapping.t :=
  match ShopifyOrder.customer order with
  | Some c =>
      if ShopifyCustomer.id c =? 0 then None
      else match Database.get_mapping d (Py.str_of_int (ShopifyCustomer.id c)) with
           | Some m =>
               if String.eqb (SyncMapping.entity_type m) "customer"
               then Some m else None
           | None => None
           end
  | None => None
  end.

(** The duplicate lookup that opens the pass over an entity without a
    mapping, when there is a key to look up. *)
Definition lookup_call (float_accepts : string -> bool) (e : entity) : option call :=
  match e with
  | Customer c =>
      if Py.truthy_opt (ShopifyCustomer.email c)
      then Some (Xero_find_contact_by_email (Py.opt_or (ShopifyCustomer.email c) ""))
      else None
  | Product p =>
      match shopify_product_to_xero_item float_accepts p with
      | Ok (Some item) => Some (Xero_find_item_by_code (XeroItem.Code item))
      | _ => None
      end
  | Order o =>
      Some (Xero_find_invoice_by_reference
              (INVOICE_REFERENCE_PREFIX +:+ Py.str_of_int (ShopifyOrder.order_number o)))
  end.

(** Whether a pass over a mapped entity of this type can create a record:
    only a product can, when its SKU changed. *)
Definition recreates (e : entity) : bool :=
  match e with Product _ => true | _ => false end.

(** The writes a pass made at the destination. *)
Definition writes_since (w w' : World) : list call :=
  List.filter is_mutation (calls_since w w').

(* --------------------------------------------------------------------- *)
(** *** Further sample data *)
(* --------------------------------------------------------------------- *)

Module Scenario.

(** [Sample.quiet] with one customer, one product and one order in the
    shop. *)
Definition shop : Remote :=
  BuildRemote (clock Sample.quiet) (update_customer_email_marketing Sample.quiet)
    (fun _ _ => Ok [Sample.customer]) (fun _ _ => Ok [Sample.product])
    (fun _ _ => Ok [Sample.order])
    (fetch_contact_by_email Sample.quiet) (post_contact Sample.quiet)
    (put_contact Sample.quiet)
    (fetch_item_by_code Sample.quiet) (fetch_item_by_id Sample.quiet)
    (post_item Sample.quiet) (put_item Sample.quiet)
    (fetch_invoice_by_reference Sample.quiet) (post_invoice Sample.quiet).

(** [Sample.quiet], except that the item behind a mapping is found, under
    the SKU it had. *)
Definition restocked : Remote :=
  BuildRemote (clock Sample.quiet) (update_customer_email_marketing Sample.quiet)
    (fetch_all_customers Sample.quiet) (fetch_all_products Sample.quiet)
    (fetch_all_orders Sample.quiet)
    (fetch_contact_by_email Sample.quiet) (post_contact Sample.quiet)
    (put_contact Sample.quiet)
    (fetch_item_by_code Sample.quiet)
    (fun _ item_id =>
       Ok (Some (XeroItem.Build (Some item_id) "OLD-1" "Lavender Melt"
                   (Some "Lavender Melt") true true)))
    (post_item Sample.quiet) (put_item Sample.quiet)
    (fetch_invoice_by_reference Sample.quiet) (post_invoice Sample.quiet).

(** A store in which [shopify_id] is mapped to [xero_id] under a checksum
    that no entity has. *)
Definition mapped (shopify_id xero_id entity_type : string) : World :=
  BuildWorld
    (Database.upsert_mapping Database.empty
       (SyncMapping.Build shopify_id xero_id entity_type (Some 500) None
          (Some "stale")))
    [] 0.

(** A customer whose first name holds the separator of the checksum data. *)
Definition hyphenated : ShopifyCustomer.t :=
  ShopifyCustomer.Build 9 (Some "ann@x.com") (Some "Ann|Lee") (Some "Ray") None
    None None.

(** A history with one run that succeeded at time 400. *)
Definition ran_before : World :=
  BuildWorld
    (Database.with_history Database.empty
       [SyncHistoryEntry.Build "run-0" 300 (Some 400) "success" 3 []])
    [] 0.

End Scenario.

(* --------------------------------------------------------------------- *)
(** *** Unchanged content and dry passes *)
(* --------------------------------------------------------------------- *)











Module Recheck.


(** A store in which [e] is recorded under its own fingerprint. *)
Definition recorded (e : entity) : World :=
  BuildWorld
    (Database.upsert_mapping Database.empty
       (SyncMapping.Build (source_id e) "x-1" (entity_type_of e) (Some 500) None
          (Some (fingerprint e))))
    [] 0.




End Recheck.

(* ===================================================================== *)
(** * Properties *)
(* ===================================================================== *)

(** Symbolic execution of the engine's monadic code. *)
Ltac unfold_monad :=
  unfold upsert_repointed, order_to_invoice in *;
  unfold db_get_mapping, db_upsert_mapping, db_clear_error, db_record_error,
    db_get_last_successful_sync, new_SyncMapping,
    find_contact_by_email, create_contact, update_contact,
    find_item_by_code, get_item_by_id, create_item, update_item,
    find_invoice_by_reference, create_invoice,
    except_XeroAPIError, except_Exception, bind, ret, raise, lift, read_db,
    write_db, record_call, utcnow, remote_call in *.

Ltac unfold_customer :=
  unfold _sync_single_customer, _create_customer_in_xero,
    _update_customer_in_xero, create_new_contact,
    _update_customer_email_marketing in *.

Ltac unfold_product :=
  unfold _sync_single_product, _create_product_in_xero, _update_product_in_xero,
    sku_change_check, create_new_item in *.

Ltac unfold_order :=
  unfold _sync_single_order, _create_order_in_xero, _get_customer_contact_id in *.

Ltac break_hyp :=
  match goal with
  | H : (_, _) = (_, _) |- _ => inversion H; subst; clear H
  | H : Ok _ = Ok _ |- _ => inversion H; subst; clear H
  | H : Raise _ = Raise _ |- _ => inversion H; subst; clear H
  | H : Some _ = Some _ |- _ => inversion H; subst; clear H
  | H : Ok _ = Raise _ |- _ => discriminate H
  | H : Raise _ = Ok _ |- _ => discriminate H
  | H : Some _ = None |- _ => discriminate H
  | H : None = Some _ |- _ => discriminate H
  | H : true = false |- _ => discriminate H
  | H : false = true |- _ => discriminate H
  | H : context [match ?x with _ => _ end] |- _ =>
      lazymatch x with
      | context [match _ with _ => _ end] => fail
      | _ =>
          let E := fresh "E" in
          destruct x eqn:E; simpl in E; simpl in H; try discriminate E
      end
  end.

(** Rewrites [H] with every equation of the context whose left side occurs
    in it. *)
Ltac feed H :=
  repeat match goal with
         | E : ?l = _ |- _ =>
             tryif constr_eq E H then fail else
             lazymatch type of H with
             | context [l] => rewrite E in H; simpl in H
             end
         end.

(* ===================================================================== *)
(** ** The hash *)
(* ===================================================================== *)

Example sha256_of_empty :
  Sha256.hexdigest "" =
  "e3b0c44298fc1c149afbf4c8996fb92427ae41e4649b934ca495991b7852b855".
Proof. vm_compute. reflexivity. Qed.

Example sha256_of_abc :
  Sha256.hexdigest "abc" =
  "ba7816bf8f01cfea414140de5dae2223b00361a396177a9cb410ff61f20015ad".
Proof. vm_compute. reflexivity. Qed.

(** 56 bytes: the padding spills into a second block. *)
Example sha256_two_blocks :
  Sha256.hexdigest "aaaaaaaaaaaaaaaaaaaaaaaaaaaaaaaaaaaaaaaaaaaaaaaaaaaaaaaa" =
  "b35439a4ac6f0948b6d6f9e3c6af0f5f590ce20f1bde7090ef7970686ec6738a".
Proof. vm_compute. reflexivity. Qed.

Example str_of_int_examples :
  Py.str_of_int 0 = "0" /\ Py.str_of_int 1001 = "1001" /\ Py.str_of_int (-7) = "-7".
Proof. vm_compute. auto. Qed.

(* ===================================================================== *)
(** ** The error table *)
(* ===================================================================== *)

Module ErrorTableFacts.

Import Database ErrorTable.

Lemma ok_empty : ok Database.empty.
Proof.
  split; simpl.
  - constructor.
  - constructor.
  - intros; unfold rows_for; simpl; lia.
Qed.

Lemma error_matches_spec entity_type shopify_id e :
  error_matches entity_type shopify_id e = true <->
  SyncError.entity_type e = entity_type /\ SyncError.shopify_id e = shopify_id.
Proof.
  unfold error_matches.
  rewrite andb_true_iff, !String.eqb_eq. tauto.
Qed.

Lemma scan_no_match entity_type shopify_id rows best :
  List.filter (error_matches entity_type shopify_id) rows = [] ->
  scan entity_type shopify_id best rows = best.
Proof.
  revert best. induction rows as [|e rows IH]; intros best Hf; simpl in *.
  - reflexivity.
  - destruct (error_matches entity_type shopify_id e); [discriminate|].
    apply IH, Hf.
Qed.

Lemma scan_single entity_type shopify_id rows old :
  List.filter (error_matches entity_type shopify_id) rows = [old] ->
  scan entity_type shopify_id None rows = Some old.
Proof.
  induction rows as [|e rows IH]; intros Hf; simpl in *.
  - discriminate.
  - destruct (error_matches entity_type shopify_id e) eqn:He.
    + injection Hf as -> Hrest.
      apply (scan_no_match _ _ _ (Some old)), Hrest.
    + apply IH, Hf.
Qed.

Lemma find_error_none d entity_type shopify_id :
  rows_for d entity_type shopify_id = [] ->
  find_error d entity_type shopify_id = None.
Proof. apply scan_no_match. Qed.

Lemma find_error_single d entity_type shopify_id old :
  rows_for d entity_type shopify_id = [old] ->
  find_error d entity_type shopify_id = Some old.
Proof. apply scan_single. Qed.

Lemma bump_matches existing msg now entity_type shopify_id e :
  error_matches entity_type shopify_id (bump existing msg now e) =
  error_matches entity_type shopify_id e.
Proof. unfold bump. destruct (_ =? _); reflexivity. Qed.

Lemma bump_id existing msg now e :
  SyncError.id (bump existing msg now e) = SyncError.id e.
Proof. unfold bump. destruct (_ =? _); reflexivity. Qed.

Lemma filter_bump existing msg now entity_type shopify_id rows :
  List.filter (error_matches entity_type shopify_id) (map (bump existing msg now) rows)
  = map (bump existing msg now)
      (List.filter (error_matches entity_type shopify_id) rows).
Proof.
  induction rows as [|e rows IH]; simpl; [reflexivity|].
  rewrite bump_matches.
  destruct (error_matches entity_type shopify_id e); simpl; rewrite IH; reflexivity.
Qed.

Lemma record_error_existing d entity_type shopify_id msg now existing :
  find_error d entity_type shopify_id = Some existing ->
  record_error d entity_type shopify_id msg now =
  with_errors d (map (bump existing msg now) (sync_errors d)) (sync_errors_seq d).
Proof. intros H. unfold record_error. rewrite H. reflexivity. Qed.

Lemma record_error_fresh d entity_type shopify_id msg now :
  find_error d entity_type shopify_id = None ->
  record_error d entity_type shopify_id msg now =
  with_errors d
    (sync_errors d ++
     [SyncError.Build (sync_errors_seq d + 1) entity_type shopify_id msg now 0])
    (sync_errors_seq d + 1).
Proof. intros H. unfold record_error. rewrite H. reflexivity. Qed.

Lemma rows_for_cases d entity_type shopify_id :
  ok d ->
  rows_for d entity_type shopify_id = [] \/
  exists old, rows_for d entity_type shopify_id = [old].
Proof.
  intros Hok. pose proof (one_row d Hok entity_type shopify_id) as H.
  destruct (rows_for d entity_type shopify_id) as [|old [|x rest]]; simpl in H.
  - left; reflexivity.
  - right; exists old; reflexivity.
  - lia.
Qed.

Lemma record_error_ok d entity_type shopify_id msg now :
  ok d -> ok (record_error d entity_type shopify_id msg now).
Proof.
  intros Hok.
  destruct (rows_for_cases d entity_type shopify_id Hok) as [Hnone|[old Hone]].
  - rewrite (record_error_fresh _ _ _ _ _ (find_error_none _ _ _ Hnone)).
    destruct Hok as [Hids Hdis Hone]. split; simpl.
    + apply Forall_app; split.
      * eapply Forall_impl; [exact Hids|]. simpl; intros; lia.
      * repeat constructor. simpl. lia.
    + rewrite map_app. simpl. apply NoDup_app. split; [exact Hdis|]. split.
      * intros x Hx Hin. apply list_elem_of_In in Hx, Hin.
        simpl in Hin. destruct Hin as [<-|[]].
        apply in_map_iff in Hx as [e [He Hin]].
        rewrite Forall_forall in Hids.
        specialize (Hids e (proj2 (list_elem_of_In _ _) Hin)). simpl in Hids. lia.
      * apply NoDup_singleton.
    + intros et sid. unfold rows_for; simpl. rewrite List.filter_app, length_app.
      simpl. destruct (error_matches et sid _) eqn:Hm; simpl.
      * apply error_matches_spec in Hm as [<- <-]. simpl.
        unfold rows_for in Hnone. rewrite Hnone. simpl. lia.
      * specialize (Hone et sid). unfold rows_for in Hone. lia.
  - rewrite (record_error_existing _ _ _ _ _ _ (find_error_single _ _ _ _ Hone)).
    destruct Hok as [Hids Hdis Hrow]. split; simpl.
    + apply Forall_map. eapply Forall_impl; [exact Hids|].
      simpl. intros e He. rewrite bump_id. exact He.
    + rewrite map_map. erewrite map_ext; [exact Hdis|].
      intros e. apply bump_id.
    + intros et sid. unfold rows_for; simpl.
      rewrite filter_bump, length_map. apply Hrow.
Qed.

Lemma filter_filter_length {A} (P Q : A -> bool) (l : list A) :
  (List.length (List.filter P (List.filter Q l)) <= List.length (List.filter P l))%nat.
Proof.
  induction l as [|x l IH]; simpl; [lia|].
  destruct (Q x); simpl; destruct (P x); simpl; lia.
Qed.

Lemma clear_error_ok d shopify_id : ok d -> ok (fst (clear_error d shopify_id)).
Proof.
  intros [Hids Hdis Hrow]. split; simpl.
  - rewrite Forall_forall in *. intros e He.
    apply list_elem_of_In, List.filter_In in He as [He _].
    apply Hids, list_elem_of_In, He.
  - clear Hids Hrow. induction (sync_errors d) as [|e rows IH]; simpl.
    + constructor.
    + simpl in Hdis. apply NoDup_cons in Hdis as [Hnotin Hdis].
      destruct (negb _); simpl; [|apply IH, Hdis].
      apply NoDup_cons. split; [|apply IH, Hdis].
      intros Hin. apply Hnotin.
      apply list_elem_of_In, in_map_iff in Hin as [x [Hx Hin]].
      apply list_elem_of_In, in_map_iff. exists x. split; [exact Hx|].
      apply List.filter_In in Hin. tauto.
  - intros et sid. specialize (Hrow et sid). unfold rows_for in *; simpl.
    etransitivity; [apply filter_filter_length|exact Hrow].
Qed.

Lemma apply_ops_ok ops : forall d, ok d -> ok (apply_ops d ops).
Proof.
  induction ops as [|o ops IH]; intros d Hok; simpl; [exact Hok|].
  apply IH. destruct o; simpl.
  - apply record_error_ok, Hok.
  - apply clear_error_ok, Hok.
Qed.

End ErrorTableFacts.

Lemma NoDup_map_eq {A B} (f : A -> B) (l : list A) (x y : A) :
  NoDup (map f l) -> In x l -> In y l -> f x = f y -> x = y.
Proof.
  induction l as [|a l IH]; simpl; intros Hnd Hx Hy Hf; [contradiction|].
  apply NoDup_cons in Hnd as [Hnotin Hnd].
  destruct Hx as [->|Hx], Hy as [->|Hy]; auto.
  - exfalso. apply Hnotin. rewrite Hf.
    apply list_elem_of_In, in_map, Hy.
  - exfalso. apply Hnotin. rewrite <- Hf.
    apply list_elem_of_In, in_map, Hx.
Qed.

(** C7. Starting from a well-formed error table and after any sequence of
    [record_error] and [clear_error] calls, one more [record_error] leaves at
    most one row for every (entity type, id) pair.  When the pair already has
    a row, that row keeps its id, its retry count goes up by one, its message
    and timestamp are replaced, no row is added and the rows of every other
    pair are untouched; when the pair has no row, exactly one row is appended,
    with retry count 0. *)
Theorem record_error_one_row_per_entity
    (d0 : Database.t) (ops : list ErrorTable.op)
    (entity_type shopify_id error_message : string) (now : Z) :
  ErrorTable.ok d0 ->
  let d := ErrorTable.apply_ops d0 ops in
  let d' := Database.record_error d entity_type shopify_id error_message now in
  (forall et sid, (List.length (ErrorTable.rows_for d' et sid) <= 1)%nat) /\
  match ErrorTable.rows_for d entity_type shopify_id with
  | old :: _ =>
      ErrorTable.rows_for d' entity_type shopify_id =
        [SyncError.Build (SyncError.id old) entity_type shopify_id error_message
           now (SyncError.retry_count old + 1)] /\
      List.length (Database.sync_errors d') = List.length (Database.sync_errors d) /\
      (forall et sid, (et, sid) <> (entity_type, shopify_id) ->
         ErrorTable.rows_for d' et sid = ErrorTable.rows_for d et sid)
  | [] =>
      Database.sync_errors d' =
        (Database.sync_errors d ++
         [SyncError.Build (Database.sync_errors_seq d + 1) entity_type shopify_id
            error_message now 0])%list
  end.
Proof.
  intros Hok0 d d'.
  assert (Hok : ErrorTable.ok d) by (apply ErrorTableFacts.apply_ops_ok, Hok0).
  split.
  { apply (ErrorTable.one_row _ (ErrorTableFacts.record_error_ok _ _ _ _ _ Hok)). }
  destruct (ErrorTableFacts.rows_for_cases d entity_type shopify_id Hok)
    as [Hnone|[old Hone]].
  - rewrite Hnone. subst d'.
    rewrite (ErrorTableFacts.record_error_fresh _ _ _ _ _
               (ErrorTableFacts.find_error_none _ _ _ Hnone)).
    reflexivity.
  - rewrite Hone. subst d'.
    rewrite (ErrorTableFacts.record_error_existing _ _ _ _ _ _
               (ErrorTableFacts.find_error_single _ _ _ _ Hone)).
    assert (Hin : In old (Database.sync_errors d) /\
                  Database.error_matches entity_type shopify_id old = true).
    { apply List.filter_In. unfold ErrorTable.rows_for in Hone.
      rewrite Hone. left; reflexivity. }
    destruct Hin as [Hin Hm].
    apply ErrorTableFacts.error_matches_spec in Hm as [Het Hsid].
    split; [|split].
    + unfold ErrorTable.rows_for in *; simpl.
      rewrite ErrorTableFacts.filter_bump, Hone. simpl.
      unfold ErrorTable.bump. rewrite Z.eqb_refl, Het, Hsid. reflexivity.
    + simpl. apply length_map.
    + intros et sid Hne. unfold ErrorTable.rows_for; simpl.
      rewrite ErrorTableFacts.filter_bump.
      rewrite <- (map_id (List.filter _ (Database.sync_errors d))) at 2.
      apply map_ext_in. intros e He.
      apply List.filter_In in He as [He Hme].
      apply ErrorTableFacts.error_matches_spec in Hme as [Het' Hsid'].
      unfold ErrorTable.bump.
      destruct (SyncError.id e =? SyncError.id old) eqn:Hid; [|reflexivity].
      exfalso. apply Hne. apply Z.eqb_eq in Hid.
      assert (e = old)
        by (eapply NoDup_map_eq; eauto using ErrorTable.ids_distinct).
      subst e. congruence.
Qed.

Lemma record_error_one_row_per_entity_witness :
  ErrorTable.ok Database.empty /\
  ErrorTable.rows_for
    (Database.record_error
       (ErrorTable.apply_ops Database.empty
          [ErrorTable.Record_error "customer" "7" "timeout" 10;
           ErrorTable.Record_error "product" "7" "bad sku" 11])
       "customer" "7" "timeout again" 20)
    "customer" "7"
  = [SyncError.Build 1 "customer" "7" "timeout again" 20 1].
Proof.
  split; [exact ErrorTableFacts.ok_empty|].
  exact (proj1 (proj2 (record_error_one_row_per_entity Database.empty
           [ErrorTable.Record_error "customer" "7" "timeout" 10;
            ErrorTable.Record_error "product" "7" "bad sku" 11]
           "customer" "7" "timeout again" 20 ErrorTableFacts.ok_empty))).
Defined.

(* ===================================================================== *)
(** ** The mapping table *)
(* ===================================================================== *)

Lemma get_mapping_upsert (d : Database.t) (mapping : SyncMapping.t) :
  exists row,
    Database.sync_mappings (Database.upsert_mapping d mapping)
      !! SyncMapping.shopify_id mapping = Some row /\
    Database.xero_id row = SyncMapping.xero_id mapping /\
    Database.checksum row = SyncMapping.checksum mapping /\
    Database.last_synced_at row = SyncMapping.last_synced_at mapping /\
    Database.shopify_updated_at row = SyncMapping.shopify_updated_at mapping /\
    Database.entity_type row =
      match Database.sync_mappings d !! SyncMapping.shopify_id mapping with
      | Some old => Database.entity_type old
      | None => SyncMapping.entity_type mapping
      end.
Proof.
  unfold Database.upsert_mapping; simpl.
  rewrite lookup_insert_eq.
  destruct (Database.sync_mappings d !! SyncMapping.shopify_id mapping);
    eexists; split; try reflexivity; simpl; auto.
Qed.

Lemma upsert_mapping_other (d : Database.t) (mapping : SyncMapping.t) (key : string) :
  key <> SyncMapping.shopify_id mapping ->
  Database.sync_mappings (Database.upsert_mapping d mapping) !! key =
  Database.sync_mappings d !! key.
Proof.
  intros Hne. unfold Database.upsert_mapping; simpl.
  apply lookup_insert_ne. congruence.
Qed.

(** Mapping uniqueness: the store holds at most one row per [shopify_id],
    whatever is upserted, since the table is keyed by it. *)
Lemma get_mapping_functional (d : Database.t) (shopify_id : string)
    (m1 m2 : SyncMapping.t) :
  Database.get_mapping d shopify_id = Some m1 ->
  Database.get_mapping d shopify_id = Some m2 -> m1 = m2.
Proof. congruence. Qed.

Lemma calls_since_app (w w' : World) (l : list call) :
  log w' = (log w ++ l)%list -> calls_since w w' = l.
Proof. intros H. unfold calls_since. rewrite H. apply drop_app_length. Qed.

Lemma calls_since_nil (w w' : World) : log w' = log w -> calls_since w w' = [].
Proof. intros H. unfold calls_since. rewrite H. apply drop_all. Qed.

(** Reads [calls_since w w'] off a log of the form [log w ++ ...]. *)
Ltac calls_known :=
  first
    [ rewrite calls_since_nil by reflexivity
    | erewrite calls_since_app by (cbn [log]; rewrite <- ?app_assoc; reflexivity) ].

Lemma has_changed_false (old : option string) (new : string) :
  has_changed old new = false <-> old = Some new.
Proof.
  unfold has_changed. destruct old as [o|]; [|split; discriminate].
  rewrite negb_false_iff, String.eqb_eq. split; congruence.
Qed.

Lemma has_changed_true (old : option string) (new : string) :
  has_changed old new = true <-> old <> Some new.
Proof.
  rewrite <- has_changed_false. destruct (has_changed old new); split; congruence.
Qed.

(* ===================================================================== *)
(** ** Orders that already have an invoice *)
(* ===================================================================== *)

(** C2. An order that has a mapping row whose stored checksum is not the
    checksum of the order is reported as skipped; the pass makes no call at
    all (so no update reaches the destination), and the store changes in one
    row only: the row of the order keeps its Xero id, entity type and
    Shopify timestamp and takes the new checksum and the current time as
    [last_synced_at]. *)
Theorem mapped_order_change_updates_fingerprint_only
    (remote : Remote) (float_accepts discount_positive : string -> bool)
    (self : SyncEngine) (order : ShopifyOrder.t)
    (sku_to_gl_code : gmap string string) (w : World) (row : Database.MappingRow) :
  Database.sync_mappings (db w) !! Py.str_of_int (ShopifyOrder.id order) = Some row ->
  Database.checksum row <> Some (calculate_order_checksum order) ->
  exists w',
    _sync_single_order remote float_accepts discount_positive self order
      sku_to_gl_code w = (Ok ("skipped", None), w') /\
    db w' =
      Database.with_mappings (db w)
        (<[Py.str_of_int (ShopifyOrder.id order) :=
             Database.BuildRow (Database.xero_id row) (Database.entity_type row)
               (Some (clock remote (ticks w))) (Database.shopify_updated_at row)
               (Some (calculate_order_checksum order))]>
           (Database.sync_mappings (db w))) /\
    log w' = log w /\
    calls_since w w' = [].
Proof.
  intros Hrow Hne. apply has_changed_true in Hne.
  unfold _sync_single_order. unfold_monad.
  unfold Database.get_mapping. rewrite Hrow. simpl. rewrite Hne. simpl.
  eexists. split; [reflexivity|]. simpl.
  unfold Database.upsert_mapping. simpl. rewrite Hrow.
  repeat split. unfold calls_since. simpl. apply drop_all.
Qed.

Lemma mapped_order_change_updates_fingerprint_only_witness :
  Database.checksum
    (Database.BuildRow "inv1" "order" (Some 500) None (Some "stale"))
    <> Some (calculate_order_checksum Sample.order) /\
  exists w',
    _sync_single_order Sample.quiet Sample.float_accepts Sample.discount_positive
      Sample.live Sample.order ∅ Sample.order_mapped = (Ok ("skipped", None), w') /\
    db w' =
      Database.with_mappings (db Sample.order_mapped)
        (<["3" := Database.BuildRow "inv1" "order" (Some 1000) None
                    (Some (calculate_order_checksum Sample.order))]>
           (Database.sync_mappings (db Sample.order_mapped))) /\
    log w' = log Sample.order_mapped /\
    calls_since Sample.order_mapped w' = [].
Proof.
  assert (Hne : Database.checksum
                  (Database.BuildRow "inv1" "order" (Some 500) None (Some "stale"))
                <> Some (calculate_order_checksum Sample.order))
    by (vm_compute; discriminate).
  split; [exact Hne|].
  apply (mapped_order_change_updates_fingerprint_only Sample.quiet
           Sample.float_accepts Sample.discount_positive Sample.live Sample.order
           ∅ Sample.order_mapped
           (Database.BuildRow "inv1" "order" (Some 500) None (Some "stale")));
    [vm_compute; reflexivity | exact Hne].
Defined.

(* ===================================================================== *)
(** ** Unchanged entities are skipped *)
(* ===================================================================== *)

Lemma world_eta (w : World) : BuildWorld (db w) (log w) (ticks w) = w.
Proof. destruct w; reflexivity. Qed.

Lemma get_mapping_key (d : Database.t) (shopify_id : string) (m : SyncMapping.t) :
  Database.get_mapping d shopify_id = Some m -> SyncMapping.shopify_id m = shopify_id.
Proof.
  unfold Database.get_mapping. destruct (_ !! _); simpl; [|discriminate].
  intros H; inversion H; reflexivity.
Qed.

Lemma get_mapping_after_upsert (d : Database.t) (m : SyncMapping.t)
    (shopify_id : string) (errs : list SyncError.t) (seq : Z) :
  SyncMapping.shopify_id m = shopify_id ->
  exists m',
    Database.get_mapping
      (Database.with_errors (Database.upsert_mapping d m) errs seq) shopify_id
    = Some m' /\
    SyncMapping.checksum m' = SyncMapping.checksum m /\
    SyncMapping.xero_id m' = SyncMapping.xero_id m.
Proof.
  intros <-. destruct (get_mapping_upsert d m) as [row [Hrow [Hx [Hc _]]]].
  unfold Database.get_mapping, Database.with_errors.
  cbn [Database.sync_mappings]. rewrite Hrow. simpl.
  eexists; split; [reflexivity|]. simpl. auto.
Qed.

(** Closes a goal that asks for the mapping left by [upsert_mapping] followed
    by [clear_error]. *)
Ltac mapping_written :=
  simpl in *;
  match goal with
  | |- exists m, Database.get_mapping
         (Database.with_errors (Database.upsert_mapping ?d ?m0) ?e ?s) ?sid
       = Some m /\ _ =>
      let H := fresh "Hkey" in
      let m' := fresh "m" in
      let Hm := fresh "Hm" in
      let Hc := fresh "Hc" in
      let Hx := fresh "Hx" in
      assert (H : SyncMapping.shopify_id m0 = sid)
        by (simpl; first [reflexivity | eapply get_mapping_key; eassumption]);
      destruct (get_mapping_after_upsert d m0 sid e s H) as [m' [Hm [Hc Hx]]];
      exists m'; split;
      [exact Hm | rewrite ?Hc, ?Hx; simpl; repeat split; reflexivity]
  end.

Section Skipping.

Variable remote : Remote.
Variable float_accepts : string -> bool.
Variable discount_positive : string -> bool.
Variable self : SyncEngine.




Lemma customer_synced c w a w1 :
  dry_run self = false ->
  _sync_single_customer remote self c w = (Ok (a, None), w1) ->
  a = "created" \/ a = "updated" ->
  exists m,
    Database.get_mapping (db w1) (Py.str_of_int (ShopifyCustomer.id c)) = Some m /\
    SyncMapping.checksum m = Some (calculate_customer_checksum c).
Proof.
  intros Hd H Ha. unfold_customer. rewrite Hd in H. unfold_monad. simpl in H.
  repeat break_hyp.
  all: try (destruct Ha; discriminate).
  all: mapping_written.
Qed.

Lemma product_synced p w a w1 :
  dry_run self = false ->
  _sync_single_product remote float_accepts self p w = (Ok (a, None), w1) ->
  a = "created" \/ a = "updated" ->
  exists m,
    Database.get_mapping (db w1) (Py.str_of_int (ShopifyProduct.id p)) = Some m /\
    SyncMapping.checksum m = Some (calculate_product_checksum p).
Proof.
  intros Hd H Ha. unfold_product. rewrite Hd in H. unfold_monad. simpl in H.
  repeat break_hyp.
  all: try (destruct Ha; discriminate).
  all: mapping_written.
Qed.

Lemma order_synced o gl w a w1 :
  dry_run self = false ->
  _sync_single_order remote float_accepts discount_positive self o gl w =
    (Ok (a, None), w1) ->
  a = "created" \/ a = "updated" ->
  exists m,
    Database.get_mapping (db w1) (Py.str_of_int (ShopifyOrder.id o)) = Some m /\
    SyncMapping.checksum m = Some (calculate_order_checksum o).
Proof.
  intros Hd H Ha. unfold_order. rewrite Hd in H. unfold_monad. simpl in H.
  repeat break_hyp.
  all: try (destruct Ha; discriminate).
  all: mapping_written.
Qed.


End Skipping.

(* ===================================================================== *)
(** ** New entities with a destination match *)
(* ===================================================================== *)

Lemma converted_item_code (float_accepts : string -> bool) (p : ShopifyProduct.t)
    (item : XeroItem.t) :
  shopify_product_to_xero_item float_accepts p = Ok (Some item) ->
  Py.truthy (XeroItem.Code item) = true.
Proof.
  unfold shopify_product_to_xero_item.
  destruct (ShopifyProduct.primary_variant p) as [v|]; [|discriminate].
  destruct (ShopifyProductVariant.sku v) as [sku|] eqn:Hsku; simpl; [|discriminate].
  destruct (Py.truthy sku) eqn:Hs; simpl; [|discriminate].
  destruct (if Py.truthy _ then _ else _); [|discriminate].
  intros H; inversion H; subst; simpl.
  unfold Py.str_or. rewrite Hs. exact Hs.
Qed.

Lemma reference_truthy (s : string) :
  Py.truthy (INVOICE_REFERENCE_PREFIX +:+ s) = true.
Proof. reflexivity. Qed.

Lemma no_create_marketing (self : SyncEngine) (e : entity) :
  Forall (fun k => is_create k = false) (marketing_calls self e).
Proof.
  destruct e; simpl; try constructor. destruct (_ && _); repeat constructor.
Qed.

Section Dispatch.

Variable remote : Remote.
Variable float_accepts : string -> bool.
Variable discount_positive : string -> bool.
Variable self : SyncEngine.

(** Without a mapping, each per-entity method is its create method. *)
Lemma new_customer_dispatch c w :
  Database.get_mapping (db w) (Py.str_of_int (ShopifyCustomer.id c)) = None ->
  _sync_single_customer remote self c w =
  _create_customer_in_xero remote self c (calculate_customer_checksum c)
    (BuildWorld (db w) (log w ++ marketing_calls self (Customer c)) (ticks w)).
Proof.
  intros Hm. unfold _sync_single_customer, _update_customer_email_marketing.
  unfold marketing_calls. unfold_monad.
  destruct (enable_email_marketing (settings self)); simpl;
    destruct (dry_run self) eqn:Hd; simpl; rewrite ?Hm; simpl;
    rewrite ?app_nil_r, ?world_eta; try reflexivity.
  destruct (update_customer_email_marketing remote (log w) (ShopifyCustomer.id c));
    simpl; rewrite Hm; reflexivity.
Qed.

Lemma new_product_dispatch p item w :
  Database.get_mapping (db w) (Py.str_of_int (ShopifyProduct.id p)) = None ->
  shopify_product_to_xero_item float_accepts p = Ok (Some item) ->
  _sync_single_product remote float_accepts self p w =
  _create_product_in_xero remote self p item (calculate_product_checksum p) w.
Proof.
  intros Hm Hx. unfold _sync_single_product. unfold_monad.
  rewrite Hx, Hm. reflexivity.
Qed.

Lemma new_order_dispatch o gl w :
  Database.get_mapping (db w) (Py.str_of_int (ShopifyOrder.id o)) = None ->
  _sync_single_order remote float_accepts discount_positive self o gl w =
  _create_order_in_xero remote float_accepts discount_positive self o gl
    (calculate_order_checksum o) w.
Proof.
  intros Hm. unfold _sync_single_order. unfold_monad.
  rewrite Hm. reflexivity.
Qed.

End Dispatch.

(** C3 (as the code has it).  A new customer whose email lookup returns a
    contact that is not ARCHIVED, and a new product whose SKU lookup returns
    an item, are linked: the mapping is written to the matched id under the
    current checksum and no create call is made.  In dry-run the pass reports
    "updated" and stops there; otherwise it pushes one update carrying the
    source data to the matched record and reports "updated" when that call
    succeeds, ("skipped", error) when it raises XeroAPIError.  A new order
    whose reference lookup returns an invoice is linked too, but reported as
    "skipped", and no update (nor create) call is made for it. *)
Theorem link_to_destination_match
    (remote : Remote) (float_accepts discount_positive : string -> bool)
    (self : SyncEngine) :
  (forall c w email existing d,
      Database.get_mapping (db w) (Py.str_of_int (ShopifyCustomer.id c)) = None ->
      ShopifyCustomer.email c = Some email ->
      Py.truthy email = true ->
      fetch_contact_by_email remote (log w ++ marketing_calls self (Customer c)) email
        = Ok (Some existing) ->
      XeroContact.ContactStatus existing <> "ARCHIVED" ->
      XeroContact.ContactID existing = Some d ->
      Py.truthy d = true ->
      exists r w',
        _sync_single_customer remote self c w = (r, w') /\
        linked w' (Py.str_of_int (ShopifyCustomer.id c)) d
          (calculate_customer_checksum c) /\
        Forall (fun k => is_create k = false) (calls_since w w') /\
        if dry_run self
        then r = Ok ("updated", None) /\
             calls_since w w' =
               (marketing_calls self (Customer c) ++
                [Xero_find_contact_by_email email])%list
        else calls_since w w' =
               (marketing_calls self (Customer c) ++
                [Xero_find_contact_by_email email;
                 Xero_update_contact
                   (XeroContact.with_ContactID
                      (shopify_customer_to_xero_contact c) (Some d))])%list /\
             match put_contact remote
                     ((log w ++ marketing_calls self (Customer c)) ++
                      [Xero_find_contact_by_email email])
                     (XeroContact.with_ContactID
                        (shopify_customer_to_xero_contact c) (Some d)) with
             | Ok _ => r = Ok ("updated", None)
             | Raise (XeroAPIError msg) =>
                 r = Ok ("skipped",
                         Some ("Failed to update existing contact for customer "
                               +:+ Py.str_of_int (ShopifyCustomer.id c)
                               +:+ ": " +:+ msg))
             | Raise (PyException msg) => r = Raise (PyException msg)
             end) /\
  (forall p w item existing d,
      Database.get_mapping (db w) (Py.str_of_int (ShopifyProduct.id p)) = None ->
      shopify_product_to_xero_item float_accepts p = Ok (Some item) ->
      fetch_item_by_code remote (log w) (XeroItem.Code item) = Ok (Some existing) ->
      XeroItem.ItemID existing = Some d ->
      Py.truthy d = true ->
      exists r w',
        _sync_single_product remote float_accepts self p w = (r, w') /\
        linked w' (Py.str_of_int (ShopifyProduct.id p)) d
          (calculate_product_checksum p) /\
        Forall (fun k => is_create k = false) (calls_since w w') /\
        if dry_run self
        then r = Ok ("updated", None) /\
             calls_since w w' = [Xero_find_item_by_code (XeroItem.Code item)]
        else calls_since w w' =
               [Xero_find_item_by_code (XeroItem.Code item);
                Xero_update_item (XeroItem.with_ItemID item (Some d))] /\
             match put_item remote
                     (log w ++ [Xero_find_item_by_code (XeroItem.Code item)])
                     (XeroItem.with_ItemID item (Some d)) with
             | Ok _ => r = Ok ("updated", None)
             | Raise (XeroAPIError msg) =>
                 r = Ok ("skipped",
                         Some ("Failed to update existing item for product "
                               +:+ Py.str_of_int (ShopifyProduct.id p)
                               +:+ ": " +:+ msg))
             | Raise (PyException msg) => r = Raise (PyException msg)
             end) /\
  (forall o gl w existing d,
      Database.get_mapping (db w) (Py.str_of_int (ShopifyOrder.id o)) = None ->
      fetch_invoice_by_reference remote (log w)
        (INVOICE_REFERENCE_PREFIX +:+ Py.str_of_int (ShopifyOrder.order_number o))
        = Ok (Some existing) ->
      XeroInvoice.InvoiceID existing = Some d ->
      exists w',
        _sync_single_order remote float_accepts discount_positive self o gl w =
          (Ok ("skipped", None), w') /\
        linked w' (Py.str_of_int (ShopifyOrder.id o)) d (calculate_order_checksum o) /\
        calls_since w w' =
          [Xero_find_invoice_by_reference
             (INVOICE_REFERENCE_PREFIX +:+
              Py.str_of_int (ShopifyOrder.order_number o))]).
Proof.
  split; [|split].
  - intros c w email existing d Hm Hem He Hf Hs Hid Hd.
    rewrite (new_customer_dispatch _ _ _ _ Hm).
    apply String.eqb_neq in Hs.
    pose proof (no_create_marketing self (Customer c)) as Hmk.
    remember (marketing_calls self (Customer c)) as mk eqn:Emk. clear Emk.
    match goal with
    | |- context [_create_customer_in_xero ?a ?b ?c ?d ?e] =>
        destruct (_create_customer_in_xero a b c d e) as [r w'] eqn:H
    end.
    exists r, w'. split; [reflexivity|].
    unfold _create_customer_in_xero in H. unfold_monad.
    rewrite Hem in H. simpl in H. unfold Py.str_or in H.
    feed H.
    destruct (dry_run self) eqn:Hdry; simpl in H.
    + repeat break_hyp. cbn [db log ticks].
      split; [unfold linked; mapping_written; auto|].
      calls_known.
      split; [apply Forall_app; split; [exact Hmk|repeat constructor]|].
      split; reflexivity.
    + feed H. repeat break_hyp.
      all: cbn [db log ticks].
      all: (split; [unfold linked; mapping_written; auto|]).
      all: calls_known.
      all: (split; [apply Forall_app; split; [exact Hmk|repeat constructor]|]).
      all: split; [reflexivity|].
      all: simpl in *.
      all: reflexivity.
  - intros p w item existing d Hm Hx Hf Hid Hd.
    rewrite (new_product_dispatch _ _ _ _ _ _ Hm Hx).
    pose proof (converted_item_code _ _ _ Hx) as Hcode.
    match goal with
    | |- context [_create_product_in_xero ?a ?b ?c ?d ?e ?f] =>
        destruct (_create_product_in_xero a b c d e f) as [r w'] eqn:H
    end.
    exists r, w'. split; [reflexivity|].
    unfold _create_product_in_xero in H. unfold_monad.
    feed H.
    destruct (dry_run self) eqn:Hdry; simpl in H.
    + repeat break_hyp. cbn [db log ticks].
      split; [unfold linked; mapping_written; auto|].
      calls_known.
      split; [repeat constructor|].
      split; reflexivity.
    + feed H. repeat break_hyp.
      all: cbn [db log ticks].
      all: (split; [unfold linked; mapping_written; auto|]).
      all: calls_known.
      all: (split; [repeat constructor|]).
      all: split; [reflexivity|].
      all: simpl in *.
      all: reflexivity.
  - intros o gl w existing d Hm Hf Hid.
    rewrite (new_order_dispatch _ _ _ _ _ _ _ Hm).
    unfold _create_order_in_xero. unfold_monad.
    rewrite reference_truthy. cbn [negb]. rewrite Hf, Hid.
    eexists. split; [reflexivity|]. cbn [db log ticks].
    split; [unfold linked; mapping_written; auto|].
    calls_known. reflexivity.
Qed.

(** Scenario B of the specification: customer 1 with email a@x.com, no
    mapping, and an active contact "d1" under that email. *)
Lemma link_to_destination_match_witness :
  let remote := Sample.knowing (Some Sample.active_contact) None None in
  (Database.get_mapping (db Sample.start) "1" = None /\
   ShopifyCustomer.email Sample.customer = Some "a@x.com" /\
   Py.truthy "a@x.com" = true /\
   fetch_contact_by_email remote [] "a@x.com" = Ok (Some Sample.active_contact) /\
   XeroContact.ContactStatus Sample.active_contact <> "ARCHIVED" /\
   XeroContact.ContactID Sample.active_contact = Some "d1" /\
   Py.truthy "d1" = true) /\
  exists r w',
    _sync_single_customer remote Sample.live Sample.customer Sample.start = (r, w') /\
    r = Ok ("updated", None) /\
    linked w' "1" "d1" (calculate_customer_checksum Sample.customer) /\
    Forall (fun k => is_create k = false) (calls_since Sample.start w') /\
    calls_since Sample.start w' =
      [Xero_find_contact_by_email "a@x.com";
       Xero_update_contact
         (XeroContact.with_ContactID
            (shopify_customer_to_xero_contact Sample.customer) (Some "d1"))].
Proof.
  intros remote.
  assert (Hstatus : XeroContact.ContactStatus Sample.active_contact <> "ARCHIVED")
    by (vm_compute; discriminate).
  split; [repeat split; try reflexivity; exact Hstatus|].
  destruct (proj1 (link_to_destination_match remote Sample.float_accepts
                     Sample.discount_positive Sample.live)
              Sample.customer Sample.start "a@x.com" Sample.active_contact "d1"
              eq_refl eq_refl eq_refl eq_refl Hstatus eq_refl eq_refl)
    as [r [w' [Hrun [Hlinked [Hcreate [Hcalls Hr]]]]]].
  exists r, w'. repeat split; assumption.
Defined.

(** C3, as stated, fails on orders: order 1001 with an invoice already under
    reference SHOP-1001 is linked and reported "skipped", not "updated", and
    no update is pushed. *)
Lemma linked_order_is_not_updated :
  let remote := Sample.knowing None None (Some Sample.existing_invoice) in
  let pass :=
    _sync_single_order remote Sample.float_accepts Sample.discount_positive
      Sample.live Sample.order ∅ Sample.start in
  Database.get_mapping (db Sample.start) "3" = None /\
  fetch_invoice_by_reference remote [] "SHOP-1001" = Ok (Some Sample.existing_invoice) /\
  fst pass = Ok ("skipped", None) /\
  fst pass <> Ok ("updated", None) /\
  existsb is_update (calls_since Sample.start (snd pass)) = false /\
  linked (snd pass) "3" "inv1" (calculate_order_checksum Sample.order).
Proof.
  intros remote pass.
  split; [reflexivity|]. split; [reflexivity|].
  assert (Hpass : fst pass = Ok ("skipped", None)) by (vm_compute; reflexivity).
  split; [exact Hpass|]. split; [rewrite Hpass; discriminate|].
  split; [vm_compute; reflexivity|].
  eexists. split; [vm_compute; reflexivity|]. split; vm_compute; reflexivity.
Qed.

(* ===================================================================== *)
(** ** A create that fails *)
(* ===================================================================== *)

Lemma nil_eq_app_cons {A} (pre post : list A) (c : A) :
  [] = (pre ++ c :: post)%list -> False.
Proof. destruct pre; discriminate. Qed.

Lemma cons_eq_app_cons {A} (a : A) (l pre post : list A) (c : A) :
  a :: l = (pre ++ c :: post)%list ->
  (pre = [] /\ a = c /\ l = post) \/
  (exists pre', pre = a :: pre' /\ l = (pre' ++ c :: post)%list).
Proof.
  destruct pre as [|x pre]; simpl; intros H; inversion H; subst; eauto.
Qed.

(** Enumerates the positions of an element in a list spelled out. *)
Ltac position H :=
  first
    [ apply nil_eq_app_cons in H; contradiction
    | apply cons_eq_app_cons in H;
      destruct H as [[? [? ?]] | [? [? H]]]; subst; [ | position H ] ].

Lemma scan_some entity_type shopify_id rows : forall best e,
  ErrorTable.scan entity_type shopify_id best rows = Some e ->
  best = Some e \/
  (In e rows /\ Database.error_matches entity_type shopify_id e = true).
Proof.
  induction rows as [|x rows IH]; simpl; intros best e H; [auto|].
  apply IH in H. destruct H as [H|[H1 H2]]; [|right; auto].
  destruct (Database.error_matches entity_type shopify_id x) eqn:Hx; [|auto].
  destruct best as [b|].
  - destruct (_ <? _); inversion H; subst; auto.
  - inversion H; subst; auto.
Qed.

Lemma record_error_row_present d entity_type shopify_id msg now :
  ErrorTable.rows_for (Database.record_error d entity_type shopify_id msg now)
    entity_type shopify_id <> [].
Proof.
  unfold Database.record_error.
  destruct (Database.find_error d entity_type shopify_id) as [existing|] eqn:Hf;
    unfold ErrorTable.rows_for; simpl.
  - apply scan_some in Hf. destruct Hf as [Hf|[Hin Hm]]; [discriminate|].
    fold (ErrorTable.bump existing msg now).
    rewrite ErrorTableFacts.filter_bump.
    intros Hnil. apply map_eq_nil in Hnil.
    assert (Hin' : In existing
                     (List.filter (Database.error_matches entity_type shopify_id)
                        (Database.sync_errors d)))
      by (apply List.filter_In; auto).
    rewrite Hnil in Hin'. contradiction.
  - rewrite List.filter_app. simpl.
    unfold Database.error_matches at 2. simpl. rewrite !String.eqb_refl. simpl.
    intros H. apply app_eq_nil in H as [_ H]. discriminate.
Qed.

Lemma recorded_intro result w d1 lg tk msg msg' now entity_type shopify_id :
  Database.sync_mappings d1 = Database.sync_mappings (db w) ->
  recorded result (append_error result msg') w
    (BuildWorld (Database.record_error d1 entity_type shopify_id msg now) lg tk)
    entity_type shopify_id.
Proof.
  intros Hd. unfold recorded. cbn [db].
  split.
  { rewrite <- Hd. unfold Database.record_error.
    destruct (Database.find_error _ _ _); reflexivity. }
  split; [eexists; reflexivity|].
  repeat split. apply record_error_row_present.
Qed.

(** Runs the loop body to its end on every path and settles the paths on
    which a create call failed. *)
Ltac failed_create H :=
  repeat (first [progress feed H | break_hyp]; try (exfalso; congruence));
  calls_known;
  let Hpos := fresh "Hpos" in
  let Hfail := fresh "Hfail" in
  intros Hpos Hfail;
  position Hpos;
  repeat rewrite <- app_assoc in *; rewrite ?app_nil_r in *; cbn [app] in *;
  simpl in Hfail;
  try discriminate Hfail;
  try (match goal with
       | E : post_contact _ _ _ = _ |- _ => rewrite E in Hfail
       | E : post_item _ _ _ = _ |- _ => rewrite E in Hfail
       | E : post_invoice _ _ _ = _ |- _ => rewrite E in Hfail
       end; try discriminate Hfail);
  eexists; (split; [reflexivity|]); simpl;
  apply recorded_intro; reflexivity.

Section FailedCreate.

Variable remote : Remote.
Variable float_accepts : string -> bool.
Variable discount_positive : string -> bool.
Variable self : SyncEngine.

Lemma failed_customer result c w out w' pre k post :
  Database.get_mapping (db w) (Py.str_of_int (ShopifyCustomer.id c)) = None ->
  sync_one remote "customer" "Customer" ShopifyCustomer.id
    (_sync_single_customer remote self) result c w = (out, w') ->
  calls_since w w' = (pre ++ k :: post)%list ->
  create_fails remote (log w ++ pre) k = true ->
  exists result',
    out = Ok result' /\
    recorded result result' w w' "customer" (Py.str_of_int (ShopifyCustomer.id c)).
Proof.
  intros Hm H. unfold sync_one in H.
  unfold_customer. unfold_monad. simpl in H.
  failed_create H.
Qed.

Lemma failed_product result p w out w' pre k post :
  Database.get_mapping (db w) (Py.str_of_int (ShopifyProduct.id p)) = None ->
  sync_one remote "product" "Product" ShopifyProduct.id
    (_sync_single_product remote float_accepts self) result p w = (out, w') ->
  calls_since w w' = (pre ++ k :: post)%list ->
  create_fails remote (log w ++ pre) k = true ->
  exists result',
    out = Ok result' /\
    recorded result result' w w' "product" (Py.str_of_int (ShopifyProduct.id p)).
Proof.
  intros Hm H. unfold sync_one in H.
  unfold_product. unfold_monad. simpl in H.
  failed_create H.
Qed.

Lemma failed_order gl result o w out w' pre k post :
  Database.get_mapping (db w) (Py.str_of_int (ShopifyOrder.id o)) = None ->
  sync_one remote "order" "Order" ShopifyOrder.id
    (fun order =>
       _sync_single_order remote float_accepts discount_positive self order gl)
    result o w = (out, w') ->
  calls_since w w' = (pre ++ k :: post)%list ->
  create_fails remote (log w ++ pre) k = true ->
  exists result',
    out = Ok result' /\
    recorded result result' w w' "order" (Py.str_of_int (ShopifyOrder.id o)).
Proof.
  intros Hm H. unfold sync_one in H.
  unfold_order. unfold_monad. simpl in H.
  failed_create H.
Qed.

End FailedCreate.

(** C4. Take a new entity (no mapping row) of any of the three types and the
    loop body of its phase.  If among the calls of that step there is a
    create call that the destination answered with an exception, then the
    step ends normally, the mapping table is exactly what it was -- the
    entity still has no row, so the next run takes the create path again --
    the phase result gains one error message and no count, and the error
    table holds a row for the entity. *)
Theorem failed_create_writes_no_mapping
    (remote : Remote) (float_accepts discount_positive : string -> bool)
    (self : SyncEngine) (gl : gmap string string) (result : SyncResult)
    (e : entity) (w : World) (out : outcome SyncResult) (w' : World)
    (pre : list call) (k : call) (post : list call) :
  Database.get_mapping (db w) (source_id e) = None ->
  phase_step remote float_accepts discount_positive self gl result e w = (out, w') ->
  calls_since w w' = (pre ++ k :: post)%list ->
  create_fails remote (log w ++ pre) k = true ->
  exists result',
    out = Ok result' /\
    Database.sync_mappings (db w') = Database.sync_mappings (db w) /\
    Database.get_mapping (db w') (source_id e) = None /\
    (exists msg, errors result' = (errors result ++ [msg])%list) /\
    created result' = created result /\
    updated result' = updated result /\
    skipped result' = skipped result /\
    ErrorTable.rows_for (db w') (entity_type_of e) (source_id e) <> [].
Proof.
  intros Hm Hstep Hpos Hfail.
  assert (H : exists result',
             out = Ok result' /\
             recorded result result' w w' (entity_type_of e) (source_id e)).
  { destruct e as [c|p|o]; simpl in *.
    - eapply failed_customer; eauto.
    - eapply failed_product; eauto.
    - eapply failed_order; eauto. }
  destruct H as [result' [Hout [Hmap [Herr [Hc [Hu [Hs Hrow]]]]]]].
  exists result'. repeat split; auto.
  unfold Database.get_mapping in *. rewrite Hmap. exact Hm.
Qed.

Lemma failed_create_writes_no_mapping_witness :
  let e := Customer Sample.customer in
  let step :=
    phase_step Sample.refusing Sample.float_accepts Sample.discount_positive
      Sample.live ∅ new_result e Sample.start in
  let find := Xero_find_contact_by_email "a@x.com" in
  let create := Xero_create_contact (shopify_customer_to_xero_contact Sample.customer) in
  (Database.get_mapping (db Sample.start) (source_id e) = None /\
   calls_since Sample.start (snd step) = ([find] ++ create :: [])%list /\
   create_fails Sample.refusing (log Sample.start ++ [find]) create = true) /\
  exists result',
    fst step = Ok result' /\
    Database.sync_mappings (db (snd step)) = Database.sync_mappings (db Sample.start) /\
    Database.get_mapping (db (snd step)) (source_id e) = None /\
    (exists msg, errors result' = (errors new_result ++ [msg])%list) /\
    created result' = created new_result /\
    updated result' = updated new_result /\
    skipped result' = skipped new_result /\
    ErrorTable.rows_for (db (snd step)) (entity_type_of e) (source_id e) <> [].
Proof.
  intros e step find create.
  assert (Hcalls : calls_since Sample.start (snd step) = ([find] ++ create :: [])%list)
    by (vm_compute; reflexivity).
  split; [split; [reflexivity | split; [exact Hcalls | reflexivity]]|].
  exact (failed_create_writes_no_mapping Sample.refusing Sample.float_accepts
           Sample.discount_positive Sample.live ∅ new_result e Sample.start
           (fst step) (snd step) [find] create [] eq_refl
           (surjective_pairing step) Hcalls eq_refl).
Defined.

(* ===================================================================== *)
(** ** Archived matches *)
(* ===================================================================== *)

(** C6 (as the code has it).  A new customer whose email lookup returns a
    contact in status ARCHIVED is treated as if nothing had been found: the
    pass continues exactly as the create path does after the lookup.  In
    dry-run it reports "created" and the store is untouched; otherwise it
    issues one create call with the customer's payload, and the mapping is
    written to the id that the create returns, never to the archived
    contact; when the create raises, the store is untouched. *)
Theorem archived_contact_is_not_linked
    (remote : Remote) (self : SyncEngine) (c : ShopifyCustomer.t) (w : World)
    (email : string) (existing : XeroContact.t) :
  Database.get_mapping (db w) (Py.str_of_int (ShopifyCustomer.id c)) = None ->
  ShopifyCustomer.email c = Some email ->
  Py.truthy email = true ->
  fetch_contact_by_email remote (log w ++ marketing_calls self (Customer c)) email
    = Ok (Some existing) ->
  XeroContact.ContactStatus existing = "ARCHIVED" ->
  exists r w',
    _sync_single_customer remote self c w = (r, w') /\
    (r, w') =
      create_new_contact remote self c (calculate_customer_checksum c)
        (BuildWorld (db w)
           ((log w ++ marketing_calls self (Customer c)) ++
            [Xero_find_contact_by_email email])
           (ticks w)) /\
    if dry_run self
    then r = Ok ("created", None) /\ db w' = db w /\
         calls_since w w' =
           (marketing_calls self (Customer c) ++
            [Xero_find_contact_by_email email])%list
    else calls_since w w' =
           (marketing_calls self (Customer c) ++
            [Xero_find_contact_by_email email;
             Xero_create_contact (shopify_customer_to_xero_contact c)])%list /\
         match post_contact remote
                 ((log w ++ marketing_calls self (Customer c)) ++
                  [Xero_find_contact_by_email email])
                 (shopify_customer_to_xero_contact c) with
         | Ok created_contact =>
             match XeroContact.ContactID created_contact with
             | Some d =>
                 r = Ok ("created", None) /\
                 linked w' (Py.str_of_int (ShopifyCustomer.id c)) d
                   (calculate_customer_checksum c)
             | None => db w' = db w
             end
         | Raise _ => db w' = db w
         end.
Proof.
  intros Hm Hem He Hf Hs.
  rewrite (new_customer_dispatch _ _ _ _ Hm).
  apply String.eqb_eq in Hs.
  remember (marketing_calls self (Customer c)) as mk eqn:Emk. clear Emk.
  match goal with
  | |- context [_create_customer_in_xero ?a ?b ?c ?d ?e] =>
      destruct (_create_customer_in_xero a b c d e) as [r w'] eqn:H
  end.
  exists r, w'. split; [reflexivity|].
  unfold _create_customer_in_xero in H. unfold_monad.
  rewrite Hem in H. simpl in H. unfold Py.str_or in H.
  feed H.
  split; [symmetry; exact H|].
  unfold create_new_contact in H. unfold_monad.
  destruct (dry_run self) eqn:Hdry; simpl in H.
  - repeat break_hyp. cbn [db log ticks]. split; [reflexivity|]. split; [reflexivity|].
    calls_known. reflexivity.
  - repeat break_hyp.
    all: cbn [db log ticks].
    all: calls_known.
    all: (split; [reflexivity|]).
    all: simpl in *.
    all: try reflexivity.
    all: split; [reflexivity|unfold linked; mapping_written].
Qed.

(** New customer 1 with an ARCHIVED contact "d0" under its email: a fresh
    contact is created and the mapping points at it. *)
Lemma archived_contact_is_not_linked_witness :
  let remote := Sample.knowing (Some Sample.archived_contact) None None in
  (Database.get_mapping (db Sample.start) "1" = None /\
   ShopifyCustomer.email Sample.customer = Some "a@x.com" /\
   Py.truthy "a@x.com" = true /\
   fetch_contact_by_email remote [] "a@x.com" = Ok (Some Sample.archived_contact) /\
   XeroContact.ContactStatus Sample.archived_contact = "ARCHIVED") /\
  exists r w',
    _sync_single_customer remote Sample.live Sample.customer Sample.start = (r, w') /\
    r = Ok ("created", None) /\
    linked w' "1" "contact-new" (calculate_customer_checksum Sample.customer) /\
    calls_since Sample.start w' =
      [Xero_find_contact_by_email "a@x.com";
       Xero_create_contact (shopify_customer_to_xero_contact Sample.customer)].
Proof.
  intros remote.
  split; [repeat split; reflexivity|].
  destruct (archived_contact_is_not_linked remote Sample.live Sample.customer
              Sample.start "a@x.com" Sample.archived_contact
              eq_refl eq_refl eq_refl eq_refl eq_refl)
    as [r [w' [Hrun [_ [Hcalls [Hr Hlinked]]]]]].
  exists r, w'. repeat split; assumption.
Defined.

(** C6, as stated, fails on products: an item that the engine itself has
    archived (name prefixed, not sold, not purchased) and that the SKU lookup
    returns is linked and updated; nothing is created. *)
Lemma archived_item_is_linked :
  let remote := Sample.knowing None (Some Sample.archived_item) None in
  let pass :=
    _sync_single_product remote Sample.float_accepts Sample.live Sample.product
      Sample.start in
  Database.get_mapping (db Sample.start) "2" = None /\
  fetch_item_by_code remote [] "LAV-1" = Ok (Some Sample.archived_item) /\
  fst pass = Ok ("updated", None) /\
  existsb is_create (calls_since Sample.start (snd pass)) = false /\
  linked (snd pass) "2" "p0" (calculate_product_checksum Sample.product).
Proof.
  intros remote pass.
  split; [reflexivity|]. split; [reflexivity|].
  split; [vm_compute; reflexivity|].
  split; [vm_compute; reflexivity|].
  eexists. split; [vm_compute; reflexivity|]. split; vm_compute; reflexivity.
Qed.

(* ===================================================================== *)
(** ** Dry runs *)
(* ===================================================================== *)




Section DryRun.

Variable remote : Remote.
Variable float_accepts : string -> bool.
Variable discount_positive : string -> bool.
Variable self : SyncEngine.








End DryRun.


Section DryStore.

Variable remote : Remote.
Variable float_accepts : string -> bool.
Variable discount_positive : string -> bool.
Variable self : SyncEngine.





End DryStore.





(* ===================================================================== *)
(** ** What the fingerprint covers *)
(* ===================================================================== *)

Lemma append_nil (b : string) : "" +:+ b = b.
Proof. reflexivity. Qed.

Lemma append_cons (c : ascii) (a b : string) :
  String c a +:+ b = String c (a +:+ b).
Proof. reflexivity. Qed.

Lemma append_nil_r (a : string) : a +:+ "" = a.
Proof.
  induction a as [|c a IH]; [reflexivity|].
  rewrite append_cons, IH. reflexivity.
Qed.

Lemma append_assoc (a b c : string) : (a +:+ b) +:+ c = a +:+ (b +:+ c).
Proof.
  induction a as [|x a IH]; [reflexivity|].
  rewrite !append_cons, IH. reflexivity.
Qed.

Lemma list_of_append (a b : string) :
  list_ascii_of_string (a +:+ b) =
  (list_ascii_of_string a ++ list_ascii_of_string b)%list.
Proof.
  induction a as [|c a IH]; [reflexivity|].
  rewrite append_cons. simpl. rewrite IH. reflexivity.
Qed.

Lemma list_of_string_inj (a b : string) :
  list_ascii_of_string a = list_ascii_of_string b -> a = b.
Proof.
  intros H.
  rewrite <- (string_of_list_ascii_of_string a),
    <- (string_of_list_ascii_of_string b), H.
  reflexivity.
Qed.

Lemma append_cancel_l (p a b : string) : p +:+ a = p +:+ b -> a = b.
Proof.
  intros H. apply list_of_string_inj.
  apply (f_equal list_ascii_of_string) in H. rewrite !list_of_append in H.
  eapply app_inv_head, H.
Qed.











(* ===================================================================== *)
(** ** A fetch that fails *)
(* ===================================================================== *)

Lemma inside_run_refl (w : World) : inside_run w w.
Proof.
  split; [exists []; split; [symmetry; apply app_nil_r|constructor]|reflexivity].
Qed.

Lemma inside_run_trans (w1 w2 w3 : World) :
  inside_run w1 w2 -> inside_run w2 w3 -> inside_run w1 w3.
Proof.
  intros [[l1 [H1 F1]] G1] [[l2 [H2 F2]] G2]. split.
  - exists (l1 ++ l2)%list. split.
    + rewrite H2, H1, app_assoc. reflexivity.
    + apply Forall_app; auto.
  - congruence.
Qed.

Lemma history_record_error (d : Database.t) (entity_type shopify_id msg : string)
    (now : Z) :
  Database.sync_history (Database.record_error d entity_type shopify_id msg now) =
  Database.sync_history d.
Proof.
  unfold Database.record_error.
  destruct (Database.find_error _ _ _); reflexivity.
Qed.

Lemma last_successful_sync_history (d d' : Database.t) :
  Database.sync_history d' = Database.sync_history d ->
  Database.get_last_successful_sync d' = Database.get_last_successful_sync d.
Proof. unfold Database.get_last_successful_sync. intros ->. reflexivity. Qed.

Lemma calls_since_intro (w w' : World) (l : list call) :
  log w' = (log w ++ l)%list -> calls_since w w' = l.
Proof. intros H. unfold calls_since. rewrite H. apply drop_app_length. Qed.

Lemma phase_from_inside (fetch : call) (w : World) (d : Database.t)
    (lg : list call) (tk : nat) (w' : World) :
  lg = (log w ++ [fetch])%list -> d = db w ->
  inside_run (BuildWorld d lg tk) w' -> phase_ran fetch w w'.
Proof.
  intros -> -> [[l [Hl Fl]] Hh]. simpl in *. split; [|exact Hh].
  exists l. split; [|exact Fl]. rewrite Hl, <- app_assoc. reflexivity.
Qed.

Ltac inside_goal :=
  split;
  [ eexists; split;
    [ cbn [log]; first [symmetry; apply app_nil_r | rewrite <- ?app_assoc; reflexivity]
    | repeat constructor ]
  | reflexivity ].

Section Phases.

Variable remote : Remote.
Variable float_accepts : string -> bool.
Variable discount_positive : string -> bool.
Variable self : SyncEngine.

Lemma customer_inside c w r w' :
  _sync_single_customer remote self c w = (r, w') -> inside_run w w'.
Proof.
  intros H. unfold_customer. unfold_monad. simpl in H.
  repeat break_hyp.
  all: inside_goal.
Qed.

Lemma product_inside p w r w' :
  _sync_single_product remote float_accepts self p w = (r, w') -> inside_run w w'.
Proof.
  intros H. unfold_product. unfold_monad. simpl in H.
  repeat break_hyp.
  all: inside_goal.
Qed.

Lemma order_inside o gl w r w' :
  _sync_single_order remote float_accepts discount_positive self o gl w = (r, w') ->
  inside_run w w'.
Proof.
  intros H. unfold_order. unfold_monad. simpl in H.
  repeat break_hyp.
  all: inside_goal.
Qed.

(** The loop body never raises: what the pass raises becomes an error of
    the result. *)
Lemma sync_one_inside {E : Type} et label (id_of : E -> Z)
    (f : E -> M action_result) result x w :
  (forall r w', f x w = (r, w') -> inside_run w w') ->
  exists result' w',
    sync_one remote et label id_of f result x w = (Ok result', w') /\
    inside_run w w'.
Proof.
  intros Hf. unfold sync_one. unfold_monad.
  destruct (f x w) as [r w1] eqn:Hfx. specialize (Hf _ _ eq_refl).
  destruct r as [[a err]|e]; simpl.
  - destruct (Py.truthy_opt err); simpl.
    + do 2 eexists. split; [reflexivity|].
      eapply inside_run_trans; [exact Hf|].
      split; [exists []; split; [symmetry; apply app_nil_r|constructor]|].
      apply history_record_error.
    + do 2 eexists. split; [reflexivity|exact Hf].
  - do 2 eexists. split; [reflexivity|].
    eapply inside_run_trans; [exact Hf|].
    split; [exists []; split; [symmetry; apply app_nil_r|constructor]|].
    apply history_record_error.
Qed.

Lemma for_each_inside {E : Type} (body : SyncResult -> E -> M SyncResult)
    (entities : list E) :
  (forall result x w, exists result' w',
      body result x w = (Ok result', w') /\ inside_run w w') ->
  forall result w, exists result' w',
    for_each body result entities w = (Ok result', w') /\ inside_run w w'.
Proof.
  intros Hbody. induction entities as [|x rest IH]; intros result w; simpl.
  - do 2 eexists. split; [reflexivity|apply inside_run_refl].
  - unfold bind. destruct (Hbody result x w) as [r1 [w1 [H1 I1]]]. rewrite H1.
    destruct (IH r1 w1) as [r2 [w2 [H2 I2]]].
    exists r2, w2. split; [exact H2|]. eapply inside_run_trans; eauto.
Qed.

(** A phase returns, whatever its fetch and its entities do. *)
Lemma sync_products_ran force w :
  exists result w',
    sync_products remote float_accepts self force w = (Ok result, w') /\
    phase_ran
      (Shopify_fetch_all_products
         (updated_at_min_of force (Database.get_last_successful_sync (db w))))
      w w'.
Proof.
  unfold sync_products. unfold_monad. simpl.
  destruct (fetch_all_products remote (log w) _) as [products|e]; simpl.
  - edestruct (for_each_inside
                 (sync_one remote "product" "Product" ShopifyProduct.id
                    (_sync_single_product remote float_accepts self)) products)
      as [r [w' [Hr Hi]]].
    { intros result x w0. apply sync_one_inside.
      intros r0 w0'. apply product_inside. }
    rewrite Hr. do 2 eexists. split; [reflexivity|].
    eapply phase_from_inside; [reflexivity|reflexivity|exact Hi].
  - do 2 eexists. split; [reflexivity|].
    eapply phase_from_inside; [reflexivity|reflexivity|apply inside_run_refl].
Qed.

Lemma sync_orders_ran force w :
  exists result w',
    sync_orders remote float_accepts discount_positive self force w =
      (Ok result, w') /\
    phase_ran
      (Shopify_fetch_all_orders
         (updated_at_min_of force (Database.get_last_successful_sync (db w))))
      w w'.
Proof.
  unfold sync_orders, _build_sku_gl_mapping. unfold_monad. simpl.
  destruct (fetch_all_orders remote (log w) _) as [orders|e]; simpl.
  - match goal with
    | |- context [for_each ?body new_result orders ?w0] =>
        edestruct (for_each_inside body orders) as [r [w' [Hr Hi]]];
        [| rewrite Hr ]
    end.
    { intros result x w0. apply sync_one_inside.
      intros r0 w0'. apply order_inside. }
    do 2 eexists. split; [reflexivity|].
    eapply phase_from_inside; [reflexivity|reflexivity|exact Hi].
  - do 2 eexists. split; [reflexivity|].
    eapply phase_from_inside; [reflexivity|reflexivity|apply inside_run_refl].
Qed.

End Phases.

(** C9. When the run's row can be opened and the fetch of the customers
    raises, the run still returns its statistics: the customers phase is
    reported failed with the single error "Fetch failed: ..." and no entity
    counted, the products phase and the orders phase both run after it (each
    begins with its own fetch, under the same lower bound on the update
    time), the run as a whole is unsuccessful, and its row of the history
    table is closed exactly once, at the end, with status "failed" and the
    errors of all three phases. *)
Theorem fetch_failure_does_not_stop_the_run
    (remote : Remote) (float_accepts discount_positive : string -> bool)
    (self : SyncEngine) (run_id : string) (force : bool) (w : World)
    (d1 : Database.t) (e : exn) :
  Database.start_sync_run (db w) run_id (clock remote (S (ticks w))) = Ok d1 ->
  fetch_all_customers remote (log w ++ [Db_start_sync_run run_id])
    (updated_at_min_of force (Database.get_last_successful_sync d1)) = Raise e ->
  exists stats w' products_result orders_result lp lo completed_at,
    let since := updated_at_min_of force (Database.get_last_successful_sync d1) in
    let failure := "Fetch failed: " +:+ str_exn e in
    run_full_sync remote float_accepts discount_positive self run_id force w =
      (Ok stats, w') /\
    customers stats = Some (BuildSyncResult false 0 0 0 [failure]) /\
    products stats = Some products_result /\
    orders stats = Some orders_result /\
    SyncStats_success stats = false /\
    calls_since w w' =
      ([Db_start_sync_run run_id; Shopify_fetch_all_customers since] ++
       (Shopify_fetch_all_products since :: lp) ++
       (Shopify_fetch_all_orders since :: lo) ++
       [Db_complete_sync_run run_id "failed" (SyncStats_total_processed stats)
          (SyncStats_total_errors stats)])%list /\
    Forall (fun k => is_run_call k = false) lp /\
    Forall (fun k => is_run_call k = false) lo /\
    In failure (SyncStats_total_errors stats) /\
    Database.sync_history (db w') =
      Database.sync_history
        (Database.complete_sync_run d1 run_id "failed"
           (SyncStats_total_processed stats) (SyncStats_total_errors stats)
           completed_at).
Proof.
  intros Hstart Hfetch.
  unfold run_full_sync, db_start_sync_run, db_complete_sync_run, sync_customers.
  unfold_monad. simpl. rewrite Hstart. simpl. rewrite Hfetch. simpl.
  match goal with
  | |- context [sync_products _ _ _ _ ?w2] =>
      destruct (sync_products_ran remote float_accepts self force w2)
        as [rp [w3 [Hp [[lp [Lp Fp]] Hhp]]]]
  end.
  rewrite Hp. simpl in Lp, Hhp. simpl.
  destruct (sync_orders_ran remote float_accepts discount_positive self force w3)
    as [ro [w4 [Ho [[lo [Lo Fo]] Hho]]]].
  rewrite Ho. simpl.
  rewrite (last_successful_sync_history _ _ Hhp) in Lo.
  exists (BuildSyncStats run_id (clock remote (ticks w))
            (Some (clock remote (ticks w4)))
            (Some (fetch_failed new_result e)) (Some rp) (Some ro)).
  eexists. exists rp, ro, lp, lo, (clock remote (S (ticks w4))).
  assert (Hs : SyncStats_success
                 (BuildSyncStats run_id (clock remote (ticks w))
                    (Some (clock remote (ticks w4)))
                    (Some (fetch_failed new_result e)) (Some rp) (Some ro)) = false)
    by reflexivity.
  cbv zeta. rewrite Hs.
  split; [reflexivity|]. split; [reflexivity|]. split; [reflexivity|].
  split; [reflexivity|]. split; [reflexivity|].
  split.
  { apply calls_since_intro. cbn [log]. rewrite Lo, Lp.
    rewrite <- !app_assoc. reflexivity. }
  split; [exact Fp|]. split; [exact Fo|].
  split; [left; reflexivity|].
  cbn [db]. unfold Database.complete_sync_run.
  cbn [Database.sync_history Database.with_history].
  rewrite Hho, Hhp. reflexivity.
Qed.

Lemma fetch_failure_does_not_stop_the_run_witness :
  let opened :=
    Database.with_history Database.empty
      [SyncHistoryEntry.Build "run-1" 1001 None "running" 0 []] in
  Database.start_sync_run (db Sample.start) "run-1"
    (clock Sample.customers_down (S (ticks Sample.start))) = Ok opened /\
  fetch_all_customers Sample.customers_down
    (log Sample.start ++ [Db_start_sync_run "run-1"])
    (updated_at_min_of false (Database.get_last_successful_sync opened)) =
    Raise (PyException "connection reset") /\
  exists stats w',
    run_full_sync Sample.customers_down Sample.float_accepts
      Sample.discount_positive Sample.live "run-1" false Sample.start =
      (Ok stats, w') /\
    customers stats =
      Some (BuildSyncResult false 0 0 0 ["Fetch failed: connection reset"]) /\
    (exists result, products stats = Some result) /\
    (exists result, orders stats = Some result) /\
    SyncStats_success stats = false.
Proof.
  intros opened.
  split; [reflexivity|]. split; [reflexivity|].
  destruct (fetch_failure_does_not_stop_the_run Sample.customers_down
              Sample.float_accepts Sample.discount_positive Sample.live
              "run-1" false Sample.start opened (PyException "connection reset")
              eq_refl eq_refl)
    as [stats [w' [rp [ro [lp [lo [t [Hrun [Hc [Hp [Ho [Hs _]]]]]]]]]]]].
  exists stats, w'.
  split; [exact Hrun|]. split; [exact Hc|].
  split; [exists rp; exact Hp|]. split; [exists ro; exact Ho|]. exact Hs.
Defined.

(** The same run, evaluated: after the customers could not be listed, the
    product is created and the order is attempted, and the row of the run is
    closed with both errors. *)
Example fetch_failure_run :
  let run :=
    run_full_sync Sample.customers_down Sample.float_accepts
      Sample.discount_positive Sample.live "run-1" false Sample.start in
  fst run =
    Ok (BuildSyncStats "run-1" 1000 (Some 1004)
          (Some (BuildSyncResult false 0 0 0 ["Fetch failed: connection reset"]))
          (Some (BuildSyncResult true 1 0 0 []))
          (Some (BuildSyncResult true 0 0 0 ["No Xero contact found for order 3"]))) /\
  filter is_run_call (calls_since Sample.start (snd run)) =
    [Db_start_sync_run "run-1";
     Db_complete_sync_run "run-1" "failed" 1
       ["Fetch failed: connection reset"; "No Xero contact found for order 3"]] /\
  Database.sync_history (db (snd run)) =
    [SyncHistoryEntry.Build "run-1" 1001 (Some 1005) "failed" 1
       ["Fetch failed: connection reset"; "No Xero contact found for order 3"]].
Proof.
  intros run. split; [|split]; vm_compute; reflexivity.
Qed.

(* ===================================================================== *)
(** ** Clearing recorded errors *)
(* ===================================================================== *)

Lemma rows_for_cleared (d : Database.t) (rows : list SyncError.t) (seq : Z)
    (entity_type shopify_id : string) :
  ErrorTable.rows_for
    (Database.with_errors d
       (List.filter
          (fun e => negb (String.eqb (SyncError.shopify_id e) shopify_id)) rows)
       seq)
    entity_type shopify_id = [].
Proof.
  unfold ErrorTable.rows_for. simpl.
  induction rows as [|e rows IH]; simpl; [reflexivity|].
  destruct (String.eqb (SyncError.shopify_id e) shopify_id) eqn:He; simpl;
    [exact IH|].
  unfold Database.error_matches at 1. rewrite He, andb_false_r. exact IH.
Qed.

(** C10. Clearing the errors of a source id keeps exactly the rows whose
    [shopify_id] differs from it, so no row with that id is left under any
    entity type; and a pass over a customer, a product or an order that ends
    in "created" or "updated" outside dry-run leaves no error row with the
    entity's id, whatever entity type the row was recorded under. *)
Theorem clear_error_ignores_entity_type (remote : Remote)
    (float_accepts discount_positive : string -> bool) (self : SyncEngine) :
  (forall d shopify_id,
      Database.sync_errors (fst (Database.clear_error d shopify_id)) =
        List.filter
          (fun e => negb (String.eqb (SyncError.shopify_id e) shopify_id))
          (Database.sync_errors d) /\
      forall entity_type,
        ErrorTable.rows_for (fst (Database.clear_error d shopify_id))
          entity_type shopify_id = []) /\
  (forall e sku_to_gl_code w action w',
      dry_run self = false ->
      sync_single remote float_accepts discount_positive self sku_to_gl_code e w =
        (Ok (action, None), w') ->
      action = "created" \/ action = "updated" ->
      forall entity_type,
        ErrorTable.rows_for (db w') entity_type (source_id e) = []).
Proof.
  split.
  - intros d shopify_id. split; [reflexivity|].
    intros entity_type. apply rows_for_cleared.
  - intros e gl w action w' Hd H Ha entity_type.
    destruct e as [c|p|o]; simpl in H; simpl source_id.
    + unfold_customer. rewrite Hd in H. unfold_monad. simpl in H.
      repeat break_hyp.
      all: try (destruct Ha; discriminate).
      all: cbn [db]; apply rows_for_cleared.
    + unfold_product. rewrite Hd in H. unfold_monad. simpl in H.
      repeat break_hyp.
      all: try (destruct Ha; discriminate).
      all: cbn [db]; apply rows_for_cleared.
    + unfold_order. rewrite Hd in H. unfold_monad. simpl in H.
      repeat break_hyp.
      all: try (destruct Ha; discriminate).
      all: cbn [db]; apply rows_for_cleared.
Qed.

Lemma clear_error_ignores_entity_type_witness :
  let pass :=
    sync_single Sample.quiet Sample.float_accepts Sample.discount_positive
      Sample.live ∅ (Customer Sample.customer) Sample.product_error_recorded in
  ErrorTable.rows_for (db Sample.product_error_recorded) "product" "1" =
    [SyncError.Build 1 "product" "1" "Failed to create item" 10 0] /\
  dry_run Sample.live = false /\
  pass = (Ok ("created", None), snd pass) /\
  ErrorTable.rows_for (db (snd pass)) "product" "1" = [].
Proof.
  intros pass.
  assert (Hpass : pass = (Ok ("created", None), snd pass))
    by (vm_compute; reflexivity).
  split; [reflexivity|]. split; [reflexivity|]. split; [exact Hpass|].
  exact (proj2 (clear_error_ignores_entity_type Sample.quiet Sample.float_accepts
                  Sample.discount_positive Sample.live)
           (Customer Sample.customer) ∅ Sample.product_error_recorded "created"
           (snd pass) eq_refl Hpass (or_introl eq_refl) "product").
Defined.

(* ===================================================================== *)
(** * Further properties *)
(* ===================================================================== *)

(* ===================================================================== *)
(** ** The mapping table: insert, look up, delete, list *)
(* ===================================================================== *)

Lemma with_mappings_same (d : Database.t) :
  Database.with_mappings d (Database.sync_mappings d) = d.
Proof. destruct d; reflexivity. Qed.


Lemma with_errors_same (d : Database.t) :
  Database.with_errors d (Database.sync_errors d) (Database.sync_errors_seq d) = d.
Proof. destruct d; reflexivity. Qed.

(** The row read back after an upsert, whatever was done to the error
    table since. *)
Lemma get_mapping_upserted (d : Database.t) (m : SyncMapping.t)
    (errs : list SyncError.t) (seq : Z) :
  Database.get_mapping (Database.with_errors (Database.upsert_mapping d m) errs seq)
    (SyncMapping.shopify_id m) =
  Some (SyncMapping.Build (SyncMapping.shopify_id m) (SyncMapping.xero_id m)
          (match Database.get_mapping d (SyncMapping.shopify_id m) with
           | Some old => SyncMapping.entity_type old
           | None => SyncMapping.entity_type m
           end)
          (SyncMapping.last_synced_at m) (SyncMapping.shopify_updated_at m)
          (SyncMapping.checksum m)).
Proof.
  unfold Database.get_mapping, Database.upsert_mapping.
  cbn [Database.sync_mappings Database.with_mappings Database.with_errors].
  rewrite lookup_insert_eq.
  destruct (Database.sync_mappings d !! SyncMapping.shopify_id m); reflexivity.
Qed.

(** X1. A mapping that was upserted is read back under its key with the
    destination id, timestamps and checksum it was given; its entity type is
    the one given only when the key was new, and the stored one otherwise.
    No other key, and neither the history nor the error table, is touched.
    Deleting a key reports whether it was mapped, leaves it unmapped and the
    other keys alone, and changes nothing when the key was not mapped. *)
Theorem mapping_store_round_trip (d : Database.t) (m : SyncMapping.t) (k : string) :
  Database.get_mapping (Database.upsert_mapping d m) (SyncMapping.shopify_id m) =
    Some (SyncMapping.Build (SyncMapping.shopify_id m) (SyncMapping.xero_id m)
            (match Database.get_mapping d (SyncMapping.shopify_id m) with
             | Some old => SyncMapping.entity_type old
             | None => SyncMapping.entity_type m
             end)
            (SyncMapping.last_synced_at m) (SyncMapping.shopify_updated_at m)
            (SyncMapping.checksum m)) /\
  (k <> SyncMapping.shopify_id m ->
   Database.get_mapping (Database.upsert_mapping d m) k = Database.get_mapping d k) /\
  Database.sync_history (Database.upsert_mapping d m) = Database.sync_history d /\
  Database.sync_errors (Database.upsert_mapping d m) = Database.sync_errors d /\
  (snd (Database.delete_mapping d k) = true <->
   exists old, Database.get_mapping d k = Some old) /\
  Database.get_mapping (fst (Database.delete_mapping d k)) k = None /\
  (forall k', k' <> k ->
     Database.get_mapping (fst (Database.delete_mapping d k)) k' =
     Database.get_mapping d k') /\
  (Database.get_mapping d k = None -> fst (Database.delete_mapping d k) = d) /\
  Database.get_mapping
    (fst (Database.delete_mapping (Database.upsert_mapping d m)
            (SyncMapping.shopify_id m)))
    (SyncMapping.shopify_id m) = None.
Proof.
  split; [|split; [|split; [reflexivity|split; [reflexivity|]]]].
  - exact (get_mapping_upserted d m (Database.sync_errors d)
             (Database.sync_errors_seq d)).
  - intros Hk. unfold Database.get_mapping.
    rewrite upsert_mapping_other by exact Hk. reflexivity.
  - unfold Database.delete_mapping, Database.get_mapping.
    cbn [fst snd Database.sync_mappings Database.with_mappings].
    split; [|split; [|split; [|split]]].
    + rewrite bool_decide_eq_true. split.
      * intros [r Hr]. rewrite Hr. eexists. reflexivity.
      * intros [old Hold].
        destruct (Database.sync_mappings d !! k); [eauto|discriminate].
    + rewrite lookup_delete_eq. reflexivity.
    + intros k' Hk'. rewrite lookup_delete_ne by congruence. reflexivity.
    + intros H. destruct (Database.sync_mappings d !! k) eqn:E; [discriminate|].
      rewrite delete_id by exact E. apply with_mappings_same.
    + rewrite lookup_delete_eq. reflexivity.
Qed.

Lemma fmap_is_map {A B} (f : A -> B) (l : list A) : f <$> l = map f l.
Proof. induction l as [|x l IH]; [reflexivity|]. simpl. rewrite <- IH. reflexivity. Qed.

(** X2. The mappings listed by [get_all_mappings] are exactly the rows of
    the table that [get_mapping] returns, restricted to the entity type asked
    for; a filter that is [None] or the empty string restricts nothing.  No
    source id is listed twice. *)
Theorem get_all_mappings_spec (d : Database.t) (entity_type : option string) :
  (forall m,
      In m (Database.get_all_mappings d entity_type) <->
      Database.get_mapping d (SyncMapping.shopify_id m) = Some m /\
      (Py.truthy_opt entity_type = true ->
       Some (SyncMapping.entity_type m) = entity_type)) /\
  NoDup (map SyncMapping.shopify_id (Database.get_all_mappings d entity_type)).
Proof.
  assert (Hall : forall m,
             In m (map (fun kr => Database.mapping_of_row (fst kr) (snd kr))
                     (map_to_list (Database.sync_mappings d))) <->
             Database.get_mapping d (SyncMapping.shopify_id m) = Some m).
  { intros m. rewrite in_map_iff. unfold Database.get_mapping. split.
    - intros [[k r] [<- Hin]]. apply list_elem_of_In, elem_of_map_to_list in Hin.
      simpl. rewrite Hin. reflexivity.
    - intros H. destruct (Database.sync_mappings d !! SyncMapping.shopify_id m)
        as [r|] eqn:E; [|discriminate].
      simpl in H. injection H as H.
      exists (SyncMapping.shopify_id m, r). split; [exact H|].
      apply list_elem_of_In, elem_of_map_to_list. exact E. }
  split.
  - intros m. unfold Database.get_all_mappings.
    destruct (Py.truthy_opt entity_type) eqn:Ht.
    + destruct entity_type as [t|]; [|discriminate]. simpl in Ht.
      unfold Py.opt_or, Py.str_or. rewrite Ht.
      split.
      * intros Hin. apply in_map_iff in Hin as [[k r] [<- Hin]].
        apply filter_In in Hin as [Hin Hty]. simpl in Hty.
        apply String.eqb_eq in Hty. split.
        -- apply Hall. apply in_map_iff. exists (k, r). split; [reflexivity|exact Hin].
        -- intros _. simpl. rewrite Hty. reflexivity.
      * intros [Hg Hty]. specialize (Hty eq_refl). injection Hty as Hty.
        apply Hall in Hg. apply in_map_iff in Hg as [[k r] [<- Hin]].
        apply in_map_iff. exists (k, r). split; [reflexivity|].
        apply filter_In. split; [exact Hin|]. simpl. apply String.eqb_eq. exact Hty.
    + rewrite Hall. split; [intros H; split; [exact H|discriminate]|intros [H _]; exact H].
  - unfold Database.get_all_mappings.
    rewrite map_map. simpl.
    assert (Hnd : NoDup (map fst (map_to_list (Database.sync_mappings d)))).
    { rewrite <- fmap_is_map. apply NoDup_fst_map_to_list. }
    destruct (Py.truthy_opt entity_type).
    + revert Hnd. generalize (map_to_list (Database.sync_mappings d)).
      intros l. induction l as [|x l IH]; simpl; [constructor|].
      intros Hnd. inversion Hnd as [|? ? Hx Hl]; subst.
      destruct (String.eqb _ _); [|apply IH, Hl].
      simpl. constructor; [|apply IH, Hl].
      intros Hin. apply Hx. apply list_elem_of_In.
      apply list_elem_of_In, in_map_iff in Hin as [y [Hy Hin]].
      apply filter_In in Hin as [Hin _]. apply in_map_iff. exists y. auto.
    + exact Hnd.
Qed.

(* ===================================================================== *)
(** ** The run history *)
(* ===================================================================== *)

Lemma existsb_run_id (run_id : string) (rows : list SyncHistoryEntry.t) :
  existsb (fun h => String.eqb (SyncHistoryEntry.run_id h) run_id) rows = true <->
  In run_id (map SyncHistoryEntry.run_id rows).
Proof.
  rewrite existsb_exists, in_map_iff. split.
  - intros [h [Hin He]]. apply String.eqb_eq in He. eauto.
  - intros [h [He Hin]]. exists h. split; [exact Hin|]. apply String.eqb_eq, He.
Qed.

(** A row is opened only under a run id that the history does not hold. *)
Lemma start_sync_run_ok (d : Database.t) (run_id : string) (now : Z)
    (d1 : Database.t) :
  Database.start_sync_run d run_id now = Ok d1 ->
  ~ In run_id (map SyncHistoryEntry.run_id (Database.sync_history d)) /\
  d1 = Database.with_history d
         (Database.sync_history d ++
          [SyncHistoryEntry.Build run_id now None "running" 0 []]).
Proof.
  unfold Database.start_sync_run.
  destruct (existsb _ (Database.sync_history d)) eqn:E; [discriminate|].
  intros [= <-]. split; [|reflexivity].
  intros H. apply existsb_run_id in H. congruence.
Qed.

(** X3. [start_sync_run] raises exactly when the run id is already in the
    history; otherwise it appends one row, "running", with no completion
    time, no entity processed and no error.  It keeps the run ids distinct
    and does not move the last successful run. *)
Theorem start_sync_run_spec (d : Database.t) (run_id : string) (now : Z) :
  (In run_id (map SyncHistoryEntry.run_id (Database.sync_history d)) ->
   exists e, Database.start_sync_run d run_id now = Raise e) /\
  (~ In run_id (map SyncHistoryEntry.run_id (Database.sync_history d)) ->
   Database.start_sync_run d run_id now =
     Ok (Database.with_history d
           (Database.sync_history d ++
            [SyncHistoryEntry.Build run_id now None "running" 0 []]))) /\
  (forall d', Database.start_sync_run d run_id now = Ok d' ->
     NoDup (map SyncHistoryEntry.run_id (Database.sync_history d)) ->
     NoDup (map SyncHistoryEntry.run_id (Database.sync_history d')) /\
     Database.get_last_successful_sync d' = Database.get_last_successful_sync d).
Proof.
  split; [|split].
  - intros Hin. unfold Database.start_sync_run.
    apply existsb_run_id in Hin. rewrite Hin. eauto.
  - intros Hn. unfold Database.start_sync_run.
    destruct (existsb _ (Database.sync_history d)) eqn:E; [|reflexivity].
    apply existsb_run_id in E. contradiction.
  - intros d' Hd' Hnd. apply start_sync_run_ok in Hd' as [Hn ->].
    cbn [Database.sync_history Database.with_history]. split.
    + rewrite map_app. simpl. apply NoDup_app. split; [exact Hnd|].
      split; [|apply NoDup_singleton].
      intros x Hx Hx'. apply list_elem_of_In in Hx.
      apply list_elem_of_singleton in Hx'. subst. contradiction.
    + unfold Database.get_last_successful_sync.
      cbn [Database.sync_history Database.with_history].
      rewrite fold_left_app. reflexivity.
Qed.

Lemma complete_rows_other (run_id status : string) (n : Z) (errs : list string)
    (now : Z) (rows : list SyncHistoryEntry.t) :
  ~ In run_id (map SyncHistoryEntry.run_id rows) ->
  map (fun h =>
         if String.eqb (SyncHistoryEntry.run_id h) run_id
         then SyncHistoryEntry.Build run_id (SyncHistoryEntry.started_at h)
                (Some now) status n errs
         else h) rows = rows.
Proof.
  induction rows as [|h rows IH]; intros Hn; [reflexivity|].
  simpl in *. destruct (String.eqb (SyncHistoryEntry.run_id h) run_id) eqn:E.
  - apply String.eqb_eq in E. exfalso. apply Hn. left. exact E.
  - rewrite IH; [reflexivity|]. intros H. apply Hn. right. exact H.
Qed.


Lemma completed_before_irrefl (a : option Z) : Database.completed_before a a = false.
Proof. destruct a; simpl; [apply Z.ltb_irrefl|reflexivity]. Qed.

Lemma completed_before_trans (a b c : option Z) :
  Database.completed_before a b = true ->
  Database.completed_before a c = false ->
  Database.completed_before b c = false.
Proof.
  destruct a, b, c; simpl; try discriminate; try reflexivity;
    rewrite ?Z.ltb_lt, ?Z.ltb_ge; lia.
Qed.

Lemma last_successful_scan (rest seen : list SyncHistoryEntry.t)
    (best : option SyncHistoryEntry.t) :
  best_so_far seen best ->
  best_so_far (seen ++ rest)
    (fold_left
       (fun best h =>
          if String.eqb (SyncHistoryEntry.status h) "success"
          then match best with
               | None => Some h
               | Some b =>
                   if Database.completed_before (SyncHistoryEntry.completed_at b)
                        (SyncHistoryEntry.completed_at h)
                   then Some h else Some b
               end
          else best)
       rest best).
Proof.
  revert seen best. induction rest as [|h rest IH]; intros seen best Hb.
  - rewrite app_nil_r. exact Hb.
  - simpl. replace (seen ++ h :: rest)%list with ((seen ++ [h]) ++ rest)%list
      by (rewrite <- app_assoc; reflexivity).
    apply IH.
    destruct (String.eqb (SyncHistoryEntry.status h) "success") eqn:Es.
    + apply String.eqb_eq in Es. destruct best as [b|]; simpl in Hb.
      * destruct Hb as [Hin [Hs Hmax]].
        destruct (Database.completed_before (SyncHistoryEntry.completed_at b)
                    (SyncHistoryEntry.completed_at h)) eqn:Ec; simpl.
        -- split; [apply in_or_app; right; left; reflexivity|]. split; [exact Es|].
           intros h' Hin' Hs'. apply in_app_or in Hin' as [Hin'|[<-|[]]].
           ++ eapply completed_before_trans; [exact Ec|]. apply Hmax; assumption.
           ++ apply completed_before_irrefl.
        -- split; [apply in_or_app; left; exact Hin|]. split; [exact Hs|].
           intros h' Hin' Hs'. apply in_app_or in Hin' as [Hin'|[<-|[]]].
           ++ apply Hmax; assumption.
           ++ exact Ec.
      * simpl. split; [apply in_or_app; right; left; reflexivity|]. split; [exact Es|].
        intros h' Hin' Hs'. apply in_app_or in Hin' as [Hin'|[<-|[]]].
        -- exfalso. eapply Hb; eassumption.
        -- apply completed_before_irrefl.
    + apply String.eqb_neq in Es. destruct best as [b|]; simpl in *.
      * destruct Hb as [Hin [Hs Hmax]].
        split; [apply in_or_app; left; exact Hin|]. split; [exact Hs|].
        intros h' Hin' Hs'. apply in_app_or in Hin' as [Hin'|[<-|[]]].
        -- apply Hmax; assumption.
        -- contradiction.
      * intros h' Hin'. apply in_app_or in Hin' as [Hin'|[<-|[]]].
        -- apply Hb, Hin'.
        -- exact Es.
Qed.

Lemma last_successful_is_best (d : Database.t) :
  best_so_far (Database.sync_history d) (Database.get_last_successful_sync d).
Proof.
  exact (last_successful_scan (Database.sync_history d) [] None
           (fun h (H : In h []) => match H with end)).
Qed.

(** X5. [get_last_successful_sync] returns no row exactly when the history
    holds no successful run; the row it returns is a successful run of the
    history that no other successful run completed after (a run with no
    completion time counting as the earliest). *)
Theorem get_last_successful_sync_spec (d : Database.t) :
  match Database.get_last_successful_sync d with
  | None =>
      forall h, In h (Database.sync_history d) ->
                SyncHistoryEntry.status h <> "success"
  | Some best =>
      In best (Database.sync_history d) /\
      SyncHistoryEntry.status best = "success" /\
      forall h, In h (Database.sync_history d) ->
        SyncHistoryEntry.status h = "success" ->
        Database.completed_before (SyncHistoryEntry.completed_at best)
          (SyncHistoryEntry.completed_at h) = false
  end.
Proof. exact (last_successful_is_best d). Qed.

(* ===================================================================== *)
(** ** The error table: clearing, ids, retries *)
(* ===================================================================== *)

Lemma filter_all {A} (P : A -> bool) (l : list A) :
  (forall x, In x l -> P x = true) -> List.filter P l = l.
Proof.
  induction l as [|x l IH]; intros H; [reflexivity|]. simpl.
  rewrite (H x (or_introl eq_refl)), IH; [reflexivity|].
  intros y Hy. apply H. right. exact Hy.
Qed.

(** X6. [clear_error] returns true exactly when a row with the source id
    existed; it keeps exactly the rows of other ids; repeated, it returns
    false and changes nothing; when it returns false it has changed nothing;
    and it never resets the id counter nor touches the other tables. *)
Theorem clear_error_spec (d : Database.t) (shopify_id : string) :
  let d' := fst (Database.clear_error d shopify_id) in
  (snd (Database.clear_error d shopify_id) = true <->
   exists e, In e (Database.sync_errors d) /\ SyncError.shopify_id e = shopify_id) /\
  (forall e, In e (Database.sync_errors d') <->
             In e (Database.sync_errors d) /\ SyncError.shopify_id e <> shopify_id) /\
  Database.clear_error d' shopify_id = (d', false) /\
  (snd (Database.clear_error d shopify_id) = false -> d' = d) /\
  Database.sync_errors_seq d' = Database.sync_errors_seq d /\
  Database.sync_mappings d' = Database.sync_mappings d /\
  Database.sync_history d' = Database.sync_history d.
Proof.
  intros d'. subst d'. unfold Database.clear_error.
  cbn [fst snd Database.sync_errors Database.sync_errors_seq Database.with_errors].
  split; [|split; [|split; [|split; [|repeat split]]]].
  - rewrite existsb_exists. split; intros [e [Hin He]]; exists e; (split; [exact Hin|]).
    + apply String.eqb_eq, He.
    + apply String.eqb_eq, He.
  - intros e. rewrite filter_In, negb_true_iff, String.eqb_neq. reflexivity.
  - f_equal.
    + unfold Database.with_errors.
      cbn [Database.sync_errors Database.sync_errors_seq Database.sync_mappings
             Database.sync_history].
      f_equal. apply filter_all.
      intros x Hx. apply filter_In in Hx as [_ Hx]. exact Hx.
    + apply not_true_is_false. rewrite existsb_exists. intros [e [Hin He]].
      apply filter_In in Hin as [_ Hin]. rewrite He in Hin. discriminate.
  - intros Hf. rewrite filter_all; [apply with_errors_same|].
    intros x Hx. apply negb_true_iff. apply not_true_is_false. intros Hx'.
    apply not_true_iff_false in Hf. apply Hf, existsb_exists. eauto.
Qed.

Lemma rows_for_after_clear (d : Database.t) (entity_type shopify_id : string) :
  ErrorTable.rows_for (fst (Database.clear_error d shopify_id)) entity_type shopify_id
  = [].
Proof. unfold Database.clear_error. cbn [fst]. apply rows_for_cleared. Qed.

Lemma rows_for_first (d : Database.t) (entity_type shopify_id msg : string) (now : Z) :
  ErrorTable.rows_for d entity_type shopify_id = [] ->
  ErrorTable.rows_for (Database.record_error d entity_type shopify_id msg now)
    entity_type shopify_id =
  [SyncError.Build (Database.sync_errors_seq d + 1) entity_type shopify_id msg now 0].
Proof.
  intros Hrows.
  rewrite ErrorTableFacts.record_error_fresh
    by (apply ErrorTableFacts.find_error_none, Hrows).
  unfold ErrorTable.rows_for in *.
  cbn [Database.sync_errors Database.with_errors].
  rewrite List.filter_app, Hrows. simpl. unfold Database.error_matches. simpl.
  rewrite !String.eqb_refl. reflexivity.
Qed.

(** X7. Ids of error rows are never reused.  In a well-formed table, an
    error recorded for an entity right after its errors were cleared gets a
    new row with retry count 0 whose id is larger than the id of every row
    the table held before the clearing. *)
Theorem record_after_clear_is_fresh (d : Database.t)
    (entity_type shopify_id error_message : string) (now : Z) :
  ErrorTable.ok d ->
  let d1 := fst (Database.clear_error d shopify_id) in
  let d2 := Database.record_error d1 entity_type shopify_id error_message now in
  ErrorTable.rows_for d2 entity_type shopify_id =
    [SyncError.Build (Database.sync_errors_seq d + 1) entity_type shopify_id
       error_message now 0] /\
  (forall old, In old (Database.sync_errors d) ->
     SyncError.id old < Database.sync_errors_seq d + 1) /\
  Database.sync_errors_seq d2 = Database.sync_errors_seq d + 1.
Proof.
  intros Hok d1 d2. subst d1 d2. split; [|split].
  - rewrite rows_for_first by apply rows_for_after_clear. reflexivity.
  - intros old Hin. destruct Hok as [Hids _ _].
    rewrite Forall_forall in Hids. specialize (Hids old).
    assert (SyncError.id old <= Database.sync_errors_seq d)
      by (apply Hids, list_elem_of_In, Hin).
    lia.
  - rewrite ErrorTableFacts.record_error_fresh
      by (apply ErrorTableFacts.find_error_none, rows_for_after_clear).
    reflexivity.
Qed.

Lemma record_after_clear_is_fresh_witness :
  let d :=
    Database.record_error
      (Database.record_error Database.empty "customer" "7" "timeout" 10)
      "customer" "7" "timeout again" 11 in
  ErrorTable.ok d /\
  ErrorTable.rows_for d "customer" "7" =
    [SyncError.Build 1 "customer" "7" "timeout again" 11 1] /\
  ErrorTable.rows_for
    (Database.record_error (fst (Database.clear_error d "7")) "customer" "7"
       "bad address" 20)
    "customer" "7" = [SyncError.Build 2 "customer" "7" "bad address" 20 0].
Proof.
  intros d.
  assert (Hok : ErrorTable.ok d).
  { apply ErrorTableFacts.record_error_ok, ErrorTableFacts.record_error_ok,
      ErrorTableFacts.ok_empty. }
  split; [exact Hok|]. split; [reflexivity|].
  exact (proj1 (record_after_clear_is_fresh d "customer" "7" "bad address" 20 Hok)).
Defined.

Import ErrorQueries.

Lemma insert_by_time_in (e x : SyncError.t) (l : list SyncError.t) :
  In x (insert_by_time e l) <-> x = e \/ In x l.
Proof.
  induction l as [|y l IH]; simpl; [intuition congruence|].
  destruct (SyncError.occurred_at e <? SyncError.occurred_at y); simpl.
  - rewrite IH. intuition congruence.
  - intuition congruence.
Qed.

Lemma latest_first_in (x : SyncError.t) (l : list SyncError.t) :
  In x (latest_first l) <-> In x l.
Proof.
  induction l as [|y l IH]; simpl; [reflexivity|].
  rewrite insert_by_time_in, IH. intuition congruence.
Qed.

Lemma insert_by_time_length (e : SyncError.t) (l : list SyncError.t) :
  List.length (insert_by_time e l) = S (List.length l).
Proof.
  induction l as [|y l IH]; simpl; [reflexivity|].
  destruct (_ <? _); simpl; [rewrite IH|]; reflexivity.
Qed.

Lemma insert_by_time_sorted (e : SyncError.t) (l : list SyncError.t) :
  StronglySorted (fun a b => SyncError.occurred_at b <= SyncError.occurred_at a) l ->
  StronglySorted (fun a b => SyncError.occurred_at b <= SyncError.occurred_at a)
    (insert_by_time e l).
Proof.
  induction l as [|y l IH]; intros Hs; simpl.
  - constructor; constructor.
  - inversion Hs as [|? ? Hl Hy]; subst.
    destruct (SyncError.occurred_at e <? SyncError.occurred_at y) eqn:E.
    + apply Z.ltb_lt in E. constructor; [apply IH, Hl|].
      rewrite Forall_forall in *. intros x Hx.
      apply list_elem_of_In, insert_by_time_in in Hx as [->|Hx]; [lia|].
      apply Hy, list_elem_of_In, Hx.
    + apply Z.ltb_ge in E. constructor; [exact Hs|].
      constructor; [exact E|].
      rewrite Forall_forall in *. intros x Hx. specialize (Hy x Hx). lia.
Qed.

Lemma get_errors_in (d : Database.t) (entity_type : option string)
    (max_retry_count : Z) (e : SyncError.t) :
  In e (get_errors d entity_type max_retry_count) <->
  In e (Database.sync_errors d) /\
  SyncError.retry_count e < max_retry_count /\
  (Py.truthy_opt entity_type = true -> Some (SyncError.entity_type e) = entity_type).
Proof.
  unfold get_errors. rewrite latest_first_in.
  destruct (Py.truthy_opt entity_type) eqn:Ht.
  - destruct entity_type as [t|]; [|discriminate]. simpl in Ht.
    unfold Py.opt_or, Py.str_or. rewrite Ht.
    rewrite filter_In, andb_true_iff, String.eqb_eq, Z.ltb_lt. split.
    + intros [Hin [Hty Hr]]. split; [exact Hin|]. split; [exact Hr|].
      intros _. congruence.
    + intros [Hin [Hr Hty]]. specialize (Hty eq_refl). injection Hty as Hty. auto.
  - rewrite filter_In, Z.ltb_lt. split.
    + intros [Hin Hr]. split; [exact Hin|]. split; [exact Hr|discriminate].
    + intros [Hin [Hr _]]. auto.
Qed.

(** X8. [get_errors] returns exactly the rows of the error table whose
    retry count is below the limit and, when a non-empty entity type is
    given, whose entity type is that one; it returns them latest first, and
    never more rows than the table holds. *)
Theorem get_errors_spec (d : Database.t) (entity_type : option string)
    (max_retry_count : Z) :
  (forall e,
      In e (get_errors d entity_type max_retry_count) <->
      In e (Database.sync_errors d) /\
      SyncError.retry_count e < max_retry_count /\
      (Py.truthy_opt entity_type = true ->
       Some (SyncError.entity_type e) = entity_type)) /\
  StronglySorted
    (fun a b => SyncError.occurred_at b <= SyncError.occurred_at a)
    (get_errors d entity_type max_retry_count) /\
  (List.length (get_errors d entity_type max_retry_count) <=
   List.length (Database.sync_errors d))%nat.
Proof.
  split; [|split].
  - intros e. apply get_errors_in.
  - unfold get_errors.
    generalize (if Py.truthy_opt entity_type
                then List.filter
                       (fun e => String.eqb (SyncError.entity_type e)
                                   (Py.opt_or entity_type "")
                                 && (SyncError.retry_count e <? max_retry_count))
                       (Database.sync_errors d)
                else List.filter (fun e => SyncError.retry_count e <? max_retry_count)
                       (Database.sync_errors d)).
    intros l. induction l as [|x l IH]; simpl; [constructor|].
    apply insert_by_time_sorted, IH.
  - unfold get_errors.
    assert (Hlen : forall l, List.length (latest_first l) = List.length l).
    { induction l as [|x l IH]; simpl; [reflexivity|].
      rewrite insert_by_time_length, IH. reflexivity. }
    rewrite Hlen. destruct (Py.truthy_opt entity_type); apply filter_length_le.
Qed.

Lemma rows_for_bumped (d : Database.t) (et sid msg : string) (now : Z)
    (old : SyncError.t) :
  ErrorTable.ok d -> ErrorTable.rows_for d et sid = [old] ->
  ErrorTable.rows_for (Database.record_error d et sid msg now) et sid =
    [SyncError.Build (SyncError.id old) (SyncError.entity_type old)
       (SyncError.shopify_id old) msg now (SyncError.retry_count old + 1)].
Proof.
  intros Hok Hrows.
  rewrite (ErrorTableFacts.record_error_existing d et sid msg now old
             (ErrorTableFacts.find_error_single _ _ _ _ Hrows)).
  unfold ErrorTable.rows_for in *. cbn [Database.sync_errors Database.with_errors].
  rewrite ErrorTableFacts.filter_bump, Hrows. simpl. unfold ErrorTable.bump.
  rewrite Z.eqb_refl. reflexivity.
Qed.

Lemma fail_again_counts (failures : list (string * Z)) :
  forall d et sid old,
    ErrorTable.ok d -> ErrorTable.rows_for d et sid = [old] ->
    exists e,
      ErrorTable.rows_for (fail_again d et sid failures) et sid = [e] /\
      SyncError.id e = SyncError.id old /\
      SyncError.retry_count e =
        SyncError.retry_count old + Z.of_nat (List.length failures).
Proof.
  induction failures as [|[msg now] rest IH]; intros d et sid old Hok Hrows.
  - exists old. split; [exact Hrows|]. split; [reflexivity|]. simpl. lia.
  - simpl fail_again.
    destruct (IH (Database.record_error d et sid msg now) et sid _
                (ErrorTableFacts.record_error_ok _ _ _ _ _ Hok)
                (rows_for_bumped d et sid msg now old Hok Hrows))
      as [e [He [Hid Hc]]].
    exists e. split; [exact He|]. split; [exact Hid|].
    rewrite Hc. cbn [SyncError.retry_count List.length]. lia.
Qed.

(** X9. An entity that keeps failing runs out of retries.  In a well-formed
    table with no row for the entity, one failure followed by n more leaves
    a single row for it, with retry count n, and [get_errors] under the
    limit [max_retry_count] still returns that row exactly when
    n < max_retry_count. *)
Theorem repeated_failures_exhaust_retries (d : Database.t)
    (entity_type shopify_id : string) (first : string * Z)
    (failures : list (string * Z)) (max_retry_count : Z) :
  ErrorTable.ok d ->
  ErrorTable.rows_for d entity_type shopify_id = [] ->
  let d' := fail_again d entity_type shopify_id (first :: failures) in
  exists e,
    ErrorTable.rows_for d' entity_type shopify_id = [e] /\
    SyncError.retry_count e = Z.of_nat (List.length failures) /\
    (In e (get_errors d' None max_retry_count) <->
     Z.of_nat (List.length failures) < max_retry_count).
Proof.
  intros Hok Hrows d'. subst d'. destruct first as [msg now]. simpl fail_again.
  destruct (fail_again_counts failures _ entity_type shopify_id _
              (ErrorTableFacts.record_error_ok _ _ _ msg now Hok)
              (rows_for_first d entity_type shopify_id msg now Hrows))
    as [e [He [_ Hc]]].
  exists e. split; [exact He|]. simpl in Hc. split; [lia|].
  rewrite get_errors_in. split.
  - intros [_ [Hr _]]. lia.
  - intros Hlt. split; [|split; [lia|discriminate]].
    assert (Hin : In e (ErrorTable.rows_for
                          (fail_again
                             (Database.record_error d entity_type shopify_id msg now)
                             entity_type shopify_id failures)
                          entity_type shopify_id))
      by (rewrite He; left; reflexivity).
    unfold ErrorTable.rows_for in Hin. apply filter_In in Hin as [Hin _]. exact Hin.
Qed.

Lemma repeated_failures_exhaust_retries_witness :
  let d' :=
    fail_again Database.empty "order" "3"
      [("timeout", 10); ("timeout", 20); ("timeout", 30); ("timeout", 40)] in
  ErrorTable.ok Database.empty /\
  ErrorTable.rows_for Database.empty "order" "3" = [] /\
  ErrorTable.rows_for d' "order" "3" = [SyncError.Build 1 "order" "3" "timeout" 40 3] /\
  get_errors d' None 3 = [] /\
  exists e,
    ErrorTable.rows_for d' "order" "3" = [e] /\
    SyncError.retry_count e = 3 /\
    (In e (get_errors d' None 3) <-> 3 < 3).
Proof.
  intros d'. split; [exact ErrorTableFacts.ok_empty|]. split; [reflexivity|].
  split; [reflexivity|]. split; [reflexivity|].
  exact (repeated_failures_exhaust_retries Database.empty "order" "3" ("timeout", 10)
           [("timeout", 20); ("timeout", 30); ("timeout", 40)] 3
           ErrorTableFacts.ok_empty eq_refl).
Defined.

(* ===================================================================== *)
(** ** Conversions and checksums *)
(* ===================================================================== *)


Lemma truthy_append_l (a b : string) : Py.truthy a = true -> Py.truthy (a +:+ b) = true.
Proof. destruct a; [discriminate|reflexivity]. Qed.

Lemma truthy_append_r (a b : string) : Py.truthy b = true -> Py.truthy (a +:+ b) = true.
Proof. destruct a; [rewrite append_nil; trivial|reflexivity]. Qed.

Lemma str_or_truthy (s d : string) : Py.truthy d = true -> Py.truthy (Py.str_or s d) = true.
Proof. unfold Py.str_or. destruct (Py.truthy s) eqn:E; auto. Qed.

Lemma opt_or_of_truthy (o : option string) :
  Py.truthy_opt o = true -> Py.truthy (Py.opt_or o "") = true.
Proof.
  destruct o as [s|]; [|discriminate]. simpl. unfold Py.str_or.
  intros H. rewrite H. exact H.
Qed.

Lemma full_name_truthy (c : ShopifyCustomer.t) :
  Py.truthy (ShopifyCustomer.full_name c) = true.
Proof. unfold ShopifyCustomer.full_name. apply str_or_truthy. reflexivity. Qed.

(** X10. The contact a customer converts to always has a non-empty name, no
    contact id, at most one address and at most one phone, and a phone it
    carries has a non-empty number. *)
Theorem contact_is_well_formed (c : ShopifyCustomer.t) :
  let contact := shopify_customer_to_xero_contact c in
  Py.truthy (XeroContact.Name contact) = true /\
  XeroContact.ContactID contact = None /\
  (List.length (XeroContact.Addresses contact) <= 1)%nat /\
  (List.length (XeroContact.Phones contact) <= 1)%nat /\
  Forall (fun p => Py.truthy_opt (XeroPhone.PhoneNumber p) = true)
    (XeroContact.Phones contact).
Proof.
  intros contact. subst contact. unfold shopify_customer_to_xero_contact.
  cbn [XeroContact.Name XeroContact.ContactID XeroContact.Addresses XeroContact.Phones].
  split; [|split; [reflexivity|split; [|split]]].
  - destruct (Py.truthy_opt (ShopifyCustomer.email c)) eqn:He.
    + rewrite andb_true_r.
      destruct (String.eqb (ShopifyCustomer.full_name c) "Unknown").
      * apply opt_or_of_truthy, He.
      * apply truthy_append_l, full_name_truthy.
    + rewrite andb_false_r. apply full_name_truthy.
  - destruct (ShopifyCustomer.default_address c); simpl; lia.
  - match goal with |- context [if ?b then [_] else []] => destruct b end; simpl; lia.
  - match goal with |- context [if ?b then [_] else []] => destruct b eqn:E end.
    + constructor; [exact E|constructor].
    + constructor.
Qed.

Lemma customer_fields_from_contact (c : ShopifyCustomer.t) :
  customer_checksum_fields c =
  contact_checksum_fields (shopify_customer_to_xero_contact c).
Proof.
  unfold customer_checksum_fields, contact_checksum_fields,
    shopify_customer_to_xero_contact.
  cbn [XeroContact.EmailAddress XeroContact.FirstName XeroContact.LastName
       XeroContact.Phones XeroContact.Addresses].
  f_equal.
  - f_equal. f_equal. f_equal. f_equal.
    destruct (ShopifyCustomer.phone c) as [p|];
      destruct (ShopifyCustomer.default_address c) as [addr|]; simpl;
      try destruct (ShopifyAddress.phone addr) as [q|]; simpl;
      unfold Py.str_or;
      try destruct (Py.truthy p) eqn:Hp; try destruct (Py.truthy q) eqn:Hq;
      repeat (simpl; unfold Py.str_or; rewrite ?Hp, ?Hq); reflexivity.
  - destruct (ShopifyCustomer.default_address c); reflexivity.
Qed.

(** X11. The checksum of a customer reads nothing that its contact does not
    hold: two customers that convert to the same contact have the same
    checksum, so a change that the destination would not see never triggers
    an update. *)
Theorem same_contact_same_checksum (c1 c2 : ShopifyCustomer.t) :
  shopify_customer_to_xero_contact c1 = shopify_customer_to_xero_contact c2 ->
  calculate_customer_checksum c1 = calculate_customer_checksum c2.
Proof.
  intros H. unfold calculate_customer_checksum, customer_checksum_data.
  rewrite !customer_fields_from_contact, H. reflexivity.
Qed.

Lemma same_contact_same_checksum_witness :
  Sample.customer_phone_absent <> Sample.customer_phone_present /\
  shopify_customer_to_xero_contact Sample.customer_phone_absent =
    shopify_customer_to_xero_contact Sample.customer_phone_present /\
  calculate_customer_checksum Sample.customer_phone_absent =
    calculate_customer_checksum Sample.customer_phone_present.
Proof.
  split; [discriminate|]. split; [reflexivity|].
  apply (same_contact_same_checksum Sample.customer_phone_absent
           Sample.customer_phone_present).
  reflexivity.
Defined.

Lemma join_two (sep x y : string) (rest : list string) :
  Py.join sep (x :: y :: rest) = x +:+ sep +:+ Py.join sep (y :: rest).
Proof. reflexivity. Qed.

(** X12. The checksum joins its fields with the separator without escaping
    it: moving the part of a first name after a separator over to the last
    name gives a customer with a different first name and the same
    checksum. *)
Theorem checksum_separator_collision (c : ShopifyCustomer.t) (a b l : string) :
  ShopifyCustomer.first_name c = Some (a +:+ "|" +:+ b) ->
  ShopifyCustomer.last_name c = Some l ->
  let c' :=
    ShopifyCustomer.Build (ShopifyCustomer.id c) (ShopifyCustomer.email c)
      (Some a) (Some (b +:+ "|" +:+ l)) (ShopifyCustomer.phone c)
      (ShopifyCustomer.updated_at c) (ShopifyCustomer.default_address c) in
  ShopifyCustomer.first_name c' <> ShopifyCustomer.first_name c /\
  calculate_customer_checksum c' = calculate_customer_checksum c.
Proof.
  intros Hf Hl c'. subst c'. split.
  - cbn [ShopifyCustomer.first_name]. rewrite Hf. intros [= H].
    rewrite <- (append_nil_r a) in H at 1.
    apply append_cancel_l in H. discriminate.
  - unfold calculate_customer_checksum, customer_checksum_data,
      customer_checksum_fields.
    cbn [ShopifyCustomer.first_name ShopifyCustomer.last_name ShopifyCustomer.email
         ShopifyCustomer.phone ShopifyCustomer.default_address].
    rewrite Hf, Hl. f_equal.
    cbn [app].
    assert (Ho : forall s, Py.opt_or (Some s) "" = s).
    { intros s. simpl. unfold Py.str_or. destruct s; reflexivity. }
    rewrite !Ho.
    rewrite !(join_two "|").
    rewrite !append_assoc. reflexivity.
Qed.


Lemma char_count_append (a b : string) :
  char_count (a +:+ b) = (char_count a + char_count b)%nat.
Proof.
  induction a as [|x a IH]; [reflexivity|].
  rewrite append_cons. simpl. rewrite IH. lia.
Qed.

Lemma length_append (a b : string) :
  String.length (a +:+ b) = (String.length a + String.length b)%nat.
Proof.
  induction a as [|x a IH]; [reflexivity|].
  rewrite append_cons. simpl. rewrite IH. reflexivity.
Qed.

Lemma drop_continuation_spec (s : string) :
  s = fst (Py.drop_continuation s) +:+ snd (Py.drop_continuation s) /\
  char_count (fst (Py.drop_continuation s)) = 0%nat /\
  starts_clean (snd (Py.drop_continuation s)).
Proof.
  induction s as [|a s [IH1 [IH2 IH3]]]; simpl; [auto|].
  destruct (Py.is_continuation a) eqn:Ea.
  - destruct (Py.drop_continuation s) as [k r]. simpl in *.
    rewrite Ea. split; [rewrite append_cons; congruence|]. split; [exact IH2|exact IH3].
  - simpl. rewrite Ea. auto.
Qed.

Lemma slice_to_prefix (fuel n : nat) (s : string) :
  exists rest, s = Py.slice_to fuel n s +:+ rest.
Proof.
  revert n s. induction fuel as [|fuel IH]; intros n s; [exists s; reflexivity|].
  destruct n as [|n]; [exists s; reflexivity|].
  destruct s as [|a rest]; [exists ""; reflexivity|].
  simpl. destruct (drop_continuation_spec rest) as [H1 _].
  destruct (Py.drop_continuation rest) as [k r]. simpl in H1.
  destruct (IH n r) as [t Ht]. exists t.
  rewrite append_cons, append_assoc, <- Ht, <- H1. reflexivity.
Qed.

Lemma slice_to_chars (fuel n : nat) (s : string) :
  (char_count (Py.slice_to fuel n s) <= n)%nat.
Proof.
  revert n s. induction fuel as [|fuel IH]; intros n s; [simpl; lia|].
  destruct n as [|n]; [simpl; lia|].
  destruct s as [|a rest]; [simpl; lia|].
  simpl. destruct (drop_continuation_spec rest) as [_ [H2 _]].
  destruct (Py.drop_continuation rest) as [k r]. simpl in H2.
  simpl. rewrite char_count_append, H2. specialize (IH n r).
  destruct (Py.is_continuation a); lia.
Qed.

Lemma slice_to_all (fuel n : nat) (s : string) :
  starts_clean s -> (char_count s <= n)%nat -> (String.length s <= fuel)%nat ->
  Py.slice_to fuel n s = s.
Proof.
  revert n s. induction fuel as [|fuel IH]; intros n s Hc Hn Hf.
  - destruct s; [reflexivity|simpl in Hf; lia].
  - destruct s as [|a rest]; [destruct n; reflexivity|].
    simpl in Hc. simpl in Hn. rewrite Hc in Hn.
    destruct n as [|n]; [lia|].
    simpl. destruct (drop_continuation_spec rest) as [H1 [H2 H3]].
    destruct (Py.drop_continuation rest) as [k r]. simpl in H1, H2, H3.
    rewrite IH; [congruence|exact H3| |].
    + rewrite H1, char_count_append in Hn. lia.
    + simpl in Hf. rewrite H1, length_append in Hf. lia.
Qed.

Lemma checksum_separator_collision_witness :
  let c' :=
    ShopifyCustomer.Build 9 (Some "ann@x.com") (Some "Ann") (Some "Lee|Ray") None
      None None in
  ShopifyCustomer.first_name Scenario.hyphenated = Some "Ann|Lee" /\
  ShopifyCustomer.last_name Scenario.hyphenated = Some "Ray" /\
  calculate_customer_checksum c' = calculate_customer_checksum Scenario.hyphenated.
Proof.
  intros c'. split; [reflexivity|]. split; [reflexivity|].
  exact (proj2 (checksum_separator_collision Scenario.hyphenated "Ann" "Lee" "Ray"
                  eq_refl eq_refl)).
Defined.

(** X13. The item a product converts to has a non-empty code and no item
    id; its name is a prefix of the product title of at most 50 code points,
    and the whole title when that has at most 50. *)
Theorem converted_item_is_well_formed (float_accepts : string -> bool)
    (p : ShopifyProduct.t) (item : XeroItem.t) :
  shopify_product_to_xero_item float_accepts p = Ok (Some item) ->
  Py.truthy (XeroItem.Code item) = true /\
  XeroItem.ItemID item = None /\
  (exists rest, ShopifyProduct.title p = XeroItem.Name item +:+ rest) /\
  (char_count (XeroItem.Name item) <= 50)%nat /\
  (starts_clean (ShopifyProduct.title p) ->
   (char_count (ShopifyProduct.title p) <= 50)%nat ->
   XeroItem.Name item = ShopifyProduct.title p).
Proof.
  intros H. split; [eapply converted_item_code, H|].
  revert H. unfold shopify_product_to_xero_item.
  destruct (ShopifyProduct.primary_variant p) as [v|]; [|discriminate].
  destruct (negb _); [discriminate|].
  destruct (if Py.truthy _ then _ else _); [|discriminate].
  intros [= <-]. cbn [XeroItem.ItemID XeroItem.Name]. unfold Py.take_chars.
  split; [reflexivity|]. split; [apply slice_to_prefix|].
  split; [apply slice_to_chars|].
  intros Hc Hn. apply slice_to_all; [exact Hc|exact Hn|lia].
Qed.

Lemma converted_item_is_well_formed_witness :
  shopify_product_to_xero_item Sample.float_accepts Sample.product =
    Ok (Some (XeroItem.Build None "LAV-1" "Lavender Melt" (Some "Lavender Melt")
                true true)) /\
  XeroItem.Name
    (XeroItem.Build None "LAV-1" "Lavender Melt" (Some "Lavender Melt") true true) =
  ShopifyProduct.title Sample.product.
Proof.
  split; [reflexivity|].
  apply (converted_item_is_well_formed Sample.float_accepts Sample.product _ eq_refl).
  - reflexivity.
  - vm_compute. lia.
Defined.



Lemma invoice_lines_default (float_accepts : string -> bool)
    (gl : gmap string string) (items : list ShopifyLineItem.t)
    (lines : list XeroLineItem.t) :
  map_Forall (fun _ code => code = DEFAULT_LINE_ITEM_ACCOUNT) gl ->
  invoice_lines float_accepts gl items = Ok lines ->
  lines = map default_line items.
Proof.
  intros Hgl. revert lines. induction items as [|item items IH]; intros lines.
  - simpl. intros [= <-]. reflexivity.
  - simpl. destruct (if Py.truthy _ then _ else _); [|discriminate].
    destruct (invoice_lines float_accepts gl items) as [ls|]; [|discriminate].
    intros [= <-]. rewrite (IH ls eq_refl). f_equal.
    unfold default_line. f_equal.
    destruct (_ && _); [|reflexivity].
    destruct (gl !! _) as [code|] eqn:E; [|reflexivity].
    simpl. exact (Hgl _ _ E).
Qed.

Lemma sku_gl_fold_default (mappings : list SyncMapping.t) (acc : gmap string string) :
  map_Forall (fun _ code => code = DEFAULT_LINE_ITEM_ACCOUNT) acc ->
  map_Forall (fun _ code => code = DEFAULT_LINE_ITEM_ACCOUNT)
    (fold_left
       (fun sku_to_gl mapping =>
          <[SyncMapping.shopify_id mapping := DEFAULT_GL_MAPPING_sales_account]>
            sku_to_gl)
       mappings acc).
Proof.
  revert acc. induction mappings as [|m ms IH]; intros acc Hacc; [exact Hacc|].
  simpl. apply IH. apply map_Forall_insert_2; [reflexivity|exact Hacc].
Qed.

(** X14. The invoice the engine builds for an order.  Building the account
    table from the product mappings changes nothing in the world, and the
    table holds no account code other than the default one, so the invoice
    has one line per order line, in order, each under the default account
    and tax type, followed by one discount line exactly when the order has a
    positive discount.  Its reference is the prefix and the order number, it
    has no invoice id, the contact passed, a due date equal to its date, and
    it is authorised exactly when the order is paid. *)
Theorem invoice_of_order_spec
    (float_accepts discount_positive : string -> bool)
    (order : ShopifyOrder.t) (contact_id : string) (w w' : World) (now : Z)
    (sku_to_gl_code : gmap string string) (invoice : XeroInvoice.t) :
  _build_sku_gl_mapping w = (Ok sku_to_gl_code, w') ->
  shopify_order_to_xero_invoice float_accepts discount_positive order contact_id
    sku_to_gl_code now = Ok invoice ->
  w' = w /\
  XeroInvoice.LineItems invoice =
    (map default_line (ShopifyOrder.line_items order) ++
     if Py.truthy (ShopifyOrder.total_discounts order) &&
        discount_positive (ShopifyOrder.total_discounts order)
     then [XeroLineItem.Build "Discount" 1 DEFAULT_LINE_ITEM_ACCOUNT None
             DEFAULT_TAX_TYPE]
     else [])%list /\
  XeroInvoice.Reference invoice =
    Some ("SHOP-" +:+ Py.str_of_int (ShopifyOrder.order_number order)) /\
  XeroInvoice.InvoiceID invoice = None /\
  XeroInvoice.ContactID invoice = Some contact_id /\
  XeroInvoice.DueDate invoice = XeroInvoice.Date invoice /\
  (XeroInvoice.Status invoice = "AUTHORISED" <->
   ShopifyOrder.financial_status order = Some "paid").
Proof.
  unfold _build_sku_gl_mapping. unfold_monad. intros [= <- <-].
  unfold shopify_order_to_xero_invoice.
  match goal with
  | |- context [invoice_lines _ ?m _] =>
      assert (Hgl : map_Forall (fun _ code => code = DEFAULT_LINE_ITEM_ACCOUNT) m)
        by (apply sku_gl_fold_default, map_Forall_empty);
      destruct (invoice_lines float_accepts m (ShopifyOrder.line_items order))
        as [lines|] eqn:El; [|discriminate]
  end.
  apply (invoice_lines_default _ _ _ _ Hgl) in El. subst lines.
  destruct (if Py.truthy _ then float_of _ _ else _); [|discriminate].
  intros [= <-]. cbn.
  split; [reflexivity|]. split.
  { destruct (_ && _); [reflexivity|rewrite app_nil_r; reflexivity]. }
  split; [reflexivity|]. split; [reflexivity|]. split; [reflexivity|].
  split; [reflexivity|].
  destruct (bool_decide (ShopifyOrder.financial_status order = Some "paid")) eqn:E.
  - apply bool_decide_eq_true in E. split; auto.
  - apply bool_decide_eq_false in E. split; [discriminate|contradiction].
Qed.

Lemma invoice_of_order_spec_witness :
  let w :=
    BuildWorld
      (Database.upsert_mapping Database.empty
         (SyncMapping.Build "LAV-1" "item-1" "product" None None None))
      [] 0 in
  exists invoice,
    _build_sku_gl_mapping w = (Ok {["LAV-1" := "200"]}, w) /\
    shopify_order_to_xero_invoice Sample.float_accepts Sample.discount_positive
      Sample.order "contact-1" {["LAV-1" := "200"]} 7 = Ok invoice /\
    XeroInvoice.LineItems invoice =
      [XeroLineItem.Build "Lavender Melt" 2 "200" (Some "LAV-1") "OUTPUT2"] /\
    XeroInvoice.Reference invoice = Some "SHOP-1001" /\
    XeroInvoice.Status invoice = "AUTHORISED".
Proof.
  intros w.
  assert (Hgl : _build_sku_gl_mapping w = (Ok {["LAV-1" := "200"]}, w))
    by (vm_compute; reflexivity).
  destruct (shopify_order_to_xero_invoice Sample.float_accepts
              Sample.discount_positive Sample.order "contact-1"
              {["LAV-1" := "200"]} 7) as [invoice|] eqn:Hinv;
    [|vm_compute in Hinv; discriminate].
  exists invoice. split; [exact Hgl|]. split; [reflexivity|].
  destruct (invoice_of_order_spec Sample.float_accepts Sample.discount_positive
              Sample.order "contact-1" w w 7 {["LAV-1" := "200"]} invoice Hgl Hinv)
    as [_ [Hl [Hr [_ [_ [_ Hs]]]]]].
  split; [exact Hl|]. split; [exact Hr|]. apply Hs. reflexivity.
Defined.


(** X15. [get_gl_codes_for_category] gives every category the purchase
    account 310 and one of the sales accounts 200 to 206; a missing or empty
    category gets the default codes; a category whose lower-cased, stripped
    name is a key of the table gets the codes of that entry; and only such a
    category gets a sales account other than 200. *)
Theorem gl_codes_spec (lower strip : string -> string) (category : option string) :
  let codes := get_gl_codes_for_category lower strip category in
  GLCodeMapping.purchase_account codes = "310" /\
  In (GLCodeMapping.sales_account codes)
    ["200"; "201"; "202"; "203"; "204"; "205"; "206"] /\
  (Py.truthy_opt category = false -> codes = DEFAULT_GL_MAPPING) /\
  (forall entry,
     Py.truthy_opt category = true ->
     In (strip (lower (Py.opt_or category "")), entry) CATEGORY_GL_ENTRIES ->
     codes = entry) /\
  (GLCodeMapping.sales_account codes <> "200" ->
   In (strip (lower (Py.opt_or category ""))) (map fst CATEGORY_GL_ENTRIES)).
Proof.
  intros codes. subst codes.
  unfold get_gl_codes_for_category.
  destruct (Py.truthy_opt category); simpl negb; cbv iota.
  - set (key := strip (lower (Py.opt_or category ""))).
    assert (Hnd : NoDup (CATEGORY_GL_ENTRIES.*1)).
    { apply (bool_decide_unpack (NoDup (CATEGORY_GL_ENTRIES.*1))).
      vm_compute. exact I. }
    destruct (CATEGORY_GL_MAPPING !! key) as [v|] eqn:E.
    + assert (Hin : In (key, v) CATEGORY_GL_ENTRIES)
        by (apply list_elem_of_In, elem_of_list_to_map_2, E).
      assert (Hk : In key (map fst CATEGORY_GL_ENTRIES)).
      { apply in_map_iff. exists (key, v). auto. }
      split; [|split; [|split; [discriminate|split; [|intros _; exact Hk]]]].
      * unfold CATEGORY_GL_ENTRIES in Hin. simpl in Hin.
        repeat destruct Hin as [Hin|Hin]; try (injection Hin as _ <-; reflexivity).
        contradiction.
      * unfold CATEGORY_GL_ENTRIES in Hin. simpl in Hin.
        repeat destruct Hin as [Hin|Hin];
          try (injection Hin as _ <-; simpl; auto 10).
        contradiction.
      * intros entry _ He. apply list_elem_of_In in He.
        apply (elem_of_list_to_map_1 _ _ _ Hnd) in He.
        unfold CATEGORY_GL_MAPPING in E. congruence.
    + split; [reflexivity|]. split; [simpl; auto|]. split; [discriminate|].
      split; [|intros H; contradiction].
      intros entry _ He. apply list_elem_of_In in He.
      apply (elem_of_list_to_map_1 _ _ _ Hnd) in He.
      unfold CATEGORY_GL_MAPPING in E. congruence.
  - split; [reflexivity|]. split; [simpl; auto|]. split; [reflexivity|].
    split; [discriminate|]. intros H; contradiction.
Qed.

(* ===================================================================== *)
(** ** The passes over one entity *)
(* ===================================================================== *)


Lemma own_row_refl sid d : own_row_only sid d d.
Proof.
  split; [reflexivity|]. split; [eauto|]. split; [left; reflexivity|].
  split; reflexivity.
Qed.

Lemma own_row_upsert sid d m errs seq :
  SyncMapping.shopify_id m = sid ->
  (errs = Database.sync_errors d \/
   errs = Database.sync_errors (fst (Database.clear_error d sid))) ->
  seq = Database.sync_errors_seq d ->
  own_row_only sid d (Database.with_errors (Database.upsert_mapping d m) errs seq).
Proof.
  intros Hk He Hs. subst sid seq. split; [|split; [|split; [|split]]].
  - intros k Hne. unfold Database.get_mapping.
    cbn [Database.sync_mappings Database.with_errors].
    rewrite upsert_mapping_other by exact Hne. reflexivity.
  - intros m0 Hm0. destruct (get_mapping_upsert d m) as [row [Hrow [_ [_ [_ [_ Hty]]]]]].
    unfold Database.get_mapping in *.
    cbn [Database.sync_mappings Database.with_errors].
    rewrite Hrow. simpl. eexists. split; [reflexivity|]. simpl. rewrite Hty.
    destruct (Database.sync_mappings d !! SyncMapping.shopify_id m); [|discriminate].
    simpl in Hm0. injection Hm0 as <-. reflexivity.
  - exact He.
  - reflexivity.
  - reflexivity.
Qed.

Lemma own_row_upsert_plain sid d m :
  SyncMapping.shopify_id m = sid ->
  own_row_only sid d (Database.upsert_mapping d m).
Proof.
  intros Hk.
  pose proof (own_row_upsert sid d m (Database.sync_errors d)
                (Database.sync_errors_seq d) Hk (or_introl eq_refl) eq_refl) as H.
  exact H.
Qed.

Ltac own_key := simpl; first [reflexivity | eapply get_mapping_key; eassumption].

Ltac own_row :=
  cbn [db];
  first
    [ apply own_row_refl
    | apply own_row_upsert_plain; own_key
    | apply own_row_upsert;
      [ own_key | first [left; reflexivity | right; reflexivity] | reflexivity ] ].

Ltac later_tick :=
  cbn [ticks];
  repeat match goal with
         | |- context [match ?x with _ => _ end] => destruct x
         end;
  lia.

Section PassFacts.

Variable remote : Remote.
Variable float_accepts : string -> bool.
Variable discount_positive : string -> bool.
Variable self : SyncEngine.

Lemma customer_pass_facts c w r w' :
  _sync_single_customer remote self c w = (r, w') ->
  own_row_only (Py.str_of_int (ShopifyCustomer.id c)) (db w) (db w') /\
  (ticks w <= ticks w')%nat /\
  forall action error, r = Ok (action, error) -> known_action action.
Proof.
  intros H. unfold_customer. unfold_monad. simpl in H.
  repeat break_hyp.
  all: split; [own_row|].
  all: split; [later_tick|].
  all: intros action error Hr; inversion Hr; subst; unfold known_action; auto.
Qed.

Lemma product_pass_facts p w r w' :
  _sync_single_product remote float_accepts self p w = (r, w') ->
  own_row_only (Py.str_of_int (ShopifyProduct.id p)) (db w) (db w') /\
  (ticks w <= ticks w')%nat /\
  forall action error, r = Ok (action, error) -> known_action action.
Proof.
  intros H. unfold_product. unfold_monad. simpl in H.
  repeat break_hyp.
  all: split; [own_row|].
  all: split; [later_tick|].
  all: intros action error Hr; inversion Hr; subst; unfold known_action; auto.
Qed.

Lemma order_pass_facts o gl w r w' :
  _sync_single_order remote float_accepts discount_positive self o gl w = (r, w') ->
  own_row_only (Py.str_of_int (ShopifyOrder.id o)) (db w) (db w') /\
  (ticks w <= ticks w')%nat /\
  forall action error, r = Ok (action, error) -> known_action action.
Proof.
  intros H. unfold_order. unfold_monad. simpl in H.
  repeat break_hyp.
  all: split; [own_row|].
  all: split; [later_tick|].
  all: intros action error Hr; inversion Hr; subst; unfold known_action; auto.
Qed.

End PassFacts.


(** Closes the goal left by an update that went through: the pass result,
    the log, the refreshed mapping row and the cleared errors. *)
Ltac refreshed Hk Hm :=
  eexists; split; [reflexivity|]; split; [reflexivity|]; split;
  [ cbn [db]; etransitivity;
    [ rewrite <- Hk;
      match goal with
      | |- Database.get_mapping
             (Database.with_errors (Database.upsert_mapping ?d ?m0) ?e ?q) _ = _ =>
          exact (get_mapping_upserted d m0 e q)
      end
    | simpl; rewrite Hk, Hm; reflexivity ]
  | intros ?; apply rows_for_cleared ].

Section Customers.

Variable remote : Remote.
Variable self : SyncEngine.

(** The marketing-consent step comes first and its outcome is dropped. *)
Lemma marketing_step (c : ShopifyCustomer.t) (w : World) :
  _sync_single_customer remote self c w =
  _sync_single_customer remote (without_marketing self) c (after_marketing self c w).
Proof.
  unfold after_marketing, marketing_calls, without_marketing.
  unfold_customer. unfold_monad. simpl.
  destruct (enable_email_marketing (settings self)); simpl;
    destruct (dry_run self) eqn:Hd; simpl;
    rewrite ?app_nil_r, ?world_eta; try reflexivity.
  destruct (update_customer_email_marketing remote (log w) (ShopifyCustomer.id c));
    reflexivity.
Qed.

(** X16. Whatever the marketing-consent update answers, success or any
    error, the customer pass goes on as if the setting were off, from the
    world in which that one call was made.  In a dry run, and with the
    setting off, the call is not made at all. *)
Theorem marketing_outcome_is_ignored (c : ShopifyCustomer.t) (w : World) :
  _sync_single_customer remote self c w =
  _sync_single_customer remote (without_marketing self) c (after_marketing self c w) /\
  db (after_marketing self c w) = db w /\
  (dry_run self = true -> after_marketing self c w = w) /\
  (enable_email_marketing (settings self) = false -> after_marketing self c w = w) /\
  (dry_run self = false -> enable_email_marketing (settings self) = true ->
   calls_since w (after_marketing self c w) =
     [Shopify_update_customer_email_marketing (ShopifyCustomer.id c)]).
Proof.
  split; [apply marketing_step|]. split; [reflexivity|]. split; [|split].
  - intros Hd. unfold after_marketing, marketing_calls. rewrite Hd, andb_false_r.
    rewrite app_nil_r. apply world_eta.
  - intros He. unfold after_marketing, marketing_calls. rewrite He. simpl.
    rewrite app_nil_r. apply world_eta.
  - intros Hd He. apply calls_since_intro. unfold after_marketing, marketing_calls.
    rewrite Hd, He. reflexivity.
Qed.

Lemma truthy_nonempty (s : string) : s <> "" -> Py.truthy s = true.
Proof. destruct s; [contradiction|reflexivity]. Qed.

(** X17. A customer that is mapped under another checksum is updated, when
    the engine is not in dry run: after the marketing step one update of the
    mapped contact is sent, carrying the converted contact under the mapped
    id.  When it is accepted the pass reports "updated", the mapping row
    keeps its destination id and entity type and takes the new checksum and
    times, and the errors of the customer are cleared.  When it is refused
    the pass reports "skipped" with the message and the store is left as it
    was; any other exception leaves the pass. *)
Theorem mapped_customer_is_updated (c : ShopifyCustomer.t) (w : World)
    (m : SyncMapping.t) :
  dry_run self = false ->
  Database.get_mapping (db w) (Py.str_of_int (ShopifyCustomer.id c)) = Some m ->
  SyncMapping.checksum m <> Some (calculate_customer_checksum c) ->
  SyncMapping.xero_id m <> "" ->
  let shopify_id := Py.str_of_int (ShopifyCustomer.id c) in
  let w0 := after_marketing self c w in
  let contact :=
    XeroContact.with_ContactID (shopify_customer_to_xero_contact c)
      (Some (SyncMapping.xero_id m)) in
  let sent := BuildWorld (db w) (log w0 ++ [Xero_update_contact contact]) (ticks w) in
  match put_contact remote (log w0) contact with
  | Ok _ =>
      exists w',
        _sync_single_customer remote self c w = (Ok ("updated", None), w') /\
        log w' = log sent /\
        Database.get_mapping (db w') shopify_id =
          Some (SyncMapping.Build shopify_id (SyncMapping.xero_id m)
                  (SyncMapping.entity_type m) (Some (clock remote (ticks w)))
                  (ShopifyCustomer.updated_at c)
                  (Some (calculate_customer_checksum c))) /\
        forall entity_type, ErrorTable.rows_for (db w') entity_type shopify_id = []
  | Raise (XeroAPIError msg) =>
      _sync_single_customer remote self c w =
      (Ok ("skipped",
           Some ("Failed to update contact for customer " +:+ shopify_id +:+ ": "
                 +:+ msg)), sent)
  | Raise (PyException msg) =>
      _sync_single_customer remote self c w = (Raise (PyException msg), sent)
  end.
Proof.
  intros Hd Hm Hc Hx shopify_id w0 contact sent.
  apply has_changed_true in Hc. apply truthy_nonempty in Hx.
  rewrite (marketing_step c w).
  pose proof (get_mapping_key _ _ _ Hm) as Hk.
  subst shopify_id w0 contact sent. unfold after_marketing.
  unfold_customer. unfold_monad. simpl.
  rewrite Hm. simpl. rewrite Hc, Hd. simpl. rewrite Hx. simpl.
  destruct (put_contact remote _ _) as [x|[msg|msg]]; simpl.
  - refreshed Hk Hm.
  - reflexivity.
  - reflexivity.
Qed.

End Customers.

Section Products.

Variable remote : Remote.
Variable float_accepts : string -> bool.
Variable self : SyncEngine.

(** X18. A product that is mapped under another checksum, and whose item
    still has the same code, cannot be read or is not found, is updated in
    place: the item is looked up by its id, then one update carrying the
    converted item under the mapped id is sent.  Accepted, it gives
    "updated", the refreshed mapping row and cleared errors; refused, it
    gives "skipped" with the message and an unchanged store. *)
Theorem mapped_product_is_updated (p : ShopifyProduct.t) (item : XeroItem.t)
    (w : World) (m : SyncMapping.t) :
  dry_run self = false ->
  shopify_product_to_xero_item float_accepts p = Ok (Some item) ->
  Database.get_mapping (db w) (Py.str_of_int (ShopifyProduct.id p)) = Some m ->
  SyncMapping.checksum m <> Some (calculate_product_checksum p) ->
  SyncMapping.xero_id m <> "" ->
  match fetch_item_by_id remote (log w) (SyncMapping.xero_id m) with
  | Ok (Some current) => XeroItem.Code current = XeroItem.Code item
  | Ok None => True
  | Raise (XeroAPIError _) => True
  | Raise (PyException _) => False
  end ->
  let shopify_id := Py.str_of_int (ShopifyProduct.id p) in
  let looked := (log w ++ [Xero_get_item_by_id (SyncMapping.xero_id m)])%list in
  let payload := XeroItem.with_ItemID item (Some (SyncMapping.xero_id m)) in
  let sent := BuildWorld (db w) (looked ++ [Xero_update_item payload]) (ticks w) in
  match put_item remote looked payload with
  | Ok _ =>
      exists w',
        _sync_single_product remote float_accepts self p w =
          (Ok ("updated", None), w') /\
        log w' = log sent /\
        Database.get_mapping (db w') shopify_id =
          Some (SyncMapping.Build shopify_id (SyncMapping.xero_id m)
                  (SyncMapping.entity_type m) (Some (clock remote (ticks w)))
                  (ShopifyProduct.updated_at p)
                  (Some (calculate_product_checksum p))) /\
        forall entity_type, ErrorTable.rows_for (db w') entity_type shopify_id = []
  | Raise (XeroAPIError msg) =>
      _sync_single_product remote float_accepts self p w =
      (Ok ("skipped",
           Some ("Failed to update item for product " +:+ shopify_id +:+ ": "
                 +:+ msg)), sent)
  | Raise (PyException msg) =>
      _sync_single_product remote float_accepts self p w =
      (Raise (PyException msg), sent)
  end.
Proof.
  intros Hd Hi Hm Hc Hx Hsku shopify_id looked payload sent.
  apply has_changed_true in Hc. apply truthy_nonempty in Hx.
  pose proof (get_mapping_key _ _ _ Hm) as Hk.
  subst shopify_id looked payload sent.
  unfold_product. unfold_monad. simpl.
  rewrite Hi. simpl. rewrite Hm. simpl. rewrite Hc. simpl. rewrite Hx. simpl.
  destruct (fetch_item_by_id remote (log w) (SyncMapping.xero_id m))
    as [[current|]|[msg|msg]]; simpl; try contradiction.
  - apply String.eqb_eq in Hsku. rewrite Hsku. simpl. rewrite ?Hd. simpl. rewrite ?Hx. simpl.
    destruct (put_item remote _ _) as [x|[msg|msg]]; simpl; [|reflexivity|reflexivity].
    refreshed Hk Hm.
  - rewrite ?Hd. simpl. rewrite ?Hx. simpl.
    destruct (put_item remote _ _) as [x|[msg|msg]]; simpl; [|reflexivity|reflexivity].
    refreshed Hk Hm.
  - rewrite ?Hd. simpl. rewrite ?Hx. simpl.
    destruct (put_item remote _ _) as [x|[msg'|msg']]; simpl; [|reflexivity|reflexivity].
    refreshed Hk Hm.
Qed.

(** X19. A mapped product whose SKU changed.  Outside dry-run it is archived
    and created anew: the old item is renamed with the prefix and marked
    neither sold nor purchased, under its old code; whether or not that
    update is accepted, the converted item is then created; and when the
    creation returns an id the mapping row is pointed at the new item, under
    the entity type it had.  A refused creation gives "skipped" and leaves
    the row on the old item.  In dry-run the pass only looks the item up and
    reports "updated": nothing is archived or created, and the store is left
    as it was. *)
Theorem sku_change_archives_and_recreates (p : ShopifyProduct.t) (item : XeroItem.t)
    (w : World) (m : SyncMapping.t) (current : XeroItem.t) (old_id : string) :
  shopify_product_to_xero_item float_accepts p = Ok (Some item) ->
  Database.get_mapping (db w) (Py.str_of_int (ShopifyProduct.id p)) = Some m ->
  SyncMapping.checksum m <> Some (calculate_product_checksum p) ->
  SyncMapping.xero_id m <> "" ->
  fetch_item_by_id remote (log w) (SyncMapping.xero_id m) = Ok (Some current) ->
  XeroItem.Code current <> XeroItem.Code item ->
  XeroItem.ItemID current = Some old_id -> old_id <> "" ->
  let shopify_id := Py.str_of_int (ShopifyProduct.id p) in
  let looked := (log w ++ [Xero_get_item_by_id (SyncMapping.xero_id m)])%list in
  let archived :=
    XeroItem.Build (Some old_id) (XeroItem.Code current)
      ("[ARCHIVED] " +:+ XeroItem.Name current) (XeroItem.Description current)
      false false in
  let retired := (looked ++ [Xero_update_item archived])%list in
  if dry_run self
  then
    _sync_single_product remote float_accepts self p w =
    (Ok ("updated", None), BuildWorld (db w) looked (ticks w))
  else
  match put_item remote looked archived with
  | Raise (PyException msg) =>
      _sync_single_product remote float_accepts self p w =
      (Raise (PyException msg), BuildWorld (db w) retired (ticks w))
  | _ =>
      match post_item remote retired item with
      | Ok created =>
          match XeroItem.ItemID created with
          | Some new_id =>
              exists w',
                _sync_single_product remote float_accepts self p w =
                  (Ok ("created", None), w') /\
                log w' = (retired ++ [Xero_create_item item])%list /\
                Database.get_mapping (db w') shopify_id =
                  Some (SyncMapping.Build shopify_id new_id
                          (SyncMapping.entity_type m)
                          (Some (clock remote (ticks w)))
                          (ShopifyProduct.updated_at p)
                          (Some (calculate_product_checksum p))) /\
                forall entity_type,
                  ErrorTable.rows_for (db w') entity_type shopify_id = []
          | None =>
              exists e w',
                _sync_single_product remote float_accepts self p w = (Raise e, w') /\
                db w' = db w
          end
      | Raise (XeroAPIError msg) =>
          _sync_single_product remote float_accepts self p w =
          (Ok ("skipped",
               Some ("Failed to create new item after SKU change: " +:+ msg)),
           BuildWorld (db w) (retired ++ [Xero_create_item item]) (ticks w))
      | Raise (PyException msg) =>
          _sync_single_product remote float_accepts self p w =
          (Raise (PyException msg),
           BuildWorld (db w) (retired ++ [Xero_create_item item]) (ticks w))
      end
  end.
Proof.
  intros Hi Hm Hc Hx Hf Hsku Hid Hold shopify_id looked archived retired.
  apply has_changed_true in Hc. apply truthy_nonempty in Hx.
  apply truthy_nonempty in Hold. apply String.eqb_neq in Hsku.
  pose proof (get_mapping_key _ _ _ Hm) as Hk.
  subst shopify_id looked archived retired.
  unfold_product. unfold_monad. simpl.
  rewrite Hi. simpl. rewrite Hm. simpl. rewrite Hc. simpl. rewrite Hx. simpl.
  rewrite Hf. simpl. rewrite Hsku. simpl.
  destruct (dry_run self) eqn:Hd; simpl; [reflexivity|].
  rewrite Hid. simpl. rewrite Hold. simpl.
  destruct (put_item remote _ _) as [x|[msg|msg]]; simpl; [| |reflexivity].
  - destruct (post_item remote _ item) as [created|[msg|msg]]; simpl;
      [|reflexivity|reflexivity].
    destruct (XeroItem.ItemID created) as [new_id|]; simpl.
    + refreshed Hk Hm.
    + do 2 eexists. split; reflexivity.
  - destruct (post_item remote _ item) as [created|[msg'|msg']]; simpl;
      [|reflexivity|reflexivity].
    destruct (XeroItem.ItemID created) as [new_id|]; simpl.
    + refreshed Hk Hm.
    + do 2 eexists. split; reflexivity.
Qed.

End Products.


Section Orders.

Variable remote : Remote.
Variable float_accepts : string -> bool.
Variable discount_positive : string -> bool.
Variable self : SyncEngine.

(** The contact of an order, case by case. *)
Lemma contact_of_order_cases (order : ShopifyOrder.t) (w : World) :
  match order_customer_mapping (db w) order with
  | Some m =>
      _get_customer_contact_id remote order w = (Ok (Some (SyncMapping.xero_id m)), w)
  | None =>
      match order_contact_email order with
      | Some email =>
          if Py.truthy email
          then
            let asked :=
              BuildWorld (db w) (log w ++ [Xero_find_contact_by_email email])
                (ticks w) in
            match fetch_contact_by_email remote (log w) email with
            | Ok (Some contact) =>
                _get_customer_contact_id remote order w =
                (Ok (XeroContact.ContactID contact), asked)
            | Ok None | Raise (XeroAPIError _) =>
                _get_customer_contact_id remote order w = (Ok None, asked)
            | Raise (PyException msg) =>
                _get_customer_contact_id remote order w =
                (Raise (PyException msg), asked)
            end
          else _get_customer_contact_id remote order w = (Ok None, w)
      | None => _get_customer_contact_id remote order w = (Ok None, w)
      end
  end.
Proof.
  unfold order_customer_mapping, order_contact_email, _get_customer_contact_id.
  unfold_monad.
  destruct (ShopifyOrder.customer order) as [c|]; simpl.
  - destruct (ShopifyCustomer.id c =? 0); simpl.
    + destruct (Py.truthy_opt (ShopifyOrder.email order)) eqn:He; simpl.
      * destruct (ShopifyOrder.email order) as [email|]; [|discriminate].
        simpl in He. rewrite He. simpl. unfold Py.str_or. rewrite He. simpl. rewrite He.
        simpl. destruct (fetch_contact_by_email remote (log w) email)
          as [[contact|]|[msg|msg]]; reflexivity.
      * destruct (ShopifyCustomer.email c) as [email|]; simpl; [|destruct w; reflexivity].
        destruct (Py.truthy email) eqn:Hc; simpl; [|destruct w; reflexivity].
        unfold Py.str_or. rewrite Hc. simpl. rewrite Hc. simpl.
        destruct (fetch_contact_by_email remote (log w) email)
          as [[contact|]|[msg|msg]]; reflexivity.
    + destruct (Database.get_mapping (db w) _) as [m|]; simpl.
      * destruct (String.eqb (SyncMapping.entity_type m) "customer"); simpl;
          [destruct w; reflexivity|].
        destruct (Py.truthy_opt (ShopifyOrder.email order)) eqn:He; simpl.
        -- destruct (ShopifyOrder.email order) as [email|]; [|discriminate].
           simpl in He. rewrite He. simpl. unfold Py.str_or. rewrite He. simpl.
           rewrite He. simpl.
           destruct (fetch_contact_by_email remote (log w) email)
             as [[contact|]|[msg|msg]]; reflexivity.
        -- destruct (ShopifyCustomer.email c) as [email|]; simpl;
             [|destruct w; reflexivity].
           destruct (Py.truthy email) eqn:Hc; simpl; [|destruct w; reflexivity].
           unfold Py.str_or. rewrite Hc. simpl. rewrite Hc. simpl.
           destruct (fetch_contact_by_email remote (log w) email)
             as [[contact|]|[msg|msg]]; reflexivity.
      * destruct (Py.truthy_opt (ShopifyOrder.email order)) eqn:He; simpl.
        -- destruct (ShopifyOrder.email order) as [email|]; [|discriminate].
           simpl in He. rewrite He. simpl. unfold Py.str_or. rewrite He. simpl.
           rewrite He. simpl.
           destruct (fetch_contact_by_email remote (log w) email)
             as [[contact|]|[msg|msg]]; reflexivity.
        -- destruct (ShopifyCustomer.email c) as [email|]; simpl;
             [|destruct w; reflexivity].
           destruct (Py.truthy email) eqn:Hc; simpl; [|destruct w; reflexivity].
           unfold Py.str_or. rewrite Hc. simpl. rewrite Hc. simpl.
           destruct (fetch_contact_by_email remote (log w) email)
             as [[contact|]|[msg|msg]]; reflexivity.
  - destruct (Py.truthy_opt (ShopifyOrder.email order)) eqn:He; simpl.
    + destruct (ShopifyOrder.email order) as [email|]; [|discriminate].
      simpl in He. rewrite He. simpl. unfold Py.str_or. rewrite He. simpl.
      rewrite He. simpl.
      destruct (fetch_contact_by_email remote (log w) email)
        as [[contact|]|[msg|msg]]; reflexivity.
    + destruct w; reflexivity.
Qed.

(** X20. A new order whose customer has a customer mapping is invoiced to
    that contact without any contact search: outside a dry run, when no
    invoice with its reference is found, the calls of the pass are the
    lookup by reference and the creation of the converted invoice, the
    invoice names the mapped contact, and the order is mapped to the id the
    creation returned, as an "order", under its checksum. *)
Theorem order_of_mapped_customer_is_invoiced (order : ShopifyOrder.t)
    (sku_to_gl_code : gmap string string) (w : World) (m : SyncMapping.t)
    (invoice created : XeroInvoice.t) (new_id : string) :
  let shopify_id := Py.str_of_int (ShopifyOrder.id order) in
  let reference :=
    INVOICE_REFERENCE_PREFIX +:+ Py.str_of_int (ShopifyOrder.order_number order) in
  let looked := (log w ++ [Xero_find_invoice_by_reference reference])%list in
  dry_run self = false ->
  Database.get_mapping (db w) shopify_id = None ->
  match fetch_invoice_by_reference remote (log w) reference with
  | Ok None | Raise (XeroAPIError _) => True
  | _ => False
  end ->
  order_customer_mapping (db w) order = Some m ->
  SyncMapping.xero_id m <> "" ->
  shopify_order_to_xero_invoice float_accepts discount_positive order
    (SyncMapping.xero_id m) sku_to_gl_code (clock remote (ticks w)) = Ok invoice ->
  post_invoice remote looked invoice = Ok created ->
  XeroInvoice.InvoiceID created = Some new_id ->
  exists w' synced_at,
    _sync_single_order remote float_accepts discount_positive self order
      sku_to_gl_code w = (Ok ("created", None), w') /\
    calls_since w w' =
      [Xero_find_invoice_by_reference reference; Xero_create_invoice invoice] /\
    XeroInvoice.ContactID invoice = Some (SyncMapping.xero_id m) /\
    Database.get_mapping (db w') shopify_id =
      Some (SyncMapping.Build shopify_id new_id "order" (Some synced_at)
              (ShopifyOrder.updated_at order)
              (Some (calculate_order_checksum order))).
Proof.
  intros shopify_id reference looked Hd Hm Hfind Hcm Hx Hinv Hpost Hid.
  subst shopify_id reference looked.
  apply truthy_nonempty in Hx.
  pose proof (contact_of_order_cases order
                (BuildWorld (db w)
                   (log w ++
                    [Xero_find_invoice_by_reference
                       (INVOICE_REFERENCE_PREFIX +:+
                        Py.str_of_int (ShopifyOrder.order_number order))])
                   (ticks w))) as Hcontact.
  cbn [db] in Hcontact. rewrite Hcm in Hcontact.
  assert (Hcid : XeroInvoice.ContactID invoice = Some (SyncMapping.xero_id m)).
  { revert Hinv. unfold shopify_order_to_xero_invoice.
    destruct (invoice_lines _ _ _); [|discriminate].
    destruct (if Py.truthy _ then _ else _); [|discriminate].
    intros [= <-]. reflexivity. }
  unfold _sync_single_order, _create_order_in_xero.
  unfold order_to_invoice, db_get_mapping, db_upsert_mapping, db_clear_error,
    new_SyncMapping, find_invoice_by_reference, create_invoice,
    except_XeroAPIError, bind, ret, raise, read_db, write_db, utcnow, remote_call.
  simpl. rewrite Hm. simpl.
  destruct (fetch_invoice_by_reference remote (log w) _)
    as [[existing|]|[msg|msg]]; try contradiction; simpl.
  - rewrite Hcontact. simpl. rewrite Hx. simpl. unfold Py.str_or. rewrite Hx.
    rewrite Hinv. simpl. rewrite Hd. simpl. rewrite Hpost. simpl. rewrite Hid. simpl.
    do 2 eexists. split; [reflexivity|]. split; [|split; [exact Hcid|]].
    + calls_known. reflexivity.
    + cbn [db]. etransitivity.
      * match goal with
        | |- Database.get_mapping
               (Database.with_errors (Database.upsert_mapping ?d ?m0) ?e ?q) _ = _ =>
            exact (get_mapping_upserted d m0 e q)
        end.
      * simpl. rewrite Hm. reflexivity.
  - rewrite Hcontact. simpl. rewrite Hx. simpl. unfold Py.str_or. rewrite Hx.
    rewrite Hinv. simpl. rewrite Hd. simpl. rewrite Hpost. simpl. rewrite Hid. simpl.
    do 2 eexists. split; [reflexivity|]. split; [|split; [exact Hcid|]].
    + calls_known. reflexivity.
    + cbn [db]. etransitivity.
      * match goal with
        | |- Database.get_mapping
               (Database.with_errors (Database.upsert_mapping ?d ?m0) ?e ?q) _ = _ =>
            exact (get_mapping_upserted d m0 e q)
        end.
      * simpl. rewrite Hm. reflexivity.
Qed.

(** X21. A new order for which no contact id is found, or an empty one, is
    skipped with the message naming the order; nothing is written at the
    destination and the store is left as it was. *)
Theorem order_without_contact_is_skipped (order : ShopifyOrder.t)
    (sku_to_gl_code : gmap string string) (w : World) (r : outcome (option string))
    (w1 : World) :
  let shopify_id := Py.str_of_int (ShopifyOrder.id order) in
  let reference :=
    INVOICE_REFERENCE_PREFIX +:+ Py.str_of_int (ShopifyOrder.order_number order) in
  let looked :=
    BuildWorld (db w) (log w ++ [Xero_find_invoice_by_reference reference])
      (ticks w) in
  Database.get_mapping (db w) shopify_id = None ->
  match fetch_invoice_by_reference remote (log w) reference with
  | Ok None | Raise (XeroAPIError _) => True
  | _ => False
  end ->
  _get_customer_contact_id remote order looked = (r, w1) ->
  r = Ok None \/ r = Ok (Some "") ->
  _sync_single_order remote float_accepts discount_positive self order
    sku_to_gl_code w =
    (Ok ("skipped", Some ("No Xero contact found for order " +:+ shopify_id)), w1) /\
  db w1 = db w /\
  List.filter is_mutation (calls_since w w1) = [].
Proof.
  intros shopify_id reference looked Hm Hfind Hcontact Hr.
  subst shopify_id reference looked.
  assert (Hw1 : db w1 = db w /\
                List.filter is_mutation (calls_since w w1) = []).
  { pose proof (contact_of_order_cases order
                  (BuildWorld (db w)
                     (log w ++
                      [Xero_find_invoice_by_reference
                         (INVOICE_REFERENCE_PREFIX +:+
                          Py.str_of_int (ShopifyOrder.order_number order))])
                     (ticks w))) as Hc.
    rewrite Hcontact in Hc. cbn [db log ticks] in Hc.
    destruct (order_customer_mapping (db w) order).
    - injection Hc as _ ->. split; [reflexivity|]. calls_known. reflexivity.
    - destruct (order_contact_email order) as [email|].
      + destruct (Py.truthy email).
        * cbv zeta in Hc.
          destruct (fetch_contact_by_email remote _ email) as [[contact|]|[msg|msg]];
            injection Hc as _ ->; (split; [reflexivity|]); calls_known; reflexivity.
        * injection Hc as _ ->. split; [reflexivity|]. calls_known. reflexivity.
      + injection Hc as _ ->. split; [reflexivity|]. calls_known. reflexivity. }
  split; [|exact Hw1].
  unfold _sync_single_order, _create_order_in_xero.
  unfold order_to_invoice, db_get_mapping, db_upsert_mapping, db_clear_error,
    new_SyncMapping, find_invoice_by_reference, create_invoice,
    except_XeroAPIError, bind, ret, raise, read_db, write_db, utcnow, remote_call.
  simpl. rewrite Hm. simpl.
  destruct (fetch_invoice_by_reference remote (log w) _)
    as [[existing|]|[msg|msg]]; try contradiction; simpl;
    rewrite Hcontact; destruct Hr as [-> | ->]; reflexivity.
Qed.

End Orders.


Ltac few_writes :=
  unfold writes_since; calls_known; simpl;
  repeat split; intros; try reflexivity; try discriminate; try lia.

Section Writes.

Variable remote : Remote.
Variable float_accepts : string -> bool.
Variable discount_positive : string -> bool.
Variable self : SyncEngine.

Lemma customer_writes c w r w' :
  _sync_single_customer remote self c w = (r, w') ->
  (List.length (List.filter is_create (calls_since w w')) <= 1)%nat /\
  (List.length (writes_since w w') <= 1)%nat /\
  (forall m,
      Database.get_mapping (db w) (Py.str_of_int (ShopifyCustomer.id c)) = Some m ->
      List.filter is_create (calls_since w w') = []).
Proof.
  intros H. unfold_customer. unfold_monad. simpl in H.
  repeat break_hyp.
  all: few_writes.
Qed.

Lemma product_writes p w r w' :
  _sync_single_product remote float_accepts self p w = (r, w') ->
  (List.length (List.filter is_create (calls_since w w')) <= 1)%nat /\
  (List.length (writes_since w w') <= 2)%nat.
Proof.
  intros H. unfold_product. unfold_monad. simpl in H.
  repeat break_hyp.
  all: few_writes.
Qed.

Lemma order_writes o gl w r w' :
  _sync_single_order remote float_accepts discount_positive self o gl w = (r, w') ->
  (List.length (List.filter is_create (calls_since w w')) <= 1)%nat /\
  (List.length (writes_since w w') <= 1)%nat /\
  List.filter is_update (calls_since w w') = [] /\
  (forall m,
      Database.get_mapping (db w) (Py.str_of_int (ShopifyOrder.id o)) = Some m ->
      calls_since w w' = []).
Proof.
  intros H. unfold_order. unfold_monad. simpl in H.
  repeat break_hyp.
  all: few_writes.
Qed.

(** X23. A pass over one entity creates at most one record at the
    destination and writes at most once, or twice for a product (the
    archiving of an item and the creation of its successor).  Over a mapped
    customer or order it creates nothing, and over an order it never
    updates anything. *)
Theorem pass_writes_are_bounded (sku_to_gl_code : gmap string string) (e : entity)
    (w : World) (r : outcome action_result) (w' : World) :
  sync_single remote float_accepts discount_positive self sku_to_gl_code e w =
    (r, w') ->
  (List.length (List.filter is_create (calls_since w w')) <= 1)%nat /\
  (List.length (writes_since w w') <= if recreates e then 2 else 1)%nat /\
  (forall m, recreates e = false ->
     Database.get_mapping (db w) (source_id e) = Some m ->
     List.filter is_create (calls_since w w') = []) /\
  (forall o, e = Order o -> List.filter is_update (calls_since w w') = []).
Proof.
  intros H. destruct e as [c|p|o]; simpl in H; simpl recreates; simpl source_id.
  - destruct (customer_writes _ _ _ _ H) as [H1 [H2 H3]].
    split; [exact H1|]. split; [exact H2|]. split; [|discriminate].
    intros m _ Hm. eapply H3, Hm.
  - destruct (product_writes _ _ _ _ H) as [H1 H2].
    split; [exact H1|]. split; [exact H2|]. split; discriminate.
  - destruct (order_writes _ _ _ _ _ H) as [H1 [H2 [H3 H4]]].
    split; [exact H1|]. split; [exact H2|]. split.
    + intros m _ Hm. rewrite (H4 m Hm). reflexivity.
    + intros _ _. exact H3.
Qed.

Ltac first_call :=
  eexists; split;
  [ calls_known;
    first [ rewrite <- ?app_assoc; simpl; reflexivity | symmetry; apply app_nil_r ]
  | simpl; first [ eexists; reflexivity | repeat constructor ] ].

(** X22. The pass over an entity that has no mapping starts, after the
    marketing step, with the lookup by natural key (email, item code,
    invoice reference): nothing is created before the destination was
    searched.  Only an entity without such a key, a customer without email
    or a product that converts to no item, skips the lookup, and then the
    pass makes no call other than a creation. *)
Theorem new_entity_is_looked_up_first (sku_to_gl_code : gmap string string)
    (e : entity) (w : World) (r : outcome action_result) (w' : World) :
  Database.get_mapping (db w) (source_id e) = None ->
  sync_single remote float_accepts discount_positive self sku_to_gl_code e w =
    (r, w') ->
  exists rest,
    calls_since w w' = (marketing_calls self e ++ rest)%list /\
    match lookup_call float_accepts e with
    | Some k => exists rest', rest = k :: rest'
    | None => Forall (fun k => is_create k = true) rest
    end.
Proof.
  intros Hm H. destruct e as [c|p|o]; simpl in H, Hm; cbn [lookup_call].
  - rewrite new_customer_dispatch in H by exact Hm.
    remember (marketing_calls self (Customer c)) as mk eqn:Emk. clear Emk.
    unfold _create_customer_in_xero, create_new_contact in H. unfold_monad.
    destruct (Py.truthy_opt (ShopifyCustomer.email c)) eqn:He.
    + pose proof (opt_or_of_truthy _ He) as Ht.
      simpl in H. rewrite Ht in H. simpl in H.
      repeat break_hyp.
      all: first_call.
    + simpl in H. repeat break_hyp.
      all: first_call.
  - unfold marketing_calls. cbn [app].
    destruct (shopify_product_to_xero_item float_accepts p) as [[item|]|err] eqn:Hi.
    + rewrite (new_product_dispatch _ _ _ _ _ _ Hm Hi) in H.
      pose proof (converted_item_code _ _ _ Hi) as Ht.
      unfold _create_product_in_xero, create_new_item in H. unfold_monad.
      simpl in H. rewrite Ht in H. simpl in H.
      repeat break_hyp.
      all: first_call.
    + unfold _sync_single_product in H. unfold_monad. rewrite Hi in H. simpl in H.
      injection H as _ <-. first_call.
    + unfold _sync_single_product in H. unfold_monad. rewrite Hi in H. simpl in H.
      injection H as _ <-. first_call.
  - unfold marketing_calls. cbn [app].
    rewrite new_order_dispatch in H by exact Hm.
    unfold _create_order_in_xero, _get_customer_contact_id in H. unfold_monad.
    simpl in H.
    repeat break_hyp.
    all: first_call.
Qed.

(** X24. A pass over one entity leaves the mapping rows and the error rows
    of every other source id as they were, adds no error row, leaves the
    run history alone, and reports one of the three actions "created",
    "updated" and "skipped". *)
Theorem pass_touches_only_its_rows (sku_to_gl_code : gmap string string)
    (e : entity) (w : World) (r : outcome action_result) (w' : World) :
  sync_single remote float_accepts discount_positive self sku_to_gl_code e w =
    (r, w') ->
  (forall k, k <> source_id e ->
     Database.get_mapping (db w') k = Database.get_mapping (db w) k) /\
  (forall entity_type k, k <> source_id e ->
     ErrorTable.rows_for (db w') entity_type k =
     ErrorTable.rows_for (db w) entity_type k) /\
  (forall e', In e' (Database.sync_errors (db w')) ->
              In e' (Database.sync_errors (db w))) /\
  Database.sync_history (db w') = Database.sync_history (db w) /\
  (forall action error, r = Ok (action, error) -> known_action action).
Proof.
  intros H.
  assert (Hf : own_row_only (source_id e) (db w) (db w') /\
               forall action error, r = Ok (action, error) -> known_action action).
  { destruct e as [c|p|o]; simpl in H.
    - destruct (customer_pass_facts _ _ _ _ _ _ H) as [Ho [_ Ha]]. auto.
    - destruct (product_pass_facts _ _ _ _ _ _ _ H) as [Ho [_ Ha]]. auto.
    - destruct (order_pass_facts _ _ _ _ _ _ _ _ _ H) as [Ho [_ Ha]]. auto. }
  destruct Hf as [[Hother [_ [He [_ Hh]]]] Ha].
  split; [exact Hother|]. split; [|split; [|split; [exact Hh|exact Ha]]].
  - intros et k Hk. unfold ErrorTable.rows_for. destruct He as [->| ->]; [reflexivity|].
    unfold Database.clear_error. cbn [fst Database.sync_errors Database.with_errors].
    induction (Database.sync_errors (db w)) as [|x l IH]; [reflexivity|].
    simpl. destruct (String.eqb (SyncError.shopify_id x) (source_id e)) eqn:E; simpl.
    + apply String.eqb_eq in E. unfold Database.error_matches at 2.
      replace (String.eqb (SyncError.shopify_id x) k) with false.
      * rewrite andb_false_r. exact IH.
      * symmetry. apply String.eqb_neq. congruence.
    + rewrite IH. reflexivity.
  - intros e' Hin. destruct He as [He|He]; rewrite He in Hin; [exact Hin|].
    unfold Database.clear_error in Hin.
    cbn [fst Database.sync_errors Database.with_errors] in Hin.
    apply filter_In in Hin as [Hin _]. exact Hin.
Qed.

End Writes.

(* --------------------------------------------------------------------- *)
(** *** The passes on the sample data *)
(* --------------------------------------------------------------------- *)

Lemma mapped_customer_is_updated_witness :
  let w := Scenario.mapped "1" "contact-1" "customer" in
  exists w',
    _sync_single_customer Sample.quiet Sample.live Sample.customer w =
      (Ok ("updated", None), w') /\
    log w' =
      [Xero_update_contact
         (XeroContact.with_ContactID
            (shopify_customer_to_xero_contact Sample.customer) (Some "contact-1"))] /\
    Database.get_mapping (db w') "1" =
      Some (SyncMapping.Build "1" "contact-1" "customer"
              (Some (clock Sample.quiet 0)) None
              (Some (calculate_customer_checksum Sample.customer))).
Proof.
  intros w.
  destruct (mapped_customer_is_updated Sample.quiet Sample.live Sample.customer w
              (SyncMapping.Build "1" "contact-1" "customer" (Some 500) None
                 (Some "stale"))
              eq_refl eq_refl ltac:(vm_compute; discriminate) ltac:(discriminate))
    as [w' [H1 [H2 [H3 _]]]].
  exists w'. split; [exact H1|]. split; [exact H2|exact H3].
Defined.

Lemma mapped_product_is_updated_witness :
  let w := Scenario.mapped "2" "item-1" "product" in
  let item :=
    XeroItem.Build None "LAV-1" "Lavender Melt" (Some "Lavender Melt") true true in
  exists w',
    _sync_single_product Sample.quiet Sample.float_accepts Sample.live
      Sample.product w = (Ok ("updated", None), w') /\
    log w' =
      [Xero_get_item_by_id "item-1";
       Xero_update_item (XeroItem.with_ItemID item (Some "item-1"))] /\
    Database.get_mapping (db w') "2" =
      Some (SyncMapping.Build "2" "item-1" "product"
              (Some (clock Sample.quiet 0)) None
              (Some (calculate_product_checksum Sample.product))).
Proof.
  intros w item.
  destruct (mapped_product_is_updated Sample.quiet Sample.float_accepts Sample.live
              Sample.product item w
              (SyncMapping.Build "2" "item-1" "product" (Some 500) None
                 (Some "stale"))
              eq_refl eq_refl eq_refl ltac:(vm_compute; discriminate)
              ltac:(discriminate) I)
    as [w' [H1 [H2 [H3 _]]]].
  exists w'. split; [exact H1|]. split; [exact H2|exact H3].
Defined.

Lemma sku_change_archives_and_recreates_witness :
  let w := Scenario.mapped "2" "item-1" "product" in
  let item :=
    XeroItem.Build None "LAV-1" "Lavender Melt" (Some "Lavender Melt") true true in
  let archived :=
    XeroItem.Build (Some "item-1") "OLD-1" "[ARCHIVED] Lavender Melt"
      (Some "Lavender Melt") false false in
  (exists w',
     _sync_single_product Scenario.restocked Sample.float_accepts Sample.live
       Sample.product w = (Ok ("created", None), w') /\
     log w' =
       [Xero_get_item_by_id "item-1"; Xero_update_item archived;
        Xero_create_item item] /\
     Database.get_mapping (db w') "2" =
       Some (SyncMapping.Build "2" "item-new" "product"
               (Some (clock Scenario.restocked 0)) None
               (Some (calculate_product_checksum Sample.product)))) /\
  _sync_single_product Scenario.restocked Sample.float_accepts Sample.dry
    Sample.product w =
  (Ok ("updated", None), BuildWorld (db w) [Xero_get_item_by_id "item-1"] 0).
Proof.
  intros w item archived.
  assert (Hc : SyncMapping.checksum
                 (SyncMapping.Build "2" "item-1" "product" (Some 500) None
                    (Some "stale"))
               <> Some (calculate_product_checksum Sample.product))
    by (vm_compute; discriminate).
  split.
  - destruct (sku_change_archives_and_recreates Scenario.restocked
                Sample.float_accepts Sample.live Sample.product item w
                (SyncMapping.Build "2" "item-1" "product" (Some 500) None
                   (Some "stale"))
                (XeroItem.Build (Some "item-1") "OLD-1" "Lavender Melt"
                   (Some "Lavender Melt") true true)
                "item-1"
                eq_refl eq_refl Hc ltac:(discriminate) eq_refl
                ltac:(discriminate) eq_refl ltac:(discriminate))
      as [w' [H1 [H2 [H3 _]]]].
    exists w'. split; [exact H1|]. split; [exact H2|exact H3].
  - exact (sku_change_archives_and_recreates Scenario.restocked
             Sample.float_accepts Sample.dry Sample.product item w
             (SyncMapping.Build "2" "item-1" "product" (Some 500) None
                (Some "stale"))
             (XeroItem.Build (Some "item-1") "OLD-1" "Lavender Melt"
                (Some "Lavender Melt") true true)
             "item-1"
             eq_refl eq_refl Hc ltac:(discriminate) eq_refl
             ltac:(discriminate) eq_refl ltac:(discriminate)).
Defined.

Lemma order_of_mapped_customer_is_invoiced_witness :
  let w := Scenario.mapped "1" "contact-1" "customer" in
  let invoice :=
    XeroInvoice.Build None (Some "SHOP-1001") "ACCREC" "AUTHORISED"
      (Some "contact-1")
      [XeroLineItem.Build "Lavender Melt" 2 "200" (Some "LAV-1") "OUTPUT2"]
      (Some 900) (Some 900) "GBP" in
  exists w' synced_at,
    _sync_single_order Sample.quiet Sample.float_accepts Sample.discount_positive
      Sample.live Sample.order ∅ w = (Ok ("created", None), w') /\
    calls_since w w' =
      [Xero_find_invoice_by_reference "SHOP-1001"; Xero_create_invoice invoice] /\
    Database.get_mapping (db w') "3" =
      Some (SyncMapping.Build "3" "invoice-new" "order" (Some synced_at) None
              (Some (calculate_order_checksum Sample.order))).
Proof.
  intros w invoice.
  destruct (order_of_mapped_customer_is_invoiced Sample.quiet Sample.float_accepts
              Sample.discount_positive Sample.live Sample.order ∅ w
              (SyncMapping.Build "1" "contact-1" "customer" (Some 500) None
                 (Some "stale"))
              invoice
              (XeroInvoice.Build (Some "invoice-new") (Some "SHOP-1001") "ACCREC"
                 "AUTHORISED" (Some "contact-1")
                 [XeroLineItem.Build "Lavender Melt" 2 "200" (Some "LAV-1")
                    "OUTPUT2"]
                 (Some 900) (Some 900) "GBP")
              "invoice-new"
              eq_refl eq_refl I eq_refl ltac:(discriminate) eq_refl eq_refl eq_refl)
    as [w' [synced_at [H1 [H2 [_ H3]]]]].
  exists w', synced_at. split; [exact H1|]. split; [exact H2|exact H3].
Defined.

Lemma order_without_contact_is_skipped_witness :
  let asked :=
    BuildWorld Database.empty
      [Xero_find_invoice_by_reference "SHOP-1001";
       Xero_find_contact_by_email "a@x.com"] 0 in
  _sync_single_order Sample.quiet Sample.float_accepts Sample.discount_positive
    Sample.live Sample.order ∅ Sample.start =
    (Ok ("skipped", Some "No Xero contact found for order 3"), asked) /\
  db asked = db Sample.start /\
  List.filter is_mutation (calls_since Sample.start asked) = [].
Proof.
  intros asked.
  exact (order_without_contact_is_skipped Sample.quiet Sample.float_accepts
           Sample.discount_positive Sample.live Sample.order ∅ Sample.start
           (Ok None) asked eq_refl I eq_refl (or_introl eq_refl)).
Defined.

Lemma new_entity_is_looked_up_first_witness :
  let out :=
    sync_single Sample.quiet Sample.float_accepts Sample.discount_positive
      Sample.live ∅ (Customer Sample.customer) Sample.start in
  fst out = Ok ("created", None) /\
  exists rest,
    calls_since Sample.start (snd out) = ([] ++ rest)%list /\
    exists rest', rest = Xero_find_contact_by_email "a@x.com" :: rest'.
Proof.
  intros out.
  assert (Hout : sync_single Sample.quiet Sample.float_accepts
                   Sample.discount_positive Sample.live ∅ (Customer Sample.customer)
                   Sample.start = (fst out, snd out))
    by (subst out; apply surjective_pairing).
  pose proof (new_entity_is_looked_up_first Sample.quiet Sample.float_accepts
                Sample.discount_positive Sample.live ∅ (Customer Sample.customer)
                Sample.start (fst out) (snd out) eq_refl Hout) as H.
  split; [vm_compute; reflexivity|].
  clearbody out. exact H.
Defined.

Lemma pass_writes_are_bounded_witness :
  let e := Product Sample.product in
  let w := Scenario.mapped "2" "item-1" "product" in
  let out :=
    sync_single Scenario.restocked Sample.float_accepts Sample.discount_positive
      Sample.live ∅ e w in
  List.length (writes_since w (snd out)) = 2%nat /\
  (List.length (List.filter is_create (calls_since w (snd out))) <= 1)%nat /\
  (List.length (writes_since w (snd out)) <= 2)%nat.
Proof.
  intros e w out.
  assert (Hout : sync_single Scenario.restocked Sample.float_accepts
                   Sample.discount_positive Sample.live ∅ e w = (fst out, snd out))
    by (subst out; apply surjective_pairing).
  pose proof (pass_writes_are_bounded Scenario.restocked Sample.float_accepts
                Sample.discount_positive Sample.live ∅ e w (fst out) (snd out)
                Hout) as H.
  split; [vm_compute; reflexivity|].
  clearbody out.
  split; [exact (proj1 H)|exact (proj1 (proj2 H))].
Defined.

Lemma pass_touches_only_its_rows_witness :
  let w := Sample.order_mapped in
  let out :=
    sync_single Sample.quiet Sample.float_accepts Sample.discount_positive
      Sample.live ∅ (Order Sample.order) w in
  fst out = Ok ("skipped", None) /\
  Database.get_mapping (db (snd out)) "1" = Database.get_mapping (db w) "1" /\
  Database.sync_history (db (snd out)) = Database.sync_history (db w).
Proof.
  intros w out.
  assert (Hout : sync_single Sample.quiet Sample.float_accepts
                   Sample.discount_positive Sample.live ∅ (Order Sample.order) w =
                 (fst out, snd out))
    by (subst out; apply surjective_pairing).
  pose proof (pass_touches_only_its_rows Sample.quiet Sample.float_accepts
                Sample.discount_positive Sample.live ∅ (Order Sample.order) w
                (fst out) (snd out) Hout) as H.
  split; [vm_compute; reflexivity|].
  clearbody out.
  split; [apply (proj1 H); discriminate|exact (proj1 (proj2 (proj2 (proj2 H))))].
Defined.

(* ===================================================================== *)
(** ** The phases and the run *)
(* ===================================================================== *)


Section Lifting.

Variable remote : Remote.
Variable float_accepts : string -> bool.
Variable discount_positive : string -> bool.
Variable self : SyncEngine.

Variable R : World -> World -> Prop.
Hypothesis R_refl : forall w, R w w.
Hypothesis R_trans : forall w1 w2 w3, R w1 w2 -> R w2 w3 -> R w1 w3.
Hypothesis R_record : forall w entity_type shopify_id msg,
    R w (BuildWorld
           (Database.record_error (db w) entity_type shopify_id msg
              (clock remote (ticks w)))
           (log w) (S (ticks w))).
Hypothesis R_call : forall w c,
    is_run_call c = false -> R w (BuildWorld (db w) (log w ++ [c]) (ticks w)).
Hypothesis R_customer : forall c w r w',
    _sync_single_customer remote self c w = (r, w') -> R w w'.
Hypothesis R_product : forall p w r w',
    _sync_single_product remote float_accepts self p w = (r, w') -> R w w'.
Hypothesis R_order : forall o gl w r w',
    _sync_single_order remote float_accepts discount_positive self o gl w = (r, w') ->
    R w w'.

Lemma tally_count result action :
  known_action action -> tally (count_action result action) = tally result + 1.
Proof.
  intros [ -> | [ -> | -> ] ]; unfold tally, count_action; simpl; lia.
Qed.

Lemma tally_error result msg : tally (append_error result msg) = tally result + 1.
Proof.
  unfold tally, append_error. simpl. rewrite length_app. simpl. lia.
Qed.

Lemma success_count result action :
  success (count_action result action) = success result.
Proof.
  unfold count_action. repeat destruct (String.eqb _ _); reflexivity.
Qed.

Lemma sync_one_lifts {E : Type} et label (id_of : E -> Z)
    (f : E -> M action_result) result x w :
  (forall r w', f x w = (r, w') ->
     R w w' /\ forall action error, r = Ok (action, error) -> known_action action) ->
  exists result' w',
    sync_one remote et label id_of f result x w = (Ok result', w') /\
    R w w' /\ tally result' = tally result + 1 /\ success result' = success result.
Proof.
  intros Hf. unfold sync_one. unfold_monad.
  destruct (f x w) as [r w1] eqn:Hfx. destruct (Hf _ _ eq_refl) as [HR Ha].
  destruct r as [[a err]|e]; simpl.
  - destruct (Py.truthy_opt err); simpl.
    + do 2 eexists. split; [reflexivity|]. split; [|split].
      * eapply R_trans; [exact HR|apply R_record].
      * apply tally_error.
      * reflexivity.
    + do 2 eexists. split; [reflexivity|]. split; [exact HR|]. split.
      * apply tally_count. eapply Ha. reflexivity.
      * apply success_count.
  - do 2 eexists. split; [reflexivity|]. split; [|split].
    + eapply R_trans; [exact HR|apply R_record].
    + apply tally_error.
    + reflexivity.
Qed.

Lemma for_each_lifts {E : Type} (body : SyncResult -> E -> M SyncResult)
    (entities : list E) :
  (forall result x w, exists result' w',
      body result x w = (Ok result', w') /\ R w w' /\
      tally result' = tally result + 1 /\ success result' = success result) ->
  forall result w, exists result' w',
    for_each body result entities w = (Ok result', w') /\ R w w' /\
    tally result' = tally result + Z.of_nat (List.length entities) /\
    success result' = success result.
Proof.
  intros Hbody. induction entities as [|x rest IH]; intros result w.
  - simpl. do 2 eexists. split; [reflexivity|]. split; [apply R_refl|].
    split; [lia|reflexivity].
  - cbn [for_each]. unfold bind.
    destruct (Hbody result x w) as [r1 [w1 [H1 [HR1 [Ht1 Hs1]]]]]. rewrite H1.
    destruct (IH r1 w1) as [r2 [w2 [H2 [HR2 [Ht2 Hs2]]]]].
    exists r2, w2. split; [exact H2|]. split; [eapply R_trans; eauto|].
    split; [|congruence].
    rewrite Ht2, Ht1. cbn [List.length]. lia.
Qed.

Lemma sync_customers_lifts force w :
  exists result w',
    sync_customers remote self force w = (Ok result, w') /\ R w w' /\
    phase_report
      (fetch_all_customers remote (log w)
         (updated_at_min_of force (Database.get_last_successful_sync (db w))))
      result.
Proof.
  unfold sync_customers. unfold_monad. simpl.
  destruct (fetch_all_customers remote (log w) _) as [customers|e]; simpl.
  - edestruct (for_each_lifts
                 (sync_one remote "customer" "Customer" ShopifyCustomer.id
                    (_sync_single_customer remote self)) customers)
      as [r [w' [Hr [HR [Ht Hs]]]]].
    { intros result x w0. apply sync_one_lifts. intros r0 w0' H0. split.
      - eapply R_customer, H0.
      - eapply (customer_pass_facts _ _ _ _ _ _ H0). }
    rewrite Hr. do 2 eexists. split; [reflexivity|]. split.
    + eapply R_trans; [|exact HR]. apply R_call. reflexivity.
    + split; [exact Hs|]. rewrite Ht. reflexivity.
  - do 2 eexists. split; [reflexivity|]. split; [|reflexivity].
    apply R_call. reflexivity.
Qed.

Lemma sync_products_lifts force w :
  exists result w',
    sync_products remote float_accepts self force w = (Ok result, w') /\ R w w' /\
    phase_report
      (fetch_all_products remote (log w)
         (updated_at_min_of force (Database.get_last_successful_sync (db w))))
      result.
Proof.
  unfold sync_products. unfold_monad. simpl.
  destruct (fetch_all_products remote (log w) _) as [products|e]; simpl.
  - edestruct (for_each_lifts
                 (sync_one remote "product" "Product" ShopifyProduct.id
                    (_sync_single_product remote float_accepts self)) products)
      as [r [w' [Hr [HR [Ht Hs]]]]].
    { intros result x w0. apply sync_one_lifts. intros r0 w0' H0. split.
      - eapply R_product, H0.
      - eapply (product_pass_facts _ _ _ _ _ _ _ H0). }
    rewrite Hr. do 2 eexists. split; [reflexivity|]. split.
    + eapply R_trans; [|exact HR]. apply R_call. reflexivity.
    + split; [exact Hs|]. rewrite Ht. reflexivity.
  - do 2 eexists. split; [reflexivity|]. split; [|reflexivity].
    apply R_call. reflexivity.
Qed.

Lemma sync_orders_lifts force w :
  exists result w',
    sync_orders remote float_accepts discount_positive self force w =
      (Ok result, w') /\ R w w' /\
    phase_report
      (fetch_all_orders remote (log w)
         (updated_at_min_of force (Database.get_last_successful_sync (db w))))
      result.
Proof.
  unfold sync_orders, _build_sku_gl_mapping. unfold_monad. simpl.
  destruct (fetch_all_orders remote (log w) _) as [orders|e]; simpl.
  - match goal with
    | |- context [for_each ?body new_result orders ?w0] =>
        edestruct (for_each_lifts body orders) as [r [w' [Hr [HR [Ht Hs]]]]];
        [| rewrite Hr ]
    end.
    { intros result x w0. apply sync_one_lifts. intros r0 w0' H0. split.
      - eapply R_order, H0.
      - eapply (order_pass_facts _ _ _ _ _ _ _ _ _ H0). }
    do 2 eexists. split; [reflexivity|]. split.
    + eapply R_trans; [|exact HR]. apply R_call. reflexivity.
    + split; [exact Hs|]. rewrite Ht. reflexivity.
  - do 2 eexists. split; [reflexivity|]. split; [|reflexivity].
    apply R_call. reflexivity.
Qed.

(** The run, once its row is open: three phases, then the row is closed. *)
Lemma run_full_sync_lifts run_id force w d1 :
  Database.start_sync_run (db w) run_id (clock remote (S (ticks w))) = Ok d1 ->
  exists rc rp ro w1 w2 w3,
    let stats :=
      BuildSyncStats run_id (clock remote (ticks w)) (Some (clock remote (ticks w3)))
        (Some rc) (Some rp) (Some ro) in
    run_full_sync remote float_accepts discount_positive self run_id force w =
      (Ok stats, run_closed remote stats w3) /\
    sync_customers remote self force (run_opened run_id d1 w) = (Ok rc, w1) /\
    sync_products remote float_accepts self force w1 = (Ok rp, w2) /\
    sync_orders remote float_accepts discount_positive self force w2 = (Ok ro, w3) /\
    R (run_opened run_id d1 w) w1 /\ R w1 w2 /\ R w2 w3.
Proof.
  intros Hstart.
  destruct (sync_customers_lifts force (run_opened run_id d1 w))
    as [rc [w1 [Hc [R1 _]]]].
  destruct (sync_products_lifts force w1) as [rp [w2 [Hp [R2 _]]]].
  destruct (sync_orders_lifts force w2) as [ro [w3 [Ho [R3 _]]]].
  exists rc, rp, ro, w1, w2, w3. cbv zeta.
  split; [|auto 10].
  unfold run_full_sync, db_start_sync_run, db_complete_sync_run.
  unfold_monad. simpl. rewrite Hstart. simpl.
  unfold run_opened in Hc. rewrite Hc. simpl. rewrite Hp. simpl. rewrite Ho. simpl.
  reflexivity.
Qed.

End Lifting.


Lemma mappings_kept_refl d : mappings_kept d d.
Proof. intros k m H. eauto. Qed.

Lemma mappings_kept_trans d1 d2 d3 :
  mappings_kept d1 d2 -> mappings_kept d2 d3 -> mappings_kept d1 d3.
Proof.
  intros H12 H23 k m Hm. destruct (H12 k m Hm) as [m2 [Hm2 Ht2]].
  destruct (H23 k m2 Hm2) as [m3 [Hm3 Ht3]]. exists m3. split; [exact Hm3|congruence].
Qed.

Lemma mappings_kept_same d d' :
  Database.sync_mappings d' = Database.sync_mappings d -> mappings_kept d d'.
Proof.
  intros H k m Hm. exists m. split; [|reflexivity].
  unfold Database.get_mapping in *. rewrite H. exact Hm.
Qed.

Lemma mappings_record_error d et sid msg now :
  Database.sync_mappings (Database.record_error d et sid msg now) =
  Database.sync_mappings d.
Proof. unfold Database.record_error. destruct (Database.find_error _ _ _); reflexivity. Qed.

Lemma own_row_keeps_mappings sid d d' : own_row_only sid d d' -> mappings_kept d d'.
Proof.
  intros [Hother [Hown _]] k m Hm.
  destruct (String.eqb k sid) eqn:E.
  - apply String.eqb_eq in E. subst k. apply Hown, Hm.
  - apply String.eqb_neq in E. exists m. rewrite Hother by exact E. auto.
Qed.

Lemma ok_same_errors d d' :
  Database.sync_errors d' = Database.sync_errors d ->
  Database.sync_errors_seq d' = Database.sync_errors_seq d ->
  ErrorTable.ok d -> ErrorTable.ok d'.
Proof.
  intros He Hs [H1 H2 H3]. constructor.
  - rewrite He, Hs. exact H1.
  - rewrite He. exact H2.
  - intros et sid. specialize (H3 et sid). unfold ErrorTable.rows_for in *.
    rewrite He. exact H3.
Qed.

Lemma own_row_keeps_ok sid d d' :
  own_row_only sid d d' -> ErrorTable.ok d -> ErrorTable.ok d'.
Proof.
  intros [_ [_ [[He|He] [Hs _]]]] Hok.
  - eapply ok_same_errors; eassumption.
  - apply (ok_same_errors (fst (Database.clear_error d sid))).
    + exact He.
    + exact Hs.
    + apply ErrorTableFacts.clear_error_ok, Hok.
Qed.

Lemma run_keeps_refl w : run_keeps w w.
Proof. split; [apply inside_run_refl|]. split; [apply mappings_kept_refl|auto]. Qed.

Lemma run_keeps_trans w1 w2 w3 : run_keeps w1 w2 -> run_keeps w2 w3 -> run_keeps w1 w3.
Proof.
  intros [I1 [M1 [O1 T1]]] [I2 [M2 [O2 T2]]]. split; [eapply inside_run_trans; eauto|].
  split; [eapply mappings_kept_trans; eauto|]. split; [auto|lia].
Qed.

Section RunKeeps.

Variable remote : Remote.
Variable float_accepts : string -> bool.
Variable discount_positive : string -> bool.
Variable self : SyncEngine.

Lemma run_keeps_record w entity_type shopify_id msg :
  run_keeps w
    (BuildWorld
       (Database.record_error (db w) entity_type shopify_id msg
          (clock remote (ticks w)))
       (log w) (S (ticks w))).
Proof.
  split; [|split; [|split]].
  - split; [exists []; split; [symmetry; apply app_nil_r|constructor]|].
    apply history_record_error.
  - apply mappings_kept_same, mappings_record_error.
  - apply ErrorTableFacts.record_error_ok.
  - simpl. lia.
Qed.

Lemma run_keeps_call w c :
  is_run_call c = false -> run_keeps w (BuildWorld (db w) (log w ++ [c]) (ticks w)).
Proof.
  intros Hc. split; [|split; [apply mappings_kept_refl|auto]].
  split; [|reflexivity]. exists [c]. split; [reflexivity|]. constructor; [exact Hc|constructor].
Qed.

Lemma run_keeps_customer c w r w' :
  _sync_single_customer remote self c w = (r, w') -> run_keeps w w'.
Proof.
  intros H. destruct (customer_pass_facts _ _ _ _ _ _ H) as [Ho [Ht _]].
  split; [eapply customer_inside, H|].
  split; [eapply own_row_keeps_mappings, Ho|].
  split; [eapply own_row_keeps_ok, Ho|exact Ht].
Qed.

Lemma run_keeps_product p w r w' :
  _sync_single_product remote float_accepts self p w = (r, w') -> run_keeps w w'.
Proof.
  intros H. destruct (product_pass_facts _ _ _ _ _ _ _ H) as [Ho [Ht _]].
  split; [eapply product_inside, H|].
  split; [eapply own_row_keeps_mappings, Ho|].
  split; [eapply own_row_keeps_ok, Ho|exact Ht].
Qed.

Lemma run_keeps_order o gl w r w' :
  _sync_single_order remote float_accepts discount_positive self o gl w = (r, w') ->
  run_keeps w w'.
Proof.
  intros H. destruct (order_pass_facts _ _ _ _ _ _ _ _ _ H) as [Ho [Ht _]].
  split; [eapply order_inside, H|].
  split; [eapply own_row_keeps_mappings, Ho|].
  split; [eapply own_row_keeps_ok, Ho|exact Ht].
Qed.

(** The run, with what its phases keep. *)
Lemma run_full_sync_keeps run_id force w d1 :
  Database.start_sync_run (db w) run_id (clock remote (S (ticks w))) = Ok d1 ->
  exists rc rp ro w3,
    let stats :=
      BuildSyncStats run_id (clock remote (ticks w)) (Some (clock remote (ticks w3)))
        (Some rc) (Some rp) (Some ro) in
    run_full_sync remote float_accepts discount_positive self run_id force w =
      (Ok stats, run_closed remote stats w3) /\
    run_keeps (run_opened run_id d1 w) w3.
Proof.
  intros Hstart.
  destruct (run_full_sync_lifts remote float_accepts discount_positive self run_keeps
              run_keeps_refl run_keeps_trans run_keeps_record run_keeps_call
              run_keeps_customer run_keeps_product run_keeps_order
              run_id force w d1 Hstart)
    as [rc [rp [ro [w1 [w2 [w3 [Hrun [_ [_ [_ [K1 [K2 K3]]]]]]]]]]]].
  exists rc, rp, ro, w3. split; [exact Hrun|].
  eapply run_keeps_trans; [exact K1|]. eapply run_keeps_trans; eauto.
Qed.

End RunKeeps.

(** The history after the row opened by [start_sync_run] is closed. *)
Lemma closed_history d run_id started d1 status n errs now :
  Database.start_sync_run d run_id started = Ok d1 ->
  Database.sync_history (Database.complete_sync_run d1 run_id status n errs now) =
  (Database.sync_history d ++
   [SyncHistoryEntry.Build run_id started (Some now) status n errs])%list.
Proof.
  intros H. apply start_sync_run_ok in H as [Hn ->].
  unfold Database.complete_sync_run.
  cbn [Database.sync_history Database.with_history].
  rewrite map_app, complete_rows_other by exact Hn.
  simpl. rewrite String.eqb_refl. reflexivity.
Qed.

Lemma last_successful_after_failure rows h :
  SyncHistoryEntry.status h <> "success" ->
  forall d d', Database.sync_history d = rows ->
    Database.sync_history d' = (rows ++ [h])%list ->
    Database.get_last_successful_sync d' = Database.get_last_successful_sync d.
Proof.
  intros Hs d d' Hd Hd'. unfold Database.get_last_successful_sync.
  rewrite Hd', Hd, fold_left_app. simpl.
  apply String.eqb_neq in Hs. rewrite Hs. reflexivity.
Qed.

Lemma last_successful_after_success d d' h t :
  SyncHistoryEntry.status h = "success" ->
  SyncHistoryEntry.completed_at h = Some t ->
  Database.sync_history d' = (Database.sync_history d ++ [h])%list ->
  (forall old, In old (Database.sync_history d) ->
     SyncHistoryEntry.status old = "success" ->
     Database.completed_before (SyncHistoryEntry.completed_at old) (Some t) = true) ->
  Database.get_last_successful_sync d' = Some h.
Proof.
  intros Hs Ht Hd' Hold. pose proof (last_successful_is_best d) as Hspec.
  unfold best_so_far in Hspec.
  unfold Database.get_last_successful_sync in *.
  rewrite Hd', fold_left_app. simpl. rewrite Hs. simpl.
  destruct (fold_left _ (Database.sync_history d) None) as [b|]; [|reflexivity].
  destruct Hspec as [Hin [Hbs _]]. rewrite Ht, (Hold b Hin Hbs). reflexivity.
Qed.

Section Run.

Variable remote : Remote.
Variable float_accepts : string -> bool.
Variable discount_positive : string -> bool.
Variable self : SyncEngine.

(** X26. A run under a run id that is new to the history always returns
    its statistics, with a result for each of the three phases, whatever the
    remote systems answer.  It opens its history row once and closes it
    once, and leaves the history extended by exactly that row: completed,
    with the totals of the statistics, and with status "success" exactly
    when the phases reported no error. *)
Theorem run_full_sync_closes_its_row (run_id : string) (force : bool) (w : World)
    (d1 : Database.t) :
  Database.start_sync_run (db w) run_id (clock remote (S (ticks w))) = Ok d1 ->
  exists stats w' rc rp ro closed_at,
    let status := if SyncStats_success stats then "success" else "failed" in
    run_full_sync remote float_accepts discount_positive self run_id force w =
      (Ok stats, w') /\
    customers stats = Some rc /\ products stats = Some rp /\ orders stats = Some ro /\
    List.filter is_run_call (calls_since w w') =
      [Db_start_sync_run run_id;
       Db_complete_sync_run run_id status (SyncStats_total_processed stats)
         (SyncStats_total_errors stats)] /\
    Database.sync_history (db w') =
      (Database.sync_history (db w) ++
       [SyncHistoryEntry.Build run_id (clock remote (S (ticks w))) (Some closed_at)
          status (SyncStats_total_processed stats) (SyncStats_total_errors stats)])%list /\
    (SyncStats_success stats = true <-> SyncStats_total_errors stats = []).
Proof.
  intros Hstart.
  destruct (run_full_sync_keeps remote float_accepts discount_positive self
              run_id force w d1 Hstart)
    as [rc [rp [ro [w3 [Hrun [[[l [Hl Fl]] Hh] _]]]]]].
  cbv zeta in Hrun. eexists. eexists. exists rc, rp, ro, (clock remote (S (ticks w3))).
  cbv zeta. split; [exact Hrun|].
  split; [reflexivity|]. split; [reflexivity|]. split; [reflexivity|].
  split; [|split].
  - erewrite calls_since_intro
      by (unfold run_closed; cbn [log]; rewrite Hl; unfold run_opened; cbn [log];
          rewrite <- !app_assoc; reflexivity).
    simpl. rewrite List.filter_app. simpl.
    replace (List.filter is_run_call l) with (@nil call); [reflexivity|].
    symmetry. clear Hl. induction l as [|c l IH]; [reflexivity|].
    inversion Fl as [|? ? Hc Fl']; subst. simpl. rewrite Hc. apply IH, Fl'.
  - unfold run_opened in Hh. cbn [db] in Hh.
    pose proof (closed_history (db w) run_id (clock remote (S (ticks w))) d1) as Hc.
    unfold run_closed, Database.complete_sync_run in *. simpl in *.
    rewrite Hh. apply Hc, Hstart.
  - unfold SyncStats_success. rewrite bool_decide_eq_true.
    split; [apply length_zero_iff_nil|intros ->; reflexivity].
Qed.

(** X27. What a run does to the starting point of the next incremental
    run.  A run that reports errors leaves the last successful run as it
    was, so the next one fetches from the same time again; a run without
    errors becomes the last successful run, and the next one fetches what
    changed since its completion, provided the clock does not run behind
    the completion of the earlier successful runs. *)
Theorem run_sets_incremental_bound (run_id : string) (force : bool) (w : World)
    (d1 : Database.t) :
  Database.start_sync_run (db w) run_id (clock remote (S (ticks w))) = Ok d1 ->
  exists stats w',
    run_full_sync remote float_accepts discount_positive self run_id force w =
      (Ok stats, w') /\
    (SyncStats_success stats = false ->
     Database.get_last_successful_sync (db w') =
     Database.get_last_successful_sync (db w)) /\
    (SyncStats_success stats = true ->
     (forall old n, In old (Database.sync_history (db w)) ->
        SyncHistoryEntry.status old = "success" -> (ticks w < n)%nat ->
        Database.completed_before (SyncHistoryEntry.completed_at old)
          (Some (clock remote n)) = true) ->
     exists closed_at,
       Database.get_last_successful_sync (db w') =
         Some (SyncHistoryEntry.Build run_id (clock remote (S (ticks w)))
                 (Some closed_at) "success" (SyncStats_total_processed stats) []) /\
       updated_at_min_of false (Database.get_last_successful_sync (db w')) =
         Some closed_at).
Proof.
  intros Hstart.
  destruct (run_full_sync_keeps remote float_accepts discount_positive self
              run_id force w d1 Hstart)
    as [rc [rp [ro [w3 [Hrun [[[l [Hl Fl]] Hh] [_ [_ Ht]]]]]]]].
  cbv zeta in Hrun. eexists. eexists. split; [exact Hrun|].
  unfold run_opened in Hh, Ht. cbn [db ticks] in Hh, Ht.
  pose proof (closed_history (db w) run_id (clock remote (S (ticks w))) d1) as Hc.
  match goal with
  | |- (SyncStats_success ?st = false -> _) /\ _ => set (stats := st)
  end.
  assert (Hhist : forall status,
             (if SyncStats_success stats then "success" else "failed") = status ->
             Database.sync_history (db (run_closed remote stats w3)) =
             (Database.sync_history (db w) ++
              [SyncHistoryEntry.Build run_id (clock remote (S (ticks w)))
                 (Some (clock remote (S (ticks w3)))) status
                 (SyncStats_total_processed stats) (SyncStats_total_errors stats)])%list).
  { intros status <-. unfold run_closed, Database.complete_sync_run in *.
    simpl in *. rewrite Hh. apply Hc, Hstart. }
  split.
  - intros Hs. rewrite Hs in Hhist.
    eapply last_successful_after_failure; [|reflexivity|apply Hhist; reflexivity].
    discriminate.
  - intros Hs Hold. rewrite Hs in Hhist. exists (clock remote (S (ticks w3))).
    assert (He : SyncStats_total_errors stats = []).
    { unfold SyncStats_success in Hs. apply bool_decide_eq_true in Hs.
      apply length_zero_iff_nil, Hs. }
    assert (Hlast : Database.get_last_successful_sync (db (run_closed remote stats w3)) =
                    Some (SyncHistoryEntry.Build run_id (clock remote (S (ticks w)))
                            (Some (clock remote (S (ticks w3)))) "success"
                            (SyncStats_total_processed stats) [])).
    { rewrite <- He.
      eapply last_successful_after_success;
        [reflexivity|reflexivity|apply Hhist; reflexivity|].
      intros old Hin Hsucc. apply Hold; [exact Hin|exact Hsucc|lia]. }
    split; [exact Hlast|]. rewrite Hlast. reflexivity.
Qed.

(** The run from any world, whether or not its row can be opened. *)
Lemma run_full_sync_cases (run_id : string) (force : bool) (w : World) :
  (exists e,
      Database.start_sync_run (db w) run_id (clock remote (S (ticks w))) = Raise e /\
      run_full_sync remote float_accepts discount_positive self run_id force w =
        (Raise e,
         BuildWorld (db w) (log w ++ [Db_start_sync_run run_id]) (S (S (ticks w))))) \/
  (exists d1 stats w3,
      Database.start_sync_run (db w) run_id (clock remote (S (ticks w))) = Ok d1 /\
      run_full_sync remote float_accepts discount_positive self run_id force w =
        (Ok stats, run_closed remote stats w3) /\
      run_keeps (run_opened run_id d1 w) w3).
Proof.
  destruct (Database.start_sync_run (db w) run_id (clock remote (S (ticks w))))
    as [d1|e] eqn:Hstart.
  - right.
    destruct (run_full_sync_keeps remote float_accepts discount_positive self
                run_id force w d1 Hstart) as [rc [rp [ro [w3 [Hrun Hk]]]]].
    cbv zeta in Hrun. eauto 10.
  - left. exists e. split; [reflexivity|].
    unfold run_full_sync, db_start_sync_run. unfold_monad. simpl.
    rewrite Hstart. reflexivity.
Qed.

(** X28. A run under a run id that the history already holds raises before
    any phase starts: its only call is the attempt to open the row, nothing
    is fetched or sent, and the store is left as it was. *)
Theorem run_without_row_does_nothing (run_id : string) (force : bool) (w : World) :
  In run_id (map SyncHistoryEntry.run_id (Database.sync_history (db w))) ->
  exists e w',
    run_full_sync remote float_accepts discount_positive self run_id force w =
      (Raise e, w') /\
    calls_since w w' = [Db_start_sync_run run_id] /\
    db w' = db w.
Proof.
  intros Hin.
  destruct (run_full_sync_cases run_id force w)
    as [[e [Hs Hrun]]|[d1 [stats [w3 [Hs _]]]]].
  - exists e. eexists. split; [exact Hrun|]. split; [|reflexivity].
    apply calls_since_intro. reflexivity.
  - apply start_sync_run_ok in Hs as [Hn _]. contradiction.
Qed.

(** X29. A run never drops a mapping and never changes the entity type of
    one: every source id mapped before the run is mapped after it, under the
    same entity type, whatever the run returned. *)
Theorem run_never_drops_a_mapping (run_id : string) (force : bool) (w : World)
    (r : outcome SyncStats) (w' : World) (k : string) (m : SyncMapping.t) :
  run_full_sync remote float_accepts discount_positive self run_id force w = (r, w') ->
  Database.get_mapping (db w) k = Some m ->
  exists m',
    Database.get_mapping (db w') k = Some m' /\
    SyncMapping.shopify_id m' = k /\
    SyncMapping.entity_type m' = SyncMapping.entity_type m.
Proof.
  intros Hrun Hm.
  assert (Hk : mappings_kept (db w) (db w')).
  { destruct (run_full_sync_cases run_id force w)
      as [[e [Hs Hr]]|[d1 [stats [w3 [Hs [Hr [_ [Hkept _]]]]]]]];
      rewrite Hr in Hrun; injection Hrun as <- <-.
    - apply mappings_kept_refl.
    - apply start_sync_run_ok in Hs as [_ ->].
      eapply mappings_kept_trans; [|eapply mappings_kept_trans; [exact Hkept|]];
        apply mappings_kept_same; reflexivity. }
  destruct (Hk k m Hm) as [m' [Hm' Ht]]. exists m'.
  split; [exact Hm'|]. split; [eapply get_mapping_key, Hm'|exact Ht].
Qed.

(** X30. A run keeps the error table well formed: when it was before the
    run, then after it the ids are still distinct and within the counter and
    no entity has two rows, whatever the remote systems answered. *)
Theorem run_keeps_error_table_ok (run_id : string) (force : bool) (w : World)
    (r : outcome SyncStats) (w' : World) :
  run_full_sync remote float_accepts discount_positive self run_id force w = (r, w') ->
  ErrorTable.ok (db w) -> ErrorTable.ok (db w').
Proof.
  intros Hrun Hok.
  destruct (run_full_sync_cases run_id force w)
    as [[e [Hs Hr]]|[d1 [stats [w3 [Hs [Hr [_ [_ [Hkeep _]]]]]]]]];
    rewrite Hr in Hrun; injection Hrun as <- <-.
  - exact Hok.
  - apply start_sync_run_ok in Hs as [_ ->].
    apply (ok_same_errors (db w3)); [reflexivity|reflexivity|].
    apply Hkeep. apply (ok_same_errors (db w)); [reflexivity|reflexivity|exact Hok].
Qed.

(** X25. Each of the three phases always returns a result.  When its fetch
    succeeded the result is a success and accounts for every fetched entity
    exactly once, as created, updated, skipped or as an error; when the
    fetch failed the result is the failure carrying that error, with no
    entity counted. *)
Theorem phase_accounts_for_every_entity (force : bool) (w : World) :
  let since :=
    updated_at_min_of force (Database.get_last_successful_sync (db w)) in
  (exists result w',
      sync_customers remote self force w = (Ok result, w') /\
      phase_report (fetch_all_customers remote (log w) since) result) /\
  (exists result w',
      sync_products remote float_accepts self force w = (Ok result, w') /\
      phase_report (fetch_all_products remote (log w) since) result) /\
  (exists result w',
      sync_orders remote float_accepts discount_positive self force w =
        (Ok result, w') /\
      phase_report (fetch_all_orders remote (log w) since) result).
Proof.
  intros since. subst since.
  assert (Ht : forall w1 w2 w3 : World, True -> True -> True) by auto.
  split; [|split].
  - destruct (sync_customers_lifts remote self (fun _ _ => True)
                (fun _ => I) Ht (fun _ _ _ _ => I) (fun _ _ _ => I)
                (fun _ _ _ _ _ => I) force w) as [r [w' [H [_ Hp]]]].
    eauto.
  - destruct (sync_products_lifts remote float_accepts self (fun _ _ => True)
                (fun _ => I) Ht (fun _ _ _ _ => I) (fun _ _ _ => I)
                (fun _ _ _ _ _ => I) force w) as [r [w' [H [_ Hp]]]].
    eauto.
  - destruct (sync_orders_lifts remote float_accepts discount_positive self
                (fun _ _ => True)
                (fun _ => I) Ht (fun _ _ _ _ => I) (fun _ _ _ => I)
                (fun _ _ _ _ _ _ => I) force w) as [r [w' [H [_ Hp]]]].
    eauto.
Qed.

End Run.

(* --------------------------------------------------------------------- *)
(** *** Runs on the sample data *)
(* --------------------------------------------------------------------- *)

Lemma run_full_sync_closes_its_row_witness :
  let d1 :=
    Database.with_history Database.empty
      [SyncHistoryEntry.Build "run-1" (clock Scenario.shop 1) None "running" 0 []] in
  Database.start_sync_run (db Sample.start) "run-1" (clock Scenario.shop 1) = Ok d1 /\
  exists stats w',
    run_full_sync Scenario.shop Sample.float_accepts Sample.discount_positive
      Sample.live "run-1" false Sample.start = (Ok stats, w') /\
    List.filter is_run_call (calls_since Sample.start w') =
      [Db_start_sync_run "run-1";
       Db_complete_sync_run "run-1"
         (if SyncStats_success stats then "success" else "failed")
         (SyncStats_total_processed stats) (SyncStats_total_errors stats)] /\
    (SyncStats_success stats = true <-> SyncStats_total_errors stats = []).
Proof.
  intros d1. split; [reflexivity|].
  destruct (run_full_sync_closes_its_row Scenario.shop Sample.float_accepts
              Sample.discount_positive Sample.live "run-1" false Sample.start d1
              eq_refl)
    as [stats [w' [rc [rp [ro [closed_at [H1 [_ [_ [_ [H2 [_ H3]]]]]]]]]]]].
  exists stats, w'. split; [exact H1|]. split; [exact H2|exact H3].
Defined.

Lemma run_sets_incremental_bound_witness :
  let w := Scenario.ran_before in
  let d1 :=
    Database.with_history Database.empty
      [SyncHistoryEntry.Build "run-0" 300 (Some 400) "success" 3 [];
       SyncHistoryEntry.Build "run-1" (clock Scenario.shop 1) None "running" 0 []] in
  Database.start_sync_run (db w) "run-1" (clock Scenario.shop 1) = Ok d1 /\
  updated_at_min_of false (Database.get_last_successful_sync (db w)) = Some 400 /\
  exists stats w',
    run_full_sync Scenario.shop Sample.float_accepts Sample.discount_positive
      Sample.live "run-1" false w = (Ok stats, w') /\
    SyncStats_success stats = true /\
    exists closed_at,
      Database.get_last_successful_sync (db w') =
        Some (SyncHistoryEntry.Build "run-1" (clock Scenario.shop 1)
                (Some closed_at) "success" (SyncStats_total_processed stats) []) /\
      updated_at_min_of false (Database.get_last_successful_sync (db w')) =
        Some closed_at.
Proof.
  intros w d1. split; [reflexivity|]. split; [reflexivity|].
  assert (Hs : match fst (run_full_sync Scenario.shop Sample.float_accepts
                            Sample.discount_positive Sample.live "run-1" false w)
               with
               | Ok stats => SyncStats_success stats
               | Raise _ => false
               end = true) by (vm_compute; reflexivity).
  destruct (run_sets_incremental_bound Scenario.shop Sample.float_accepts
              Sample.discount_positive Sample.live "run-1" false w d1 eq_refl)
    as [stats [w' [H1 [_ H3]]]].
  rewrite H1 in Hs. cbn [fst] in Hs.
  exists stats, w'. split; [exact H1|]. split; [exact Hs|].
  apply (H3 Hs). intros old n Hin Hsucc Hlt.
  destruct Hin as [<-|[]]. apply Z.ltb_lt. cbn. lia.
Defined.

Lemma run_without_row_does_nothing_witness :
  let w := Scenario.ran_before in
  In "run-0" (map SyncHistoryEntry.run_id (Database.sync_history (db w))) /\
  exists e w',
    run_full_sync Scenario.shop Sample.float_accepts Sample.discount_positive
      Sample.live "run-0" false w = (Raise e, w') /\
    calls_since w w' = [Db_start_sync_run "run-0"] /\
    db w' = db w.
Proof.
  intros w. split; [left; reflexivity|].
  exact (run_without_row_does_nothing Scenario.shop Sample.float_accepts
           Sample.discount_positive Sample.live "run-0" false w
           (or_introl eq_refl)).
Defined.

Lemma run_never_drops_a_mapping_witness :
  let w := Scenario.mapped "7" "contact-7" "customer" in
  let out :=
    run_full_sync Scenario.shop Sample.float_accepts Sample.discount_positive
      Sample.live "run-1" false w in
  exists m',
    Database.get_mapping (db (snd out)) "7" = Some m' /\
    SyncMapping.shopify_id m' = "7" /\
    SyncMapping.entity_type m' = "customer".
Proof.
  intros w out.
  assert (Hout : run_full_sync Scenario.shop Sample.float_accepts
                   Sample.discount_positive Sample.live "run-1" false w =
                 (fst out, snd out))
    by (subst out; apply surjective_pairing).
  pose proof (run_never_drops_a_mapping Scenario.shop Sample.float_accepts
                Sample.discount_positive Sample.live "run-1" false w
                (fst out) (snd out) "7"
                (SyncMapping.Build "7" "contact-7" "customer" (Some 500) None
                   (Some "stale"))
                Hout eq_refl) as H.
  clearbody out. exact H.
Defined.

Lemma run_keeps_error_table_ok_witness :
  let w := Sample.product_error_recorded in
  let out :=
    run_full_sync Scenario.shop Sample.float_accepts Sample.discount_positive
      Sample.live "run-1" false w in
  ErrorTable.ok (db w) /\ ErrorTable.ok (db (snd out)).
Proof.
  intros w out.
  assert (Hok : ErrorTable.ok (db w))
    by apply ErrorTableFacts.record_error_ok, ErrorTableFacts.ok_empty.
  assert (Hout : run_full_sync Scenario.shop Sample.float_accepts
                   Sample.discount_positive Sample.live "run-1" false w =
                 (fst out, snd out))
    by (subst out; apply surjective_pairing).
  pose proof (run_keeps_error_table_ok Scenario.shop Sample.float_accepts
                Sample.discount_positive Sample.live "run-1" false w
                (fst out) (snd out) Hout Hok) as H.
  clearbody out. split; [exact Hok|exact H].
Defined.

(* ===================================================================== *)
(** ** Unchanged content, pass by pass and run by run *)
(* ===================================================================== *)



Section Pushed.

Variable remote : Remote.
Variable float_accepts : string -> bool.
Variable discount_positive : string -> bool.
Variable self : SyncEngine.










End Pushed.




Section Runs.

Variable remote : Remote.
Variable float_accepts : string -> bool.
Variable discount_positive : string -> bool.
Variable self : SyncEngine.



End Runs.

Section Phases.

Variable remote : Remote.
Variable float_accepts : string -> bool.
Variable discount_positive : string -> bool.
Variable self : SyncEngine.










End Phases.

Section TwoRuns.

Variable remote : Remote.
Variable float_accepts : string -> bool.
Variable discount_positive : string -> bool.
Variable self : SyncEngine.



End TwoRuns.



